(** * Gossip: a portable conversation-context container (gossip.py)

    A shallow embedding of the [Gossip] class of [gossip.py] and the
    properties of its constructor, its dictionary codec, its attachment
    handling and its human-readable rendering. *)

From Stdlib Require Import ZArith List Bool String Ascii Lia DecimalString.
Import ListNotations.
Open Scope Z_scope.

(* ================================================================== *)
(** * Python values *)
(* ================================================================== *)

(** A Python [str] is a sequence of Unicode code points; [len] counts
    code points, not bytes. *)
Definition str := list Z.

(** An ASCII literal of the source, as a Python [str]. *)
Definition lit (s : string) : str :=
  map (fun a => Z.of_N (N_of_ascii a)) (list_ascii_of_string s).

Fixpoint str_eqb (a b : str) : bool :=
  match a, b with
  | [], [] => true
  | x :: a', y :: b' => (x =? y) && str_eqb a' b'
  | _, _ => false
  end.

(** The values that [json.loads] yields and that the class stores in its
    attributes.  JSON numbers are restricted to integers; a [dict] keeps
    its insertion order and is keyed by strings. *)
#[warnings="-register-all"]
Inductive pyval :=
| PNone
| PBool (b : bool)
| PInt (n : Z)
| PStr (s : str)
| PList (l : list pyval)
| PDict (d : list (str * pyval)).

(** Truth value of an object, as tested by [or] and [if]. *)
Definition truthy (v : pyval) : bool :=
  match v with
  | PNone => false
  | PBool b => b
  | PInt n => negb (n =? 0)
  | PStr s => match s with [] => false | _ => true end
  | PList l => match l with [] => false | _ => true end
  | PDict d => match d with [] => false | _ => true end
  end.

(** [a or b] *)
Definition py_or (a b : pyval) : pyval := if truthy a then a else b.

(* ================================================================== *)
(** * Exceptions *)
(* ================================================================== *)

Inductive exn :=
| KeyError (key : str)
| TypeError
| AttributeError
| ValueError (msg : str)
| FileNotFoundError (msg : str)
| BinasciiError
| OverflowError.

Inductive result (A : Type) :=
| Ok (a : A)
| Raise (e : exn).
Arguments Ok {A} a.
Arguments Raise {A} e.

Definition bind {A B} (r : result A) (k : A -> result B) : result B :=
  match r with
  | Ok a => k a
  | Raise e => Raise e
  end.

Notation "x <- r ;; k" := (bind r (fun x => k))
  (at level 61, r at next level, right associativity).

(* ================================================================== *)
(** * Dictionaries *)
(* ================================================================== *)

Fixpoint assoc {A} (k : str) (d : list (str * A)) : option A :=
  match d with
  | [] => None
  | (k', v) :: d' => if str_eqb k' k then Some v else assoc k d'
  end.

(** [v[k]] for a string key [k]: only a dict can be subscripted by a
    string. *)
Definition subscript (v : pyval) (k : str) : result pyval :=
  match v with
  | PDict d =>
      match assoc k d with
      | Some x => Ok x
      | None => Raise (KeyError k)
      end
  | _ => Raise TypeError
  end.

(** [v.get(k, default)]: only a dict has the method. *)
Definition get (v : pyval) (k : str) (default : pyval) : result pyval :=
  match v with
  | PDict d =>
      match assoc k d with
      | Some x => Ok x
      | None => Ok default
      end
  | _ => Raise AttributeError
  end.

(* ================================================================== *)
(** * Bytes and base64 *)
(* ================================================================== *)

(** A Python [bytes] object. *)
Definition bytes := list Byte.byte.

Definition byte_val (b : Byte.byte) : Z := Z.of_N (Byte.to_N b).

(** Storing an integer into an [unsigned char]. *)
Definition byte_of (z : Z) : Byte.byte :=
  match Byte.of_N (Z.to_N (z mod 256)) with
  | Some b => b
  | None => Byte.x00
  end.

Module Base64.

Definition table_b2a_base64 : str :=
  lit "ABCDEFGHIJKLMNOPQRSTUVWXYZabcdefghijklmnopqrstuvwxyz0123456789+/".

Definition BASE64_PAD : Z := 61.

(** The character of a six-bit value. *)
Definition b2a (six : Z) : Z := nth (Z.to_nat six) table_b2a_base64 0.

(** The six-bit value of a character; [None] for a character outside
    the alphabet. *)
Definition a2b (ch : Z) : option Z :=
  if (65 <=? ch) && (ch <=? 90) then Some (ch - 65)
  else if (97 <=? ch) && (ch <=? 122) then Some (ch - 71)
  else if (48 <=? ch) && (ch <=? 57) then Some (ch + 4)
  else if ch =? 43 then Some 62
  else if ch =? 47 then Some 63
  else None.

(** Three bytes give four characters. *)
Definition encode3 (a b c : Z) : str :=
  [ b2a (Z.shiftr a 2);
    b2a (Z.lor (Z.shiftl (Z.land a 3) 4) (Z.shiftr b 4));
    b2a (Z.lor (Z.shiftl (Z.land b 15) 2) (Z.shiftr c 6));
    b2a (Z.land c 63) ].

(** [base64.b64encode(data).decode('utf-8')]: the standard alphabet,
    padded with [=], without line breaks. *)
Fixpoint b64encode (data : bytes) : str :=
  match data with
  | [] => []
  | [a] =>
      [ b2a (Z.shiftr (byte_val a) 2);
        b2a (Z.shiftl (Z.land (byte_val a) 3) 4);
        BASE64_PAD; BASE64_PAD ]
  | [a; b] =>
      [ b2a (Z.shiftr (byte_val a) 2);
        b2a (Z.lor (Z.shiftl (Z.land (byte_val a) 3) 4)
                   (Z.shiftr (byte_val b) 4));
        b2a (Z.shiftl (Z.land (byte_val b) 15) 2);
        BASE64_PAD ]
  | a :: b :: c :: rest =>
      encode3 (byte_val a) (byte_val b) (byte_val c) ++ b64encode rest
  end.

(** The decoding loop of [binascii.a2b_base64] in its default,
    non-strict mode: characters outside the alphabet are skipped, a pad
    that completes a quad ends the input, and an incomplete quad at the
    end of the input is an error. *)
Fixpoint a2b_loop (s : str) (quad_pos leftchar pads : Z) (bin_data : bytes)
  : result bytes :=
  match s with
  | [] => if quad_pos =? 0 then Ok bin_data else Raise BinasciiError
  | this_ch :: s' =>
      if this_ch =? BASE64_PAD then
        if 2 <=? quad_pos then
          if 4 <=? quad_pos + (pads + 1) then Ok bin_data
          else a2b_loop s' quad_pos leftchar (pads + 1) bin_data
        else a2b_loop s' quad_pos leftchar pads bin_data
      else
        match a2b this_ch with
        | None => a2b_loop s' quad_pos leftchar pads bin_data
        | Some v =>
            if quad_pos =? 0 then a2b_loop s' 1 v 0 bin_data
            else if quad_pos =? 1 then
              a2b_loop s' 2 (Z.land v 15) 0
                (bin_data ++
                 [byte_of (Z.lor (Z.shiftl leftchar 2) (Z.shiftr v 4))])
            else if quad_pos =? 2 then
              a2b_loop s' 3 (Z.land v 3) 0
                (bin_data ++
                 [byte_of (Z.lor (Z.shiftl leftchar 4) (Z.shiftr v 2))])
            else
              a2b_loop s' 0 0 0
                (bin_data ++ [byte_of (Z.lor (Z.shiftl leftchar 6) v)])
        end
  end.

Definition a2b_base64 (s : str) : result bytes := a2b_loop s 0 0 0 [].

(** [base64.b64decode(s)] for a [str] argument: the string is first
    encoded as ASCII. *)
Definition b64decode (s : str) : result bytes :=
  if forallb (fun ch => ch <? 128) s then a2b_base64 s
  else Raise (ValueError
                (lit "string argument should contain only ASCII characters")).

End Base64.

(* ================================================================== *)
(** * String helpers *)
(* ================================================================== *)

(** [sep.join(parts)] *)
Fixpoint join (sep : str) (parts : list str) : str :=
  match parts with
  | [] => []
  | [p] => p
  | p :: rest => p ++ sep ++ join sep rest
  end.

(** [s.lstrip(chars)]: drops every leading character that occurs in
    [chars]. *)
Fixpoint lstrip (chars : str) (s : str) : str :=
  match s with
  | [] => []
  | c :: s' => if existsb (Z.eqb c) chars then lstrip chars s' else s
  end.

(** [s.replace(old, new)] for a one-character [old]: every occurrence
    is replaced. *)
Definition replace_char (old : Z) (new : str) (s : str) : str :=
  flat_map (fun c => if c =? old then new else [c]) s.

(** [s.lower()] on the ASCII letters; the keys it is compared with are
    ASCII. *)
Definition lower (s : str) : str :=
  map (fun c => if (65 <=? c) && (c <=? 90) then c + 32 else c) s.

(** [str(n)] for an integer. *)
Definition decimal (n : Z) : str :=
  lit (DecimalString.NilZero.string_of_int (Z.to_int n)).

(** The length of [s.encode('utf-8')]. *)
Definition utf8_len (s : str) : Z :=
  fold_right
    (fun c acc =>
       (if c <? 128 then 1
        else if c <? 2048 then 2
        else if c <? 65536 then 3
        else 4) + acc)
    0 s.

(** [len(s)] *)
Definition len (s : str) : Z := Z.of_nat (List.length s).

(* ================================================================== *)
(** * Floating point: the quotients and the [.1f] format that the
      class uses *)
(* ================================================================== *)

Module PyFloat.

(** A finite binary64 value [mant * 2 ^ expo].  The exponent is not
    bounded below: the quotients formed here have the divisor 1024 or a
    string length, and never reach the subnormal range. *)
Record t := mk { mant : Z; expo : Z }.

(** The integer nearest to [a / b], ties to even ([0 <= a], [0 < b]). *)
Definition round_half_even (a b : Z) : Z :=
  let q := a / b in
  let r := a mod b in
  if 2 * r <? b then q
  else if b <? 2 * r then q + 1
  else if Z.even q then q
  else q + 1.

(** [a * 2 ^ k / b] as a fraction of integers, for any sign of [k]. *)
Definition scaled (a b k : Z) : Z * Z :=
  if 0 <=? k then (a * 2 ^ k, b) else (a, b * 2 ^ (- k)).

(** The binary64 value nearest to [a / b], ties to even ([0 < a],
    [0 < b]): 53 significant bits. *)
Definition round53 (a b : Z) : t :=
  let e0 := Z.log2 a - Z.log2 b - 53 in
  let '(n0, d0) := scaled a b (- e0) in
  let e := if 2 ^ 53 * d0 <=? n0 then e0 + 1 else e0 in
  let '(n, d) := scaled a b (- e) in
  mk (round_half_even n d) e.

(** Is the magnitude at least [2 ^ 1024]? *)
Definition too_large (x : t) : bool :=
  let '(n, d) := scaled (Z.abs (mant x)) 1 (expo x) in
  2 ^ 1024 * d <=? n.

(** [a / b] for integers [a] and [0 < b]: the correctly rounded
    quotient, or [OverflowError]. *)
Definition true_div (a b : Z) : result t :=
  if a =? 0 then Ok (mk 0 0)
  else
    let x := round53 (Z.abs a) b in
    let x := mk (Z.sgn a * mant x) (expo x) in
    if too_large x then Raise OverflowError else Ok x.

(** [x * k] for a float [x] and a positive integer [k < 2 ^ 53]. *)
Definition mul_int (x : t) (k : Z) : t :=
  if mant x =? 0 then x
  else
    let '(n, d) := scaled (Z.abs (mant x) * k) 1 (expo x) in
    let y := round53 n d in
    mk (Z.sgn (mant x) * mant y) (expo y).

(** [f"{x:.1f}"]: the decimal with one fractional digit nearest to the
    exact value of [x], ties to even. *)
Definition format_1f (x : t) : str :=
  let '(n, d) := scaled (Z.abs (mant x) * 10) 1 (expo x) in
  let tenths := round_half_even n d in
  (if mant x <? 0 then lit "-" else []) ++
  decimal (tenths / 10) ++ lit "." ++ decimal (tenths mod 10).

End PyFloat.

(* ================================================================== *)
(** * JSON text *)
(* ================================================================== *)

Module Json.

Definition hex_digit (d : Z) : Z :=
  nth (Z.to_nat d) (lit "0123456789abcdef") 0.

(** ['\\u{0:04x}'.format(n)] *)
Definition u_escape (n : Z) : str :=
  [92; 117;
   hex_digit (Z.land (Z.shiftr n 12) 15);
   hex_digit (Z.land (Z.shiftr n 8) 15);
   hex_digit (Z.land (Z.shiftr n 4) 15);
   hex_digit (Z.land n 15)].

(** One character of a string under [ensure_ascii=True]. *)
Definition escape_char (c : Z) : str :=
  if c =? 34 then [92; 34]
  else if c =? 92 then [92; 92]
  else if c =? 10 then [92; 110]
  else if c =? 13 then [92; 114]
  else if c =? 9 then [92; 116]
  else if c =? 12 then [92; 102]
  else if c =? 8 then [92; 98]
  else if (32 <=? c) && (c <=? 126) then [c]
  else if c <? 65536 then u_escape c
  else
    let n := c - 65536 in
    u_escape (Z.lor 55296 (Z.land (Z.shiftr n 10) 1023)) ++
    u_escape (Z.lor 56320 (Z.land n 1023)).

Definition encode_basestring_ascii (s : str) : str :=
  [34] ++ flat_map escape_char s ++ [34].

(** The line break and indentation before an item, when an indent is
    given. *)
Definition newline_indent (indent : option nat) (level : nat) : str :=
  match indent with
  | None => []
  | Some n => [10] ++ repeat 32 (n * level)
  end.

Definition item_separator (indent : option nat) : str :=
  match indent with
  | None => lit ", "
  | Some _ => lit ","
  end.

(** [json.dumps(v, indent=indent)] with the other options at their
    defaults. *)
Fixpoint dumps_at (indent : option nat) (level : nat) (v : pyval) : str :=
  match v with
  | PNone => lit "null"
  | PBool true => lit "true"
  | PBool false => lit "false"
  | PInt n => decimal n
  | PStr s => encode_basestring_ascii s
  | PList [] => lit "[]"
  | PList l =>
      lit "[" ++ newline_indent indent (S level) ++
      join (item_separator indent ++ newline_indent indent (S level))
           (map (dumps_at indent (S level)) l) ++
      newline_indent indent level ++ lit "]"
  | PDict [] => lit "{}"
  | PDict d =>
      lit "{" ++ newline_indent indent (S level) ++
      join (item_separator indent ++ newline_indent indent (S level))
           (map (fun kv =>
                   encode_basestring_ascii (fst kv) ++ lit ": " ++
                   dumps_at indent (S level) (snd kv)) d) ++
      newline_indent indent level ++ lit "}"
  end.

Definition dumps (v : pyval) (indent : option nat) : str :=
  dumps_at indent 0 v.

End Json.

(* ================================================================== *)
(** * Library functions taken as given *)
(* ================================================================== *)

(** The functions of the Python library that the class calls and whose
    results are not computed here. *)
Record Library := {
  datetime : Type;
  (** [datetime.fromisoformat]; [None] stands for its [ValueError]. *)
  fromisoformat : str -> option datetime;
  (** [d.strftime(format)] *)
  strftime : datetime -> str -> str;
  (** [json.loads]; [None] stands for [json.JSONDecodeError]. *)
  json_loads : str -> option pyval;
  (** [str(v)] for a value that is not a string. *)
  str_of : pyval -> str;
  (** [Path(p).name] and [Path(p).suffix] *)
  path_name : str -> str;
  path_suffix : str -> str
}.

(** An interpolation [{v}] in an f-string. *)
Definition format_value (lib : Library) (v : pyval) : str :=
  match v with
  | PStr s => s
  | _ => str_of lib v
  end.

(** [iter(v)], run to the end. *)
Definition py_iter (v : pyval) : result (list pyval) :=
  match v with
  | PList l => Ok l
  | PStr s => Ok (map (fun c => PStr [c]) s)
  | PDict d => Ok (map (fun kv => PStr (fst kv)) d)
  | _ => Raise TypeError
  end.

(** [len(v)] *)
Definition py_len (v : pyval) : result Z :=
  match v with
  | PList l => Ok (Z.of_nat (List.length l))
  | PStr s => Ok (Z.of_nat (List.length s))
  | PDict d => Ok (Z.of_nat (List.length d))
  | _ => Raise TypeError
  end.

(** The integer value of an operand of [+] or [/] with an integer. *)
Definition as_int (v : pyval) : result Z :=
  match v with
  | PInt n => Ok n
  | PBool b => Ok (if b then 1 else 0)
  | _ => Raise TypeError
  end.

(** [for x in xs: ...] with a body that can raise. *)
Fixpoint mapM {A B} (f : A -> result B) (xs : list A) : result (list B) :=
  match xs with
  | [] => Ok []
  | x :: xs' => y <- f x ;; ys <- mapM f xs' ;; Ok (y :: ys)
  end.

(* ================================================================== *)
(** * The record that [get_stats] returns *)
(* ================================================================== *)

Module Stats.

Record t := mk {
  gossip_id : pyval;
  topic : pyval;
  created : pyval;
  source_ai : pyval;
  key_points_count : Z;
  open_questions_count : Z;
  files_count : Z;
  total_file_size_kb : PyFloat.t;
  json_size_kb : PyFloat.t;
  human_readable_size_kb : PyFloat.t;
  compression_ratio : str
}.

End Stats.

(* ================================================================== *)
(** * The Gossip object *)
(* ================================================================== *)

Module Gossip.

(** [VERSION = "1.0"] *)
Definition VERSION : str := lit "1.0".

(** The attributes of an instance. *)
Record t := mk {
  gossip_id : pyval;
  created : pyval;
  metadata : pyval;
  context : pyval;
  files : pyval;
  continuation : pyval
}.

(** What the constructor reads from its surroundings when an id or a
    timestamp is not supplied: [uuid.uuid4().hex] and
    [datetime.utcnow().isoformat()]. *)
Record World := {
  uuid4_hex : str;
  utcnow_isoformat : str
}.

(** [gossip.files = v] *)
Definition set_files (g : t) (v : pyval) : t :=
  {| gossip_id := gossip_id g;
     created := created g;
     metadata := metadata g;
     context := context g;
     files := v;
     continuation := continuation g |}.

(** [Gossip.__init__] *)
Definition __init__ (w : World)
    (topic summary source_ai key_points open_questions
     continuation gossip_id created : pyval) : t :=
  {| gossip_id :=
       py_or gossip_id (PStr (lit "gossip_" ++ firstn 12 (uuid4_hex w)));
     created := py_or created (PStr (utcnow_isoformat w ++ lit "Z"));
     metadata := PDict
       [ (lit "topic", topic);
         (lit "source_ai", source_ai);
         (lit "created_by", PStr (lit "Gossip v1.0")) ];
     context := PDict
       [ (lit "summary", summary);
         (lit "key_points", py_or key_points (PList []));
         (lit "open_questions", py_or open_questions (PList [])) ];
     files := PList [];
     continuation := py_or continuation (PStr []) |}.

(** The call [Gossip(...)]: the body of [__init__] has no [raise] and
    calls nothing that raises. *)
Definition new (w : World)
    (topic summary source_ai key_points open_questions
     continuation gossip_id created : pyval) : result t :=
  Ok (__init__ w topic summary source_ai key_points open_questions
               continuation gossip_id created).

(** [Gossip(topic=..., summary=...)], the optional parameters at their
    defaults: [source_ai="unknown"] and [None] for the others. *)
Definition new_default (w : World) (topic summary : pyval) : result t :=
  new w topic summary (PStr (lit "unknown")) PNone PNone PNone PNone PNone.

(** [Gossip.to_dict] *)
Definition to_dict (g : t) : pyval :=
  PDict
    [ (lit "version", PStr VERSION);
      (lit "gossip_id", gossip_id g);
      (lit "created", created g);
      (lit "metadata", metadata g);
      (lit "context", context g);
      (lit "files", files g);
      (lit "continuation", continuation g) ].

(** [Gossip.from_dict]; the keyword arguments are evaluated in the order
    in which they are written. *)
Definition from_dict (w : World) (data : pyval) : result t :=
  md <- subscript data (lit "metadata") ;;
  topic <- subscript md (lit "topic") ;;
  cx <- subscript data (lit "context") ;;
  summary <- subscript cx (lit "summary") ;;
  md1 <- subscript data (lit "metadata") ;;
  source_ai <- get md1 (lit "source_ai") (PStr (lit "unknown")) ;;
  cx1 <- subscript data (lit "context") ;;
  key_points <- get cx1 (lit "key_points") (PList []) ;;
  cx2 <- subscript data (lit "context") ;;
  open_questions <- get cx2 (lit "open_questions") (PList []) ;;
  continuation <- get data (lit "continuation") (PStr []) ;;
  gossip_id <- subscript data (lit "gossip_id") ;;
  created <- subscript data (lit "created") ;;
  gossip <- new w topic summary source_ai key_points open_questions
                continuation gossip_id created ;;
  fs <- get data (lit "files") (PList []) ;;
  Ok (set_files gossip fs).

(** [Gossip._get_mime_type] *)
Definition mime_map : list (str * str) :=
  [ (lit ".txt", lit "text/plain");
    (lit ".pdf", lit "application/pdf");
    (lit ".json", lit "application/json");
    (lit ".png", lit "image/png");
    (lit ".jpg", lit "image/jpeg");
    (lit ".jpeg", lit "image/jpeg");
    (lit ".gif", lit "image/gif");
    (lit ".csv", lit "text/csv");
    (lit ".md", lit "text/markdown");
    (lit ".py", lit "text/x-python");
    (lit ".js", lit "text/javascript");
    (lit ".html", lit "text/html");
    (lit ".xml", lit "text/xml");
    (lit ".zip", lit "application/zip");
    (lit ".doc", lit "application/msword");
    (lit ".docx",
     lit "application/vnd.openxmlformats-officedocument.wordprocessingml.document");
    (lit ".xls", lit "application/vnd.ms-excel");
    (lit ".xlsx",
     lit "application/vnd.openxmlformats-officedocument.spreadsheetml.sheet") ].

Definition _get_mime_type (extension : str) : str :=
  match assoc (lower extension) mime_map with
  | Some m => m
  | None => lit "application/octet-stream"
  end.

(** The dictionary that [add_file] appends. *)
Definition file_entry (name mime_type : str) (data : bytes) : pyval :=
  PDict
    [ (lit "name", PStr name);
      (lit "type", PStr mime_type);
      (lit "size", PInt (Z.of_nat (List.length data)));
      (lit "encoding", PStr (lit "base64"));
      (lit "data", PStr (Base64.b64encode data)) ].

(** [Gossip.add_file]; [fs] gives the content of the files that exist
    and can be read, and nothing for a path that does not exist.  A path
    that exists and cannot be read, for which [open] raises, is not
    among the cases.  The message printed at the end is left out. *)
Definition add_file (lib : Library) (fs : str -> option bytes)
    (filepath : str) (g : t) : result t :=
  match fs filepath with
  | None => Raise (FileNotFoundError (lit "File not found: " ++ filepath))
  | Some data =>
      let mime_type := _get_mime_type (path_suffix lib filepath) in
      match files g with
      | PList l =>
          Ok (set_files g
                (PList (l ++ [file_entry (path_name lib filepath)
                                         mime_type data])))
      | _ => Raise AttributeError
      end
  end.

(** [Gossip.to_json] *)
Definition to_json (g : t) (pretty : bool) : str :=
  Json.dumps (to_dict g) (if pretty then Some 2%nat else None).

(** The rule and the bullet, with the code points that the source
    writes. *)
Definition RULE : str := List.concat (repeat [8218; 239; 234] 63).
Definition BULLET : str := [8218; 196; 162; 32].

(** [f"<bullet> {point.lstrip('- ')}"] *)
Definition bullet_line (point : pyval) : result pyval :=
  match point with
  | PStr s => Ok (PStr (BULLET ++ lstrip (lit "- ") s))
  | _ => Raise AttributeError
  end.

(** The line of one attached file. *)
Definition file_line (lib : Library) (file : pyval) : result pyval :=
  sz <- subscript file (lit "size") ;;
  n <- as_int sz ;;
  size_kb <- PyFloat.true_div n 1024 ;;
  nm <- subscript file (lit "name") ;;
  ty <- subscript file (lit "type") ;;
  Ok (PStr (BULLET ++ format_value lib nm ++ lit " (" ++
            format_value lib ty ++ lit ", " ++
            PyFloat.format_1f size_kb ++ lit " KB)")).

(** [datetime.fromisoformat(created.replace('Z', '+00:00'))
       .strftime('%Y-%m-%d %H:%M:%S UTC')].  The [ValueError] of the
    library is given the fixed words of its message. *)
Definition created_text (lib : Library) (created : pyval) : result str :=
  match created with
  | PStr s =>
      match fromisoformat lib (replace_char 90 (lit "+00:00") s) with
      | Some d => Ok (strftime lib d (lit "%Y-%m-%d %H:%M:%S UTC"))
      | None => Raise (ValueError (lit "Invalid isoformat string"))
      end
  | _ => Raise AttributeError
  end.

(** ["\n".join(lines)]: every item has to be a string. *)
Definition join_lines (lines : list pyval) : result str :=
  ss <- mapM (fun v => match v with
                       | PStr s => Ok s
                       | _ => Raise TypeError
                       end) lines ;;
  Ok (join [10] ss).

Definition header_lines (lib : Library) (g : t) (topic source_ai : pyval)
    (created_s : str) (summary : pyval) : list pyval :=
  [ PStr (lit "# GOSSIP [ID: " ++ format_value lib (gossip_id g) ++ lit "]");
    PStr RULE;
    PStr (lit "AI Conversation Context Transfer File");
    PStr (lit "Created by Gossip - Universal AI Integration Layer");
    PStr RULE;
    PStr [];
    PStr (lit "**Topic:** " ++ format_value lib topic);
    PStr (lit "**Source AI:** " ++ format_value lib source_ai);
    PStr (lit "**Created:** " ++ created_s);
    PStr [];
    PStr RULE;
    PStr (lit "## CONVERSATION CONTEXT");
    PStr [];
    summary;
    PStr [];
    PStr RULE;
    PStr (lit "## KEY POINTS & DECISIONS");
    PStr [] ].

Definition questions_heading : list pyval :=
  [ PStr []; PStr RULE; PStr (lit "## OPEN QUESTIONS / NEXT STEPS");
    PStr [] ].

Definition files_heading : list pyval :=
  [ PStr []; PStr RULE; PStr (lit "## ATTACHED FILES"); PStr [] ].

Definition files_note : list pyval :=
  [ PStr [];
    PStr (lit "[Files are base64-encoded in the full Gossip JSON format]") ].

Definition continuation_lines (continuation : pyval) : list pyval :=
  [ PStr []; PStr RULE; PStr (lit "## CONTINUE FROM HERE:"); PStr [];
    continuation ].

Definition instruction_lines (lib : Library) (source_ai : pyval)
  : list pyval :=
  [ PStr [];
    PStr RULE;
    PStr (lit "## INSTRUCTIONS FOR AI SYSTEMS:");
    PStr [];
    PStr (lit "This is a Gossip file - a universal context transfer format for AI systems.");
    PStr (lit "Please read this entire context carefully. This represents a conversation");
    PStr (lit "from another AI system (" ++ format_value lib source_ai ++
          lit ") that should continue");
    PStr (lit "seamlessly in your system.");
    PStr [];
    PStr (lit "Treat this as if you've been having this conversation yourself. Reference");
    PStr (lit "the key points and decisions made, acknowledge the open questions, and pick");
    PStr (lit "up from the 'Continue from here' section.");
    PStr [];
    PStr (lit "If files are referenced but not accessible in your system, acknowledge them");
    PStr (lit "and proceed based on the context provided.");
    PStr [];
    PStr (lit "Gossip enables AI interoperability. Honor the context and maintain continuity.");
    PStr RULE ].

(** The section of the attached files: present when [self.files] is
    true. *)
Definition files_section (lib : Library) (fs : pyval)
  : result (list pyval) :=
  if truthy fs then
    items <- py_iter fs ;;
    file_lines <- mapM (file_line lib) items ;;
    Ok (files_heading ++ file_lines ++ files_note)
  else Ok [].

(** The section of the continuation: present when [self.continuation]
    is true. *)
Definition continuation_section (continuation : pyval) : list pyval :=
  if truthy continuation then continuation_lines continuation else [].

(** The list [lines] at the end of [to_human_readable]. *)
Definition human_lines (lib : Library) (g : t) : result (list pyval) :=
  topic <- subscript (metadata g) (lit "topic") ;;
  source_ai <- subscript (metadata g) (lit "source_ai") ;;
  created_s <- created_text lib (created g) ;;
  summary <- subscript (context g) (lit "summary") ;;
  key_points <- subscript (context g) (lit "key_points") ;;
  points <- py_iter key_points ;;
  point_lines <- mapM bullet_line points ;;
  open_questions <- subscript (context g) (lit "open_questions") ;;
  questions <- py_iter open_questions ;;
  question_lines <- mapM bullet_line questions ;;
  attached <- files_section lib (files g) ;;
  source_ai' <- subscript (metadata g) (lit "source_ai") ;;
  Ok (header_lines lib g topic source_ai created_s summary ++
      point_lines ++
      questions_heading ++
      question_lines ++
      attached ++
      continuation_section (continuation g) ++
      instruction_lines lib source_ai').

(** [Gossip.to_human_readable] *)
Definition to_human_readable (lib : Library) (g : t) : result str :=
  lines <- human_lines lib g ;;
  join_lines lines.

(** [Gossip.load]; [read_text] is the reading of the file. *)
Definition load (lib : Library) (w : World) (read_text : str -> result str)
    (filepath : str) : result t :=
  content <- read_text filepath ;;
  match json_loads lib content with
  | Some data => from_dict w data
  | None =>
      Raise (ValueError
        (lit "Could not parse Gossip file. Ensure it's valid JSON format."))
  end.

(** [b64decode] of an attribute value. *)
Definition b64decode_value (v : pyval) : result bytes :=
  match v with
  | PStr s => Base64.b64decode s
  | _ => Raise TypeError
  end.

(** [file['name'] == filename] for a string [filename]. *)
Definition equals_str (v : pyval) (s : str) : bool :=
  match v with
  | PStr s' => str_eqb s' s
  | _ => false
  end.

(** The loop of [extract_file] over the attached files.  The result is
    the path that is returned together with the bytes written to it; the
    writing itself is taken to succeed. *)
Fixpoint extract_loop (items : list pyval) (filename : str)
    (output_path : option str) : result (str * bytes) :=
  match items with
  | [] => Raise (ValueError (lit "File not found in Gossip: " ++ filename))
  | file :: rest =>
      nm <- subscript file (lit "name") ;;
      if equals_str nm filename then
        encoded <- subscript file (lit "data") ;;
        data <- b64decode_value encoded ;;
        Ok (match output_path with
            | Some p => p
            | None => filename
            end, data)
      else extract_loop rest filename output_path
  end.

(** [Gossip.extract_file] *)
Definition extract_file (g : t) (filename : str) (output_path : option str)
  : result (str * bytes) :=
  items <- py_iter (files g) ;;
  extract_loop items filename output_path.

(** [sum(f['size'] for f in self.files)] *)
Fixpoint sum_sizes (items : list pyval) (acc : Z) : result Z :=
  match items with
  | [] => Ok acc
  | f :: rest =>
      sz <- subscript f (lit "size") ;;
      n <- as_int sz ;;
      sum_sizes rest (acc + n)
  end.

(** [Gossip.get_stats] *)
Definition get_stats (lib : Library) (g : t) : result Stats.t :=
  let json_size := len (to_json g false) in
  human <- to_human_readable lib g ;;
  let human_size := len human in
  topic <- subscript (metadata g) (lit "topic") ;;
  source_ai <- subscript (metadata g) (lit "source_ai") ;;
  key_points <- subscript (context g) (lit "key_points") ;;
  key_points_count <- py_len key_points ;;
  open_questions <- subscript (context g) (lit "open_questions") ;;
  open_questions_count <- py_len open_questions ;;
  files_count <- py_len (files g) ;;
  items <- py_iter (files g) ;;
  total <- sum_sizes items 0 ;;
  total_file_size_kb <- PyFloat.true_div total 1024 ;;
  json_size_kb <- PyFloat.true_div json_size 1024 ;;
  human_readable_size_kb <- PyFloat.true_div human_size 1024 ;;
  compression_ratio <-
    (if 0 <? json_size then
       q <- PyFloat.true_div human_size json_size ;;
       Ok (PyFloat.format_1f (PyFloat.mul_int q 100) ++ lit "%")
     else Ok (lit "N/A")) ;;
  Ok (Stats.mk (gossip_id g) topic (created g) source_ai
               key_points_count open_questions_count files_count
               total_file_size_kb json_size_kb human_readable_size_kb
               compression_ratio).

End Gossip.

(* ================================================================== *)
(** * Containers at the declared types *)
(* ================================================================== *)

(** An entry of [files] as [add_file] writes it. *)
Module Attachment.

Record t := mk {
  name : str;
  mimeType : str;
  sizeBytes : Z;
  encoding : str;
  payload : str
}.

Definition to_value (a : t) : pyval :=
  PDict
    [ (lit "name", PStr (name a));
      (lit "type", PStr (mimeType a));
      (lit "size", PInt (sizeBytes a));
      (lit "encoding", PStr (encoding a));
      (lit "data", PStr (payload a)) ].

End Attachment.

(** An instance whose attributes have the types that the signature of
    the constructor and [add_file] give them. *)
Module Container.

Record t := mk {
  id : str;
  createdAt : str;
  topic : str;
  sourceSystem : str;
  summary : str;
  keyPoints : list str;
  openQuestions : list str;
  continuation : str;
  attachments : list Attachment.t
}.

(** The instance of the class that holds these values. *)
Definition obj (c : t) : Gossip.t :=
  Gossip.mk
    (PStr (id c))
    (PStr (createdAt c))
    (PDict
       [ (lit "topic", PStr (topic c));
         (lit "source_ai", PStr (sourceSystem c));
         (lit "created_by", PStr (lit "Gossip v1.0")) ])
    (PDict
       [ (lit "summary", PStr (summary c));
         (lit "key_points", PList (map PStr (keyPoints c)));
         (lit "open_questions", PList (map PStr (openQuestions c))) ])
    (PList (map Attachment.to_value (attachments c)))
    (PStr (continuation c)).

End Container.

(* ================================================================== *)
(** * A reference instance of the library functions *)
(* ================================================================== *)

(** An executable instance of [Library], on which the definitions above
    can be run.  Timestamps follow the grammar documented for
    [datetime.fromisoformat]:
    [YYYY-MM-DD[*HH[:MM[:SS[.fff[fff]]]][+HH:MM[:SS]]]];
    JSON texts are read with integers as the only numbers. *)
Module Reference.

Definition obind {A B} (o : option A) (k : A -> option B) : option B :=
  match o with
  | Some a => k a
  | None => None
  end.

Definition digit (c : Z) : option Z :=
  if (48 <=? c) && (c <=? 57) then Some (c - 48) else None.

(** [n] decimal digits at the head of [s]. *)
Fixpoint digits (n : nat) (s : str) (acc : Z) : option (Z * str) :=
  match n with
  | O => Some (acc, s)
  | S n' =>
      match s with
      | c :: s' => obind (digit c) (fun d => digits n' s' (acc * 10 + d))
      | [] => None
      end
  end.

Definition expect (c : Z) (s : str) : option str :=
  match s with
  | c' :: s' => if c' =? c then Some s' else None
  | [] => None
  end.

Record datetime := mkdt {
  year : Z; month : Z; day : Z; hour : Z; minute : Z; second : Z
}.

Definition days_in_month (y m : Z) : Z :=
  if m =? 2 then
    if ((y mod 4 =? 0) && negb (y mod 100 =? 0)) || (y mod 400 =? 0)
    then 29 else 28
  else if (m =? 4) || (m =? 6) || (m =? 9) || (m =? 11) then 30
  else 31.

(** [+HH:MM[:SS]] up to the end of the string. *)
Definition parse_offset (s : str) : bool :=
  match s with
  | sign :: s1 =>
      if (sign =? 43) || (sign =? 45) then
        match obind (digits 2 s1 0) (fun '(h, s2) =>
              obind (expect 58 s2) (fun s3 =>
              obind (digits 2 s3 0) (fun '(m, s4) =>
                if (h <? 24) && (m <? 60) then
                  match s4 with
                  | [] => Some true
                  | _ =>
                      obind (expect 58 s4) (fun s5 =>
                      obind (digits 2 s5 0) (fun '(sec, s6) =>
                        match s6 with
                        | [] => Some (sec <? 60)
                        | _ => None
                        end))
                  end
                else None)))
        with
        | Some b => b
        | None => false
        end
      else false
  | [] => false
  end.

(** The fraction of a second, three or six digits, and what follows. *)
Definition parse_fraction (s : str) : option str :=
  match s with
  | 46 :: s1 =>
      obind (digits 3 s1 0) (fun '(_, s2) =>
        match digits 3 s2 0 with
        | Some (_, s3) => Some s3
        | None => Some s2
        end)
  | _ => Some s
  end.

Definition tail_ok (s : str) : bool :=
  match s with
  | [] => true
  | _ => parse_offset s
  end.

(** [HH[:MM[:SS[.fff[fff]]]]] and the offset. *)
Definition parse_time (s : str) : option (Z * Z * Z) :=
  obind (digits 2 s 0) (fun '(h, s1) =>
    if negb (h <? 24) then None
    else
      match expect 58 s1 with
      | None => if tail_ok s1 then Some (h, 0, 0) else None
      | Some s2 =>
          obind (digits 2 s2 0) (fun '(m, s3) =>
            if negb (m <? 60) then None
            else
              match expect 58 s3 with
              | None => if tail_ok s3 then Some (h, m, 0) else None
              | Some s4 =>
                  obind (digits 2 s4 0) (fun '(sec, s5) =>
                    if negb (sec <? 60) then None
                    else
                      obind (parse_fraction s5) (fun s6 =>
                        if tail_ok s6 then Some (h, m, sec) else None))
              end)
      end).

Definition fromisoformat (s : str) : option datetime :=
  obind (digits 4 s 0) (fun '(y, s1) =>
  obind (expect 45 s1) (fun s2 =>
  obind (digits 2 s2 0) (fun '(m, s3) =>
  obind (expect 45 s3) (fun s4 =>
  obind (digits 2 s4 0) (fun '(d, s5) =>
    if (1 <=? y) && (1 <=? m) && (m <=? 12) && (1 <=? d)
       && (d <=? days_in_month y m)
    then
      match s5 with
      | [] => Some (mkdt y m d 0 0 0)
      | _ :: s6 =>
          obind (parse_time s6) (fun '(h, mi, sec) =>
            Some (mkdt y m d h mi sec))
      end
    else None))))).

Definition pad (width : nat) (n : Z) : str :=
  let ds := decimal n in
  repeat 48 (width - List.length ds) ++ ds.

(** The directives [%Y %m %d %H %M %S]; other characters are copied. *)
Fixpoint strftime (d : datetime) (format : str) : str :=
  match format with
  | 37 :: c :: rest =>
      (if c =? 89 then pad 4 (year d)
       else if c =? 109 then pad 2 (month d)
       else if c =? 100 then pad 2 (day d)
       else if c =? 72 then pad 2 (hour d)
       else if c =? 77 then pad 2 (minute d)
       else if c =? 83 then pad 2 (second d)
       else [37; c]) ++ strftime d rest
  | c :: rest => c :: strftime d rest
  | [] => []
  end.

(** [str(v)] of the values that are not containers. *)
Definition str_of (v : pyval) : str :=
  match v with
  | PNone => lit "None"
  | PBool true => lit "True"
  | PBool false => lit "False"
  | PInt n => decimal n
  | PStr s => s
  | PList _ => lit "[...]"
  | PDict _ => lit "{...}"
  end.

(** The last component of a path, and its suffix. *)
Fixpoint path_name_from (s : str) (acc : str) : str :=
  match s with
  | [] => acc
  | c :: s' => if c =? 47 then path_name_from s' [] else path_name_from s' (acc ++ [c])
  end.

Definition path_name (p : str) : str := path_name_from p [].

Fixpoint suffix_from (s : str) (acc : option str) : option str :=
  match s with
  | [] => acc
  | c :: s' =>
      if c =? 46 then suffix_from s' (Some [c])
      else suffix_from s' (option_map (fun a => a ++ [c]) acc)
  end.

Definition path_suffix (p : str) : str :=
  match path_name p with
  | [] => []
  | c :: rest =>
      match suffix_from rest None with
      | Some (dot :: x :: ext) => dot :: x :: ext
      | _ => []
      end
  end.

(** ** Reading a JSON text *)

Definition is_ws (c : Z) : bool :=
  (c =? 32) || (c =? 9) || (c =? 10) || (c =? 13).

Fixpoint skip_ws (s : str) : str :=
  match s with
  | c :: s' => if is_ws c then skip_ws s' else s
  | [] => []
  end.

Fixpoint strip_prefix (p s : str) : option str :=
  match p, s with
  | [], _ => Some s
  | a :: p', b :: s' => if a =? b then strip_prefix p' s' else None
  | _ :: _, [] => None
  end.

Definition hex_val (c : Z) : option Z :=
  if (48 <=? c) && (c <=? 57) then Some (c - 48)
  else if (97 <=? c) && (c <=? 102) then Some (c - 87)
  else if (65 <=? c) && (c <=? 70) then Some (c - 55)
  else None.

Definition hex4 (a b c d : Z) : option Z :=
  obind (hex_val a) (fun x3 =>
  obind (hex_val b) (fun x2 =>
  obind (hex_val c) (fun x1 =>
  obind (hex_val d) (fun x0 =>
    Some (((x3 * 16 + x2) * 16 + x1) * 16 + x0))))).

Definition simple_escape (e : Z) : option Z :=
  if e =? 34 then Some 34
  else if e =? 92 then Some 92
  else if e =? 47 then Some 47
  else if e =? 98 then Some 8
  else if e =? 102 then Some 12
  else if e =? 110 then Some 10
  else if e =? 114 then Some 13
  else if e =? 116 then Some 9
  else None.

(** The characters of a string after its opening quote. *)
Fixpoint parse_chars (s : str) (acc : str) : option (str * str) :=
  match s with
  | [] => None
  | c :: r =>
      if c =? 34 then Some (acc, r)
      else if c =? 92 then
        match r with
        | e :: r1 =>
            if e =? 117 then
              match r1 with
              | h1 :: h2 :: h3 :: h4 :: r2 =>
                  obind (hex4 h1 h2 h3 h4) (fun u =>
                    match r2 with
                    | b :: u' :: g1 :: g2 :: g3 :: g4 :: r3 =>
                        match hex4 g1 g2 g3 g4 with
                        | Some v =>
                            if (b =? 92) && (u' =? 117)
                               && (55296 <=? u) && (u <=? 56319)
                               && (56320 <=? v) && (v <=? 57343)
                            then
                              parse_chars r3
                                (acc ++ [65536 + (u - 55296) * 1024
                                         + (v - 56320)])
                            else parse_chars r2 (acc ++ [u])
                        | None => parse_chars r2 (acc ++ [u])
                        end
                    | _ => parse_chars r2 (acc ++ [u])
                    end)
              | _ => None
              end
            else
              obind (simple_escape e) (fun x => parse_chars r1 (acc ++ [x]))
        | [] => None
        end
      else if c <? 32 then None
      else parse_chars r (acc ++ [c])
  end.

Fixpoint take_digits (s : str) (acc : Z) : Z * str :=
  match s with
  | c :: s' =>
      match digit c with
      | Some d => take_digits s' (acc * 10 + d)
      | None => (acc, s)
      end
  | [] => (acc, s)
  end.

Definition starts_fraction (s : str) : bool :=
  match s with
  | c :: _ => (c =? 46) || (c =? 101) || (c =? 69)
  | [] => false
  end.

Definition parse_nat (s : str) : option (Z * str) :=
  match s with
  | c :: s' =>
      obind (digit c) (fun d =>
        let '(n, r) := if d =? 0 then (0, s') else take_digits s' d in
        if starts_fraction r then None else Some (n, r))
  | [] => None
  end.

Definition parse_int (s : str) : option (pyval * str) :=
  match s with
  | 45 :: s' => obind (parse_nat s') (fun '(n, r) => Some (PInt (- n), r))
  | _ => obind (parse_nat s) (fun '(n, r) => Some (PInt n, r))
  end.

(** [d[k] = v] *)
Fixpoint dict_set (d : list (str * pyval)) (k : str) (v : pyval)
  : list (str * pyval) :=
  match d with
  | [] => [(k, v)]
  | (k', v') :: d' =>
      if str_eqb k' k then (k', v) :: d' else (k', v') :: dict_set d' k v
  end.

Fixpoint parse_value (fuel : nat) (s : str) : option (pyval * str) :=
  match fuel with
  | O => None
  | S f =>
      let s := skip_ws s in
      match strip_prefix (lit "null") s with
      | Some r => Some (PNone, r)
      | None =>
      match strip_prefix (lit "true") s with
      | Some r => Some (PBool true, r)
      | None =>
      match strip_prefix (lit "false") s with
      | Some r => Some (PBool false, r)
      | None =>
      match s with
      | c :: r =>
          if c =? 34 then
            obind (parse_chars r []) (fun '(x, r') => Some (PStr x, r'))
          else if c =? 91 then
            match skip_ws r with
            | c' :: r' =>
                if c' =? 93 then Some (PList [], r') else parse_items f r []
            | [] => None
            end
          else if c =? 123 then
            match skip_ws r with
            | c' :: r' =>
                if c' =? 125 then Some (PDict [], r')
                else parse_members f r []
            | [] => None
            end
          else parse_int s
      | [] => None
      end end end end
  end
with parse_items (fuel : nat) (s : str) (acc : list pyval)
  : option (pyval * str) :=
  match fuel with
  | O => None
  | S f =>
      obind (parse_value f s) (fun '(v, r) =>
        match skip_ws r with
        | c :: r' =>
            if c =? 44 then parse_items f r' (acc ++ [v])
            else if c =? 93 then Some (PList (acc ++ [v]), r')
            else None
        | [] => None
        end)
  end
with parse_members (fuel : nat) (s : str) (acc : list (str * pyval))
  : option (pyval * str) :=
  match fuel with
  | O => None
  | S f =>
      match skip_ws s with
      | q :: r0 =>
          if q =? 34 then
            obind (parse_chars r0 []) (fun '(k, r1) =>
              match skip_ws r1 with
              | colon :: r2 =>
                  if colon =? 58 then
                    obind (parse_value f r2) (fun '(v, r) =>
                      match skip_ws r with
                      | c :: r' =>
                          if c =? 44 then
                            parse_members f r' (dict_set acc k v)
                          else if c =? 125 then
                            Some (PDict (dict_set acc k v), r')
                          else None
                      | [] => None
                      end)
                  else None
              | [] => None
              end)
          else None
      | [] => None
      end
  end.

Definition json_loads (s : str) : option pyval :=
  obind (parse_value (S (List.length s)) s) (fun '(v, r) =>
    match skip_ws r with
    | [] => Some v
    | _ => None
    end).

Definition library : Library :=
  Build_Library datetime fromisoformat strftime json_loads str_of
                path_name path_suffix.

End Reference.

(* ================================================================== *)
(** * Sample data *)
(* ================================================================== *)

Module Sample.

Definition world : Gossip.World :=
  {| Gossip.uuid4_hex := lit "0123456789abcdef0123456789abcdef";
     Gossip.utcnow_isoformat := lit "2024-01-15T10:30:00.000000" |}.

Definition notes : Attachment.t :=
  Attachment.mk (lit "x.txt") (lit "text/plain") 3 (lit "base64")
                (lit "QUJD").

Definition other_notes : Attachment.t :=
  Attachment.mk (lit "x.txt") (lit "text/plain") 2 (lit "base64")
                (lit "eHk=").

Definition container : Container.t :=
  Container.mk (lit "gossip_0123456789ab") (lit "2024-01-15T10:30:00Z")
               (lit "T") (lit "claude") (lit "S")
               [lit "- Decided X"; lit "plain"] [lit "-what next"]
               (lit "go on") [notes; other_notes].

(** A container without attachments and without a continuation. *)
Definition bare : Container.t :=
  Container.mk (lit "gossip_0123456789ab") (lit "2024-01-15T10:30:00Z")
               (lit "T") (lit "claude") (lit "S") [] [] [] [].

(** The files of the file system of the samples. *)
Definition fs (path : str) : option bytes :=
  if str_eqb path (lit "docs/abc.TXT")
  then Some [Byte.x41; Byte.x42; Byte.x43]
  else None.

(** A new instance with one file attached. *)
Definition attached : result Gossip.t :=
  g <- Gossip.new_default world (PStr (lit "T")) (PStr (lit "S")) ;;
  Gossip.add_file Reference.library fs (lit "docs/abc.TXT") g.

(** A document whose only file declares 99 bytes and carries three. *)
Definition mismatched_document : pyval :=
  PDict
    [ (lit "version", PStr (lit "1.0"));
      (lit "gossip_id", PStr (lit "gossip_0123456789ab"));
      (lit "created", PStr (lit "2024-01-15T10:30:00Z"));
      (lit "metadata", PDict [ (lit "topic", PStr (lit "T")) ]);
      (lit "context", PDict [ (lit "summary", PStr (lit "S")) ]);
      (lit "files",
       PList [ PDict [ (lit "name", PStr (lit "a.txt"));
                       (lit "type", PStr (lit "text/plain"));
                       (lit "size", PInt 99);
                       (lit "encoding", PStr (lit "base64"));
                       (lit "data", PStr (lit "QUJD")) ] ]) ].

(** Key points that begin with a space and with two dashes. *)
Definition indented : Container.t :=
  Container.mk (lit "gossip_0123456789ab") (lit "2024-01-15T10:30:00Z")
               (lit "T") (lit "claude") (lit "S")
               [lit " x"; lit "--y"] [] [] [].

(** An attachment that declares [2 ^ 1100] bytes. *)
Definition oversized : Container.t :=
  Container.mk (lit "gossip_0123456789ab") (lit "2024-01-15T10:30:00Z")
               (lit "T") (lit "claude") (lit "S") [] [] []
               [Attachment.mk (lit "big.bin") (lit "application/octet-stream")
                              (2 ^ 1100) (lit "base64") []].

(** A timestamp that is not one. *)
Definition undated : Container.t :=
  Container.mk (lit "gossip_0123456789ab") (lit "yesterday")
               (lit "T") (lit "claude") (lit "S") [] [] [] [].

(** A document with the required fields only, and one without its
    summary. *)
Definition minimal_document : pyval :=
  PDict
    [ (lit "gossip_id", PStr (lit "gossip_0123456789ab"));
      (lit "created", PStr (lit "2024-01-15T10:30:00Z"));
      (lit "metadata", PDict [ (lit "topic", PStr (lit "T")) ]);
      (lit "context", PDict [ (lit "summary", PStr (lit "S")) ]) ].

Definition incomplete_document : pyval :=
  PDict
    [ (lit "gossip_id", PStr (lit "gossip_0123456789ab"));
      (lit "created", PStr (lit "2024-01-15T10:30:00Z"));
      (lit "metadata", PDict [ (lit "topic", PStr (lit "T")) ]);
      (lit "context", PDict [ (lit "key_points", PList []) ]) ].

(** A directory of three files. *)
Definition read_text (path : str) : result str :=
  if str_eqb path (lit "minimal.gossip")
  then Ok (Json.dumps minimal_document (Some 2%nat))
  else if str_eqb path (lit "incomplete.gossip")
  then Ok (Json.dumps incomplete_document (Some 2%nat))
  else if str_eqb path (lit "broken.gossip")
  then Ok (lit "{ not json")
  else Raise (FileNotFoundError path).

End Sample.

(* ================================================================== *)
(** * Predicates used in the statements *)
(* ================================================================== *)

(** A test on every byte value. *)
Definition forall_byte (P : Z -> bool) : bool :=
  forallb P (map Z.of_nat (seq 0 256)).

Module Base64Checks.
Import Base64.

(** The alphabet: each six-bit value has its own ASCII character, none
    of them the pad. *)
Definition check_six (s : Z) : bool :=
  match a2b (b2a s) with
  | Some s' => (s' =? s) && negb (b2a s =? BASE64_PAD) && (b2a s <? 128)
  | None => false
  end.

(** The bit-level facts of a group, checked over all byte values. *)
Definition six (z : Z) : bool := (0 <=? z) && (z <? 64).

Definition check_ab (a b : Z) : bool :=
  let s1 := Z.shiftr a 2 in
  let s2 := Z.lor (Z.shiftl (Z.land a 3) 4) (Z.shiftr b 4) in
  let s2' := Z.shiftl (Z.land a 3) 4 in
  six s1 && six s2 && six s2'
  && (Z.lor (Z.shiftl s1 2) (Z.shiftr s2 4) mod 256 =? a)
  && (Z.lor (Z.shiftl s1 2) (Z.shiftr s2' 4) mod 256 =? a)
  && (Z.land s2 15 =? Z.shiftr b 4).

Definition check_bc (b c : Z) : bool :=
  let s3 := Z.lor (Z.shiftl (Z.land b 15) 2) (Z.shiftr c 6) in
  let s3' := Z.shiftl (Z.land b 15) 2 in
  let s4 := Z.land c 63 in
  six s3 && six s3' && six s4
  && (Z.lor (Z.shiftl (Z.shiftr b 4) 4) (Z.shiftr s3 2) mod 256 =? b)
  && (Z.lor (Z.shiftl (Z.shiftr b 4) 4) (Z.shiftr s3' 2) mod 256 =? b)
  && (Z.lor (Z.shiftl (Z.land s3 3) 6) s4 mod 256 =? c).

End Base64Checks.

(** What the constructor establishes and no method of the class breaks:
    the id and the timestamp are true values, the two dictionaries have
    the keys of the constructor, and the optional attributes are either a
    true value or their default. *)
Definition valid (g : Gossip.t) : Prop :=
  truthy (Gossip.gossip_id g) = true /\
  truthy (Gossip.created g) = true /\
  (exists topic source_ai,
      Gossip.metadata g =
        PDict [ (lit "topic", topic);
                (lit "source_ai", source_ai);
                (lit "created_by", PStr (lit "Gossip v1.0")) ]) /\
  (exists summary key_points open_questions,
      Gossip.context g =
        PDict [ (lit "summary", summary);
                (lit "key_points", key_points);
                (lit "open_questions", open_questions) ] /\
      py_or key_points (PList []) = key_points /\
      py_or open_questions (PList []) = open_questions) /\
  py_or (Gossip.continuation g) (PStr []) = Gossip.continuation g.

(** The size of an entry of [files] is the number of bytes that its
    data decodes to. *)
Definition size_ok (file : pyval) : Prop :=
  exists data : bytes,
    subscript file (lit "size") = Ok (PInt (Z.of_nat (List.length data))) /\
    (encoded <- subscript file (lit "data") ;;
     Gossip.b64decode_value encoded) = Ok data.

Definition files_invariant (g : Gossip.t) : Prop :=
  exists l, Gossip.files g = PList l /\ Forall size_ok l.

(** The instances that the constructor, [add_file] and [from_dict]
    build. *)
Inductive reachable (lib : Library) : Gossip.t -> Prop :=
| reachable_new w topic summary source_ai key_points open_questions
                continuation gossip_id created g :
    Gossip.new w topic summary source_ai key_points open_questions
               continuation gossip_id created = Ok g ->
    reachable lib g
| reachable_decode w data g :
    Gossip.from_dict w data = Ok g ->
    reachable lib g
| reachable_add fs filepath g g' :
    reachable lib g ->
    Gossip.add_file lib fs filepath g = Ok g' ->
    reachable lib g'.

(** The entry of a key, when the value is a dictionary that has it. *)
Definition field (k : str) (v : pyval) : option pyval :=
  match v with
  | PDict d => assoc k d
  | _ => None
  end.

Definition field_or (k : str) (v default : pyval) : pyval :=
  match field k v with
  | Some x => x
  | None => default
  end.

(** The four required fields of a document are at their places. *)
Definition required_present (data : pyval) : bool :=
  match field (lit "metadata") data, field (lit "context") data,
        field (lit "gossip_id") data, field (lit "created") data with
  | Some md, Some cx, Some _, Some _ =>
      match field (lit "topic") md, field (lit "summary") cx with
      | Some _, Some _ => true
      | _, _ => false
      end
  | _, _, _, _ => false
  end.

Definition required_keys : list str :=
  [ lit "metadata"; lit "topic"; lit "context"; lit "summary";
    lit "gossip_id"; lit "created" ].

(** The keys that [from_dict] reads at the top of a document. *)
Definition top_keys : list str :=
  [ lit "metadata"; lit "context"; lit "continuation"; lit "gossip_id";
    lit "created"; lit "files" ].

(** The document is a dictionary, and so are its metadata and its
    context when it has them. *)
Definition well_shaped (data : pyval) : bool :=
  match data with
  | PDict d =>
      match assoc (lit "metadata") d with
      | Some (PDict _) | None => true
      | Some _ => false
      end &&
      match assoc (lit "context") d with
      | Some (PDict _) | None => true
      | Some _ => false
      end
  | _ => false
  end.

(** The errors of a document that parses and lacks a required field:
    [KeyError] of that field, or [TypeError] where the value that should
    hold it is not a dictionary. *)
Definition schema_error (e : exn) : bool :=
  match e with
  | KeyError k => existsb (str_eqb k) required_keys
  | TypeError => true
  | _ => false
  end.

(** The instance that a document with the required fields decodes to:
    the fields that are there, and the defaults for those that are
    not. *)
Definition decoded (w : Gossip.World) (data : pyval) : Gossip.t :=
  let md := field_or (lit "metadata") data PNone in
  let cx := field_or (lit "context") data PNone in
  Gossip.mk
    (py_or (field_or (lit "gossip_id") data PNone)
           (PStr (lit "gossip_" ++ firstn 12 (Gossip.uuid4_hex w))))
    (py_or (field_or (lit "created") data PNone)
           (PStr (Gossip.utcnow_isoformat w ++ lit "Z")))
    (PDict
       [ (lit "topic", field_or (lit "topic") md PNone);
         (lit "source_ai",
          field_or (lit "source_ai") md (PStr (lit "unknown")));
         (lit "created_by", PStr (lit "Gossip v1.0")) ])
    (PDict
       [ (lit "summary", field_or (lit "summary") cx PNone);
         (lit "key_points",
          py_or (field_or (lit "key_points") cx (PList [])) (PList []));
         (lit "open_questions",
          py_or (field_or (lit "open_questions") cx (PList []))
                (PList [])) ])
    (field_or (lit "files") data (PList []))
    (py_or (field_or (lit "continuation") data (PStr [])) (PStr [])).

(** The lines of the rendering of a container at the declared types. *)
Definition bullet_of (s : str) : pyval :=
  PStr (Gossip.BULLET ++ lstrip (lit "- ") s).

Definition file_line_of (a : Attachment.t) : result pyval :=
  size_kb <- PyFloat.true_div (Attachment.sizeBytes a) 1024 ;;
  Ok (PStr (Gossip.BULLET ++ Attachment.name a ++ lit " (" ++
            Attachment.mimeType a ++ lit ", " ++
            PyFloat.format_1f size_kb ++ lit " KB)")).

(** The wording of the specification for the bullets: a leading ["- "]
    or ["-"] is taken off, once. *)
Definition strip_dash_prefix (s : str) : str :=
  match s with
  | 45 :: 32 :: rest => rest
  | 45 :: rest => rest
  | _ => s
  end.


Definition is_ascii (ch : Z) : Prop := ch < 128.

(* ================================================================== *)
(** * The other methods of the class and the commands of [main] *)
(* ================================================================== *)

(** [s.endswith(suffix)] *)
Definition endswith (s suffix : str) : bool :=
  str_eqb (skipn (List.length s - List.length suffix) s) suffix.

(** [c.isspace()]: the characters that [str.strip()] takes off. *)
Definition isspace (c : Z) : bool :=
  existsb (Z.eqb c)
    [ 9; 10; 11; 12; 13; 28; 29; 30; 31; 32; 133; 160; 5760;
      8192; 8193; 8194; 8195; 8196; 8197; 8198; 8199; 8200; 8201; 8202;
      8232; 8233; 8239; 8287; 12288 ].

Fixpoint lstrip_space (s : str) : str :=
  match s with
  | [] => []
  | c :: s' => if isspace c then lstrip_space s' else s
  end.

(** [s.strip()] *)
Definition strip (s : str) : str :=
  rev (lstrip_space (rev (lstrip_space s))).

(** [s.split(sep)] for a one-character [sep]; [piece] is the piece that
    is being read. *)
Fixpoint split_from (sep : Z) (s : str) (piece : str) : list str :=
  match s with
  | [] => [piece]
  | c :: s' =>
      if c =? sep then piece :: split_from sep s' []
      else split_from sep s' (piece ++ [c])
  end.

Definition split (sep : Z) (s : str) : list str := split_from sep s [].

(** The functions of [pathlib] that [save] calls, taken as given. *)
Record PathLibrary := {
  (** [str(Path(p))] *)
  path_str : str -> str;
  (** [str(Path(p).with_suffix(suffix))], which raises for a path
      without a name. *)
  with_suffix : str -> str -> result str
}.

Module GossipOutput.

(** The table of [generate_resume_prompt]. *)
Definition optimizations : list (str * str) :=
  [ (lit "claude",
     [10; 10] ++ lit "[Gossip Integration Note for Claude: This context comes from another AI system. Please maintain the analytical depth and reasoning quality established in the original conversation.]");
    (lit "chatgpt",
     [10; 10] ++ lit "[Gossip Integration Note for ChatGPT: Continue this conversation with the same level of detail and context awareness as the original AI system.]");
    (lit "gemini",
     [10; 10] ++ lit "[Gossip Integration Note for Gemini: This is a Gossip context transfer from another AI. Please continue seamlessly from where the previous system left off.]");
    (lit "grok",
     [10; 10] ++ lit "[Gossip Integration Note for Grok: Picking up from another AI via Gossip. Keep the same energy and depth.]");
    (lit "universal", []) ].

(** [Gossip.generate_resume_prompt] *)
Definition generate_resume_prompt (lib : Library) (g : Gossip.t)
    (target_ai : str) : result str :=
  base_prompt <- Gossip.to_human_readable lib g ;;
  universal <-
    match assoc (lit "universal") optimizations with
    | Some x => Ok x
    | None => Raise (KeyError (lit "universal"))
    end ;;
  Ok (base_prompt ++
      match assoc target_ai optimizations with
      | Some x => x
      | None => universal
      end).

(** The path that [save] writes to: the path as it is when it ends with
    one of [kept], and with [suffix] otherwise. *)
Definition target_path (paths : PathLibrary) (filepath : str)
    (kept : list str) (suffix : str) : result str :=
  if existsb (endswith (path_str paths filepath)) kept
  then Ok (path_str paths filepath)
  else with_suffix paths filepath suffix.

(** [Gossip.save]; [write_text path content] is the writing of the file,
    [open(path, 'w', encoding='utf-8')] and [f.write(content)].  The
    result is the path and the text written to it; the message printed at
    the end is left out. *)
Definition save (lib : Library) (paths : PathLibrary)
    (write_text : str -> str -> result unit) (g : Gossip.t)
    (filepath format : str) : result (str * str) :=
  if str_eqb format (lit "json") then
    let content := Gossip.to_json g true in
    path <- target_path paths filepath [lit ".gossip"; lit ".json"]
                        (lit ".gossip") ;;
    _ <- write_text path content ;;
    Ok (path, content)
  else if str_eqb format (lit "txt") then
    content <- Gossip.to_human_readable lib g ;;
    path <- target_path paths filepath [lit ".txt"] (lit ".txt") ;;
    _ <- write_text path content ;;
    Ok (path, content)
  else Raise (ValueError (lit "Unsupported format: " ++ format)).

End GossipOutput.

(** The commands of [main], on the arguments that [argparse] hands
    over. *)
Module Main.

Record CreateArgs := mkCreate {
  topic : str;
  summary : str;
  source_ai : str;
  keypoints : option str;
  questions : option str;
  continuation : option str;
  files : option (list str);
  output : str;
  format : str
}.

(** [[x.strip() for x in arg.split(',')] if arg else []] *)
Definition parse_list (arg : option str) : list str :=
  match arg with
  | Some (c :: s) => map strip (split 44 (c :: s))
  | _ => []
  end.

(** [try: gossip.add_file(filepath)  except Exception: ...], the
    message left out. *)
Definition attach (lib : Library) (fs : str -> option bytes)
    (g : Gossip.t) (filepath : str) : Gossip.t :=
  match Gossip.add_file lib fs filepath g with
  | Ok g' => g'
  | Raise _ => g
  end.

(** The command [create]: the instance that it builds and what it
    writes. *)
Definition create (lib : Library) (paths : PathLibrary)
    (write_text : str -> str -> result unit) (w : Gossip.World)
    (fs : str -> option bytes) (args : CreateArgs)
  : result (Gossip.t * (str * str)) :=
  gossip <-
    Gossip.new w (PStr (topic args)) (PStr (summary args))
      (PStr (source_ai args))
      (PList (map PStr (parse_list (keypoints args))))
      (PList (map PStr (parse_list (questions args))))
      (match continuation args with
       | Some c => PStr c
       | None => PNone
       end)
      PNone PNone ;;
  let gossip :=
    match files args with
    | Some (p :: ps) => fold_left (attach lib fs) (p :: ps) gossip
    | _ => gossip
    end in
  written <-
    GossipOutput.save lib paths write_text gossip (output args)
                      (format args) ;;
  Ok (gossip, written).

Record ExtractArgs := mkExtract {
  gossip : str;
  filename : str;
  extract_output : option str
}.

(** The command [extract] *)
Definition extract (lib : Library) (w : Gossip.World)
    (read_text : str -> result str) (args : ExtractArgs)
  : result (str * bytes) :=
  g <- Gossip.load lib w read_text (gossip args) ;;
  Gossip.extract_file g (filename args) (extract_output args).

(** The entry of an attached file, at the declared types. *)
Definition entry_of (lib : Library) (filepath : str) (data : bytes)
  : Attachment.t :=
  Attachment.mk (path_name lib filepath)
                (Gossip._get_mime_type (path_suffix lib filepath))
                (Z.of_nat (List.length data))
                (lit "base64")
                (Base64.b64encode data).

(** The entries of the files among [filepaths] that exist, in order. *)
Definition entries_of (lib : Library) (fs : str -> option bytes)
    (filepaths : list str) : list Attachment.t :=
  flat_map (fun p => match fs p with
                     | Some data => [entry_of lib p data]
                     | None => []
                     end) filepaths.

(** The container that [create] builds. *)
Definition created (lib : Library) (w : Gossip.World)
    (fs : str -> option bytes) (args : CreateArgs) : Container.t :=
  Container.mk
    (lit "gossip_" ++ firstn 12 (Gossip.uuid4_hex w))
    (Gossip.utcnow_isoformat w ++ lit "Z")
    (topic args) (source_ai args) (summary args)
    (parse_list (keypoints args)) (parse_list (questions args))
    (match continuation args with
     | Some c => c
     | None => []
     end)
    (match files args with
     | Some filepaths => entries_of lib fs filepaths
     | None => []
     end).

End Main.

(** An instance of [PathLibrary] for paths written without [.] and
    [..] components and without repeated or trailing slashes. *)
Module ReferencePaths.

Definition path_str (p : str) : str := p.

Definition with_suffix (p suffix : str) : result str :=
  match Reference.path_name p with
  | [] => Raise (ValueError (lit "path has an empty name"))
  | _ :: _ =>
      let old := Reference.path_suffix p in
      Ok (firstn (List.length p - List.length old) p ++ suffix)
  end.

Definition library : PathLibrary := Build_PathLibrary path_str with_suffix.

End ReferencePaths.

Module Sample2.

(** A second file beside the one of [Sample.fs]. *)
Definition fs (path : str) : option bytes :=
  if str_eqb path (lit "docs/abc.TXT")
  then Some [Byte.x41; Byte.x42; Byte.x43]
  else if str_eqb path (lit "data/x.bin")
  then Some [Byte.x00; Byte.xff]
  else None.

Definition create_args : Main.CreateArgs :=
  Main.mkCreate (lit "T") (lit "S") (lit "unknown")
    (Some (lit " a, b ,,c "))
    None
    None
    (Some [lit "missing.txt"; lit "docs/abc.TXT"; lit "data/x.bin"])
    (lit "out/talk")
    (lit "json").

End Sample2.

(** The characters of the JSON texts. *)
Definition is_printable (ch : Z) : Prop := 32 <= ch <= 126.

(** A string that neither begins nor ends with a whitespace
    character. *)
Definition trimmed (s : str) : Prop :=
  match s with
  | [] => True
  | c :: _ => isspace c = false /\ isspace (last s c) = false
  end.

(** The container [c] with [l] for its attachments. *)
Definition with_attachments (c : Container.t) (l : list Attachment.t)
  : Container.t :=
  Container.mk (Container.id c) (Container.createdAt c) (Container.topic c)
               (Container.sourceSystem c) (Container.summary c)
               (Container.keyPoints c) (Container.openQuestions c)
               (Container.continuation c) l.

(** The strings of the rendering of a container at the declared
    types. *)
Definition bullet_text (s : str) : str :=
  Gossip.BULLET ++ lstrip (lit "- ") s.

Definition file_text (a : Attachment.t) : result str :=
  size_kb <- PyFloat.true_div (Attachment.sizeBytes a) 1024 ;;
  Ok (Gossip.BULLET ++ Attachment.name a ++ lit " (" ++
      Attachment.mimeType a ++ lit ", " ++
      PyFloat.format_1f size_kb ++ lit " KB)").

(** The text down to the heading of the key points. *)
Definition head_text (id topic source created_s summary : str) : str :=
  lit "# GOSSIP [ID: " ++ id ++ lit "]" ++ [10] ++
  Gossip.RULE ++ [10] ++
  lit "AI Conversation Context Transfer File" ++ [10] ++
  lit "Created by Gossip - Universal AI Integration Layer" ++ [10] ++
  Gossip.RULE ++ [10] ++
  [10] ++
  lit "**Topic:** " ++ topic ++ [10] ++
  lit "**Source AI:** " ++ source ++ [10] ++
  lit "**Created:** " ++ created_s ++ [10] ++
  [10] ++
  Gossip.RULE ++ [10] ++
  lit "## CONVERSATION CONTEXT" ++ [10] ++
  [10] ++
  summary ++ [10] ++
  [10] ++
  Gossip.RULE ++ [10] ++
  lit "## KEY POINTS & DECISIONS" ++ [10].

(** The text from the head to the last open question: every entry is
    written after a line feed. *)
Definition points_text (c : Container.t) (created_s : str) : str :=
  head_text (Container.id c) (Container.topic c) (Container.sourceSystem c)
            created_s (Container.summary c) ++
  flat_map (fun s => [10] ++ bullet_text s) (Container.keyPoints c) ++
  [10; 10] ++ Gossip.RULE ++ [10] ++
  lit "## OPEN QUESTIONS / NEXT STEPS" ++ [10] ++
  flat_map (fun s => [10] ++ bullet_text s) (Container.openQuestions c).

(** The block of the attached files, for their lines [items]. *)
Definition files_text (items : list str) : str :=
  match items with
  | [] => []
  | _ :: _ =>
      [10; 10] ++ Gossip.RULE ++ [10] ++
      lit "## ATTACHED FILES" ++ [10] ++
      flat_map (fun item => [10] ++ item) items ++
      [10; 10] ++
      lit "[Files are base64-encoded in the full Gossip JSON format]"
  end.

(** The block of the continuation. *)
Definition continuation_text (continuation : str) : str :=
  match continuation with
  | [] => []
  | _ :: _ =>
      [10; 10] ++ Gossip.RULE ++ [10] ++
      lit "## CONTINUE FROM HERE:" ++ [10; 10] ++ continuation
  end.

(** The closing block. *)
Definition closing_text (source : str) : str :=
  [10; 10] ++ Gossip.RULE ++ [10] ++
  lit "## INSTRUCTIONS FOR AI SYSTEMS:" ++ [10; 10] ++
  lit "This is a Gossip file - a universal context transfer format for AI systems." ++ [10] ++
  lit "Please read this entire context carefully. This represents a conversation" ++ [10] ++
  lit "from another AI system (" ++ source ++ lit ") that should continue" ++ [10] ++
  lit "seamlessly in your system." ++ [10; 10] ++
  lit "Treat this as if you've been having this conversation yourself. Reference" ++ [10] ++
  lit "the key points and decisions made, acknowledge the open questions, and pick" ++ [10] ++
  lit "up from the 'Continue from here' section." ++ [10; 10] ++
  lit "If files are referenced but not accessible in your system, acknowledge them" ++ [10] ++
  lit "and proceed based on the context provided." ++ [10; 10] ++
  lit "Gossip enables AI interoperability. Honor the context and maintain continuity." ++ [10] ++
  Gossip.RULE.

(** The container [c] without attachments and without a continuation. *)
Definition without_optional (c : Container.t) : Container.t :=
  Container.mk (Container.id c) (Container.createdAt c) (Container.topic c)
               (Container.sourceSystem c) (Container.summary c)
               (Container.keyPoints c) (Container.openQuestions c) [] [].

(** The entries of [files] of a document have the sizes of their
    data. *)
Definition document_sized (data : pyval) : Prop :=
  exists l,
    get data (lit "files") (PList []) = Ok (PList l) /\ Forall size_ok l.

(** The instances that the constructor, [add_file] and [from_dict] build,
    [from_dict] of the documents whose files have the sizes of their
    data. *)
Inductive well_sized (lib : Library) : Gossip.t -> Prop :=
| well_sized_new w topic summary source_ai key_points open_questions
                 continuation gossip_id created g :
    Gossip.new w topic summary source_ai key_points open_questions
               continuation gossip_id created = Ok g ->
    well_sized lib g
| well_sized_decode w data g :
    Gossip.from_dict w data = Ok g ->
    document_sized data ->
    well_sized lib g
| well_sized_add fs filepath g g' :
    well_sized lib g ->
    Gossip.add_file lib fs filepath g = Ok g' ->
    well_sized lib g'.

(** The instance [g] with [v] for its attribute [created]. *)
Definition with_created (g : Gossip.t) (v : pyval) : Gossip.t :=
  Gossip.mk (Gossip.gossip_id g) v (Gossip.metadata g) (Gossip.context g)
            (Gossip.files g) (Gossip.continuation g).

Module Sample3.

(** A document with one file of three bytes, and the instance that it
    decodes to with a second file attached. *)
Definition sized_document : pyval :=
  PDict
    [ (lit "gossip_id", PStr (lit "gossip_0123456789ab"));
      (lit "created", PStr (lit "2024-01-15T10:30:00Z"));
      (lit "metadata", PDict [ (lit "topic", PStr (lit "T")) ]);
      (lit "context", PDict [ (lit "summary", PStr (lit "S")) ]);
      (lit "files",
       PList [ PDict [ (lit "name", PStr (lit "a.txt"));
                       (lit "type", PStr (lit "text/plain"));
                       (lit "size", PInt 3);
                       (lit "encoding", PStr (lit "base64"));
                       (lit "data", PStr (lit "QUJD")) ] ]) ].

Definition decoded_then_attached : result Gossip.t :=
  g <- Gossip.from_dict Sample.world sized_document ;;
  Gossip.add_file Reference.library Sample.fs (lit "docs/abc.TXT") g.

(** A container with one attachment and one open question. *)
Definition listed : Container.t :=
  Container.mk (lit "gossip_0123456789ab") (lit "2024-01-15T10:30:00Z")
               (lit "T") (lit "claude") (lit "S") [] [lit "q"] []
               [Attachment.mk (lit "a.bin") (lit "application/zip") 1536
                              (lit "base64") (lit "AAAA")].

(** A container without attachments, whose open question goes on with
    the text of the section of the attached files. *)
Definition quoting : Container.t :=
  Container.mk (lit "gossip_0123456789ab") (lit "2024-01-15T10:30:00Z")
               (lit "T") (lit "claude") (lit "S") []
               [lit "q" ++ [10; 10] ++ Gossip.RULE ++ [10] ++
                lit "## ATTACHED FILES" ++ [10; 10] ++
                Gossip.BULLET ++ lit "a.bin (application/zip, 1.5 KB)" ++
                [10; 10] ++
                lit "[Files are base64-encoded in the full Gossip JSON format]"]
               [] [].

End Sample3.

(* ================================================================== *)
(** * Properties *)
(* ================================================================== *)

Lemma forall_byte_spec (P : Z -> bool) :
  forall_byte P = true -> forall z, 0 <= z < 256 -> P z = true.
Proof.
  unfold forall_byte. intros H z Hz.
  rewrite forallb_forall in H. apply H.
  apply in_map_iff. exists (Z.to_nat z). split; [lia|].
  apply in_seq. lia.
Qed.

Lemma byte_val_range (b : Byte.byte) : 0 <= byte_val b < 256.
Proof.
  unfold byte_val. pose proof (Byte.to_N_bounded b) as H. lia.
Qed.

Lemma byte_of_val (b : Byte.byte) : byte_of (byte_val b) = b.
Proof.
  unfold byte_of. pose proof (byte_val_range b) as H.
  rewrite Z.mod_small by lia. unfold byte_val.
  rewrite N2Z.id, Byte.of_to_N. reflexivity.
Qed.

Module Base64Facts.
Import Base64 Base64Checks.

Lemma a2b_b2a (s : Z) : 0 <= s < 64 ->
  a2b (b2a s) = Some s /\ b2a s <> BASE64_PAD /\ b2a s < 128.
Proof.
  intros Hs.
  assert (H : forallb check_six (map Z.of_nat (seq 0 64)) = true)
    by (vm_compute; reflexivity).
  rewrite forallb_forall in H.
  assert (Hc : check_six s = true).
  { apply H. apply in_map_iff. exists (Z.to_nat s). split; [lia|].
    apply in_seq. lia. }
  unfold check_six in Hc. destruct (a2b (b2a s)) as [s'|]; [|discriminate].
  apply andb_true_iff in Hc. destruct Hc as [Hc H3].
  apply andb_true_iff in Hc. destruct Hc as [H1 H2].
  apply Z.eqb_eq in H1. subst s'. apply Z.ltb_lt in H3.
  split; [reflexivity|]. split; [|exact H3].
  intros E. rewrite E in H2. rewrite Z.eqb_refl in H2. discriminate.
Qed.

(** One character of the alphabet moves the decoder one position on. *)
Lemma a2b_loop_step (s : Z) (rest : str) (q L p : Z) (acc : bytes) :
  0 <= s < 64 ->
  a2b_loop (b2a s :: rest) q L p acc =
    if q =? 0 then a2b_loop rest 1 s 0 acc
    else if q =? 1 then
      a2b_loop rest 2 (Z.land s 15) 0
        (acc ++ [byte_of (Z.lor (Z.shiftl L 2) (Z.shiftr s 4))])
    else if q =? 2 then
      a2b_loop rest 3 (Z.land s 3) 0
        (acc ++ [byte_of (Z.lor (Z.shiftl L 4) (Z.shiftr s 2))])
    else a2b_loop rest 0 0 0 (acc ++ [byte_of (Z.lor (Z.shiftl L 6) s)]).
Proof.
  intros Hs. destruct (a2b_b2a s Hs) as (Ha & Hp & _).
  cbn [a2b_loop]. apply Z.eqb_neq in Hp. rewrite Hp, Ha. reflexivity.
Qed.

Lemma check_ab_all (a b : Z) :
  0 <= a < 256 -> 0 <= b < 256 -> check_ab a b = true.
Proof.
  intros Ha Hb.
  assert (H : forall_byte (fun x => forall_byte (check_ab x)) = true)
    by (vm_compute; reflexivity).
  apply (forall_byte_spec _ (forall_byte_spec _ H a Ha) b Hb).
Qed.

Lemma check_bc_all (b c : Z) :
  0 <= b < 256 -> 0 <= c < 256 -> check_bc b c = true.
Proof.
  intros Hb Hc.
  assert (H : forall_byte (fun x => forall_byte (check_bc x)) = true)
    by (vm_compute; reflexivity).
  apply (forall_byte_spec _ (forall_byte_spec _ H b Hb) c Hc).
Qed.

Lemma six_range (z : Z) : six z = true -> 0 <= z < 64.
Proof. unfold six. intros H. apply andb_true_iff in H. lia. Qed.

Lemma byte_of_mod (z : Z) (b : Byte.byte) :
  (z mod 256 =? byte_val b) = true -> byte_of z = b.
Proof.
  intros H. apply Z.eqb_eq in H. unfold byte_of. rewrite H.
  unfold byte_val. rewrite N2Z.id, Byte.of_to_N. reflexivity.
Qed.

Ltac split_checks H :=
  repeat match type of H with
         | (_ && _) = true =>
             let H' := fresh "C" in
             apply andb_true_iff in H; destruct H as [H H']
         end.

Ltac dec_step :=
  rewrite a2b_loop_step by (apply six_range; assumption);
  cbn [Z.eqb Pos.eqb].

Lemma bytes_ind3 (P : bytes -> Prop) :
  P [] -> (forall a, P [a]) -> (forall a b, P [a; b]) ->
  (forall a b c rest, P rest -> P (a :: b :: c :: rest)) ->
  forall data, P data.
Proof.
  intros H0 H1 H2 H3.
  fix IH 1.
  intros [|a [|b [|c rest]]];
    [apply H0 | apply H1 | apply H2 | apply H3; apply IH].
Qed.

(** A full group decodes to its three bytes and leaves the decoder at
    the start of a quad. *)
Lemma a2b_loop_encode3 (a b c : Byte.byte) (rest : str) (L p : Z)
    (acc : bytes) :
  a2b_loop (encode3 (byte_val a) (byte_val b) (byte_val c) ++ rest)
           0 L p acc
  = a2b_loop rest 0 0 0 (acc ++ [a; b; c]).
Proof.
  pose proof (check_ab_all _ _ (byte_val_range a) (byte_val_range b)) as Hab.
  pose proof (check_bc_all _ _ (byte_val_range b) (byte_val_range c)) as Hbc.
  unfold check_ab in Hab. unfold check_bc in Hbc. cbv zeta in Hab, Hbc.
  split_checks Hab. split_checks Hbc.
  unfold encode3. cbn [app].
  dec_step.
  dec_step.
  dec_step.
  dec_step.
  rewrite (byte_of_mod _ a) by assumption.
  apply Z.eqb_eq in C. rewrite C.
  rewrite (byte_of_mod _ b) by assumption.
  rewrite (byte_of_mod _ c) by assumption.
  rewrite <- !app_assoc. reflexivity.
Qed.

Lemma a2b_loop_b64encode (data : bytes) :
  forall (L p : Z) (acc : bytes),
    a2b_loop (b64encode data) 0 L p acc = Ok (acc ++ data).
Proof.
  induction data as [|a|a b|a b c rest IH] using bytes_ind3; intros L p acc.
  - cbn. rewrite app_nil_r. reflexivity.
  - pose proof (check_ab_all _ _ (byte_val_range a) (byte_val_range a))
      as Hab.
    unfold check_ab in Hab. cbv zeta in Hab. split_checks Hab.
    cbn [b64encode].
    dec_step.
    dec_step.
    rewrite (byte_of_mod _ a) by assumption.
    reflexivity.
  - pose proof (check_ab_all _ _ (byte_val_range a) (byte_val_range b))
      as Hab.
    pose proof (check_bc_all _ _ (byte_val_range b) (byte_val_range b))
      as Hbc.
    unfold check_ab in Hab. unfold check_bc in Hbc. cbv zeta in Hab, Hbc.
    split_checks Hab. split_checks Hbc.
    cbn [b64encode].
    dec_step.
    dec_step.
    dec_step.
    rewrite (byte_of_mod _ a) by assumption.
    apply Z.eqb_eq in C. rewrite C.
    rewrite (byte_of_mod _ b) by assumption.
    rewrite <- !app_assoc. reflexivity.
  - cbn [b64encode]. rewrite a2b_loop_encode3, IH.
    rewrite <- app_assoc. reflexivity.
Qed.

Lemma b64encode_ascii (data : bytes) :
  forallb (fun ch => ch <? 128) (b64encode data) = true.
Proof.
  induction data as [|a|a b|a b c rest IH] using bytes_ind3.
  - reflexivity.
  - pose proof (check_ab_all _ _ (byte_val_range a) (byte_val_range a))
      as Hab.
    unfold check_ab in Hab. cbv zeta in Hab. split_checks Hab.
    cbn [b64encode forallb].
    repeat match goal with
           | H : six ?s = true |- context [b2a ?s <? 128] =>
               let R := fresh in
               destruct (a2b_b2a s (six_range s H)) as (_ & _ & R);
               apply Z.ltb_lt in R; rewrite R; clear R
           end.
    reflexivity.
  - pose proof (check_ab_all _ _ (byte_val_range a) (byte_val_range b))
      as Hab.
    pose proof (check_bc_all _ _ (byte_val_range b) (byte_val_range b))
      as Hbc.
    unfold check_ab in Hab. unfold check_bc in Hbc. cbv zeta in Hab, Hbc.
    split_checks Hab. split_checks Hbc.
    cbn [b64encode forallb].
    repeat match goal with
           | H : six ?s = true |- context [b2a ?s <? 128] =>
               let R := fresh in
               destruct (a2b_b2a s (six_range s H)) as (_ & _ & R);
               apply Z.ltb_lt in R; rewrite R; clear R
           end.
    reflexivity.
  - pose proof (check_ab_all _ _ (byte_val_range a) (byte_val_range b))
      as Hab.
    pose proof (check_bc_all _ _ (byte_val_range b) (byte_val_range c))
      as Hbc.
    unfold check_ab in Hab. unfold check_bc in Hbc. cbv zeta in Hab, Hbc.
    split_checks Hab. split_checks Hbc.
    cbn [b64encode]. rewrite forallb_app, IH. unfold encode3.
    cbn [forallb].
    repeat match goal with
           | H : six ?s = true |- context [b2a ?s <? 128] =>
               let R := fresh in
               destruct (a2b_b2a s (six_range s H)) as (_ & _ & R);
               apply Z.ltb_lt in R; rewrite R; clear R
           end.
    reflexivity.
Qed.

(** Decoding inverts encoding. *)
Lemma b64decode_b64encode (data : bytes) :
  b64decode (b64encode data) = Ok data.
Proof.
  unfold b64decode. rewrite b64encode_ascii.
  unfold a2b_base64. apply a2b_loop_b64encode.
Qed.

End Base64Facts.

(* ------------------------------------------------------------------ *)
(** ** Strings, truth values and dictionaries *)
(* ------------------------------------------------------------------ *)

Lemma str_eqb_eq (a b : str) : str_eqb a b = true <-> a = b.
Proof.
  revert b. induction a as [|x a IH]; intros [|y b]; cbn;
    try (split; [discriminate | discriminate]); [tauto|].
  rewrite andb_true_iff, Z.eqb_eq, IH.
  split; [intros [-> ->]; reflexivity | intros E; inversion E; auto].
Qed.

Lemma str_eqb_refl (a : str) : str_eqb a a = true.
Proof. apply str_eqb_eq. reflexivity. Qed.

Lemma str_eqb_neq (a b : str) : str_eqb a b = false <-> a <> b.
Proof.
  rewrite <- str_eqb_eq. destruct (str_eqb a b); split; congruence.
Qed.

Lemma py_or_truthy (a b : pyval) : truthy a = true -> py_or a b = a.
Proof. unfold py_or. intros ->. reflexivity. Qed.

Lemma py_or_idem (a b : pyval) : py_or (py_or a b) b = py_or a b.
Proof.
  unfold py_or. destruct (truthy a) eqn:E.
  - rewrite E. reflexivity.
  - destruct (truthy b); reflexivity.
Qed.

Lemma truthy_py_or (a b : pyval) :
  truthy b = true -> truthy (py_or a b) = true.
Proof. unfold py_or. destruct (truthy a) eqn:E; auto. Qed.

(* ------------------------------------------------------------------ *)
(** ** The invariant of an instance *)
(* ------------------------------------------------------------------ *)

Lemma init_valid (w : Gossip.World)
    (topic summary source_ai key_points open_questions
     continuation gossip_id created : pyval) :
  valid (Gossip.__init__ w topic summary source_ai key_points
                         open_questions continuation gossip_id created).
Proof.
  unfold valid, Gossip.__init__; cbn [Gossip.gossip_id Gossip.created
    Gossip.metadata Gossip.context Gossip.continuation].
  split; [apply truthy_py_or; reflexivity|].
  split.
  { apply truthy_py_or. cbn. destruct (Gossip.utcnow_isoformat w); reflexivity. }
  split; [eauto|].
  split; [|apply py_or_idem].
  do 3 eexists. split; [reflexivity|]. split; apply py_or_idem.
Qed.

Lemma set_files_valid (g : Gossip.t) (v : pyval) :
  valid g -> valid (Gossip.set_files g v).
Proof. unfold valid. destruct g; cbn. tauto. Qed.

Lemma add_file_valid (lib : Library) (fs : str -> option bytes)
    (filepath : str) (g g' : Gossip.t) :
  valid g -> Gossip.add_file lib fs filepath g = Ok g' -> valid g'.
Proof.
  unfold Gossip.add_file. intros Hv H.
  destruct (fs filepath); [|discriminate].
  destruct (Gossip.files g); try discriminate.
  injection H as <-. apply set_files_valid, Hv.
Qed.

Lemma bind_ok {A B} (r : result A) (k : A -> result B) (b : B) :
  bind r k = Ok b -> exists a, r = Ok a /\ k a = Ok b.
Proof. destruct r; cbn; [eauto | discriminate]. Qed.

Lemma from_dict_valid (w : Gossip.World) (data : pyval) (g : Gossip.t) :
  Gossip.from_dict w data = Ok g -> valid g.
Proof.
  unfold Gossip.from_dict, Gossip.new. intros H.
  repeat (apply bind_ok in H; destruct H as (? & ? & H)).
  injection H as <-.
  match goal with
  | E : Ok _ = Ok ?x |- valid (Gossip.set_files ?x _) => injection E as <-
  end.
  apply set_files_valid, init_valid.
Qed.

Lemma obj_valid (c : Container.t) :
  Container.id c <> [] -> Container.createdAt c <> [] ->
  valid (Container.obj c).
Proof.
  intros Hid Hcr. unfold valid, Container.obj; cbn.
  split; [destruct (Container.id c); congruence|].
  split; [destruct (Container.createdAt c); congruence|].
  split; [eauto|].
  split.
  - do 3 eexists. split; [reflexivity|].
    split; unfold py_or; cbn.
    + destruct (Container.keyPoints c); reflexivity.
    + destruct (Container.openQuestions c); reflexivity.
  - unfold py_or; cbn. destruct (Container.continuation c); reflexivity.
Qed.

(* ------------------------------------------------------------------ *)
(** ** Decoding what was encoded *)
(* ------------------------------------------------------------------ *)

Lemma from_dict_to_dict (w : Gossip.World) (g : Gossip.t) :
  valid g -> Gossip.from_dict w (Gossip.to_dict g) = Ok g.
Proof.
  intros (Hid & Hcr & (topic & source_ai & Hm) &
          (summary & kps & oqs & Hc & Hk & Ho) & Hcont).
  destruct g as [gid cr md cx fl cont]; cbn in *. subst md cx.
  unfold Gossip.from_dict, Gossip.to_dict, Gossip.new, Gossip.__init__,
    Gossip.set_files; cbn.
  rewrite (py_or_truthy gid) by assumption.
  rewrite (py_or_truthy cr) by assumption.
  rewrite Hk, Ho, Hcont. reflexivity.
Qed.

(** C1.  For every valid instance, [from_dict] applied to the dictionary
    that [to_dict] produces gives the same instance back, attribute for
    attribute: the id, the timestamp, the metadata (topic, source), the
    context (summary, key points, open questions), the continuation and
    the list of files, in the same order and with the same entries; the
    dictionary of the result is therefore the same too, with its
    ["version"]. *)
Theorem decode_encode_identity (w : Gossip.World) (g : Gossip.t) :
  valid g ->
  Gossip.from_dict w (Gossip.to_dict g) = Ok g /\
  (forall g', Gossip.from_dict w (Gossip.to_dict g) = Ok g' ->
              Gossip.to_dict g' = Gossip.to_dict g).
Proof.
  intros V. pose proof (from_dict_to_dict w g V) as E.
  split; [exact E|].
  intros g' E'. rewrite E in E'. injection E' as <-. reflexivity.
Qed.

Lemma decode_encode_identity_witness :
  valid (Container.obj Sample.container) /\
  Gossip.from_dict Sample.world (Gossip.to_dict (Container.obj Sample.container))
  = Ok (Container.obj Sample.container).
Proof.
  assert (V : valid (Container.obj Sample.container))
    by (apply obj_valid; discriminate).
  split; [exact V|].
  exact (proj1 (decode_encode_identity Sample.world _ V)).
Defined.

(** The sample container survives the way through its saved text: the
    indented JSON of [to_json], read back by [load]. *)
Example sample_text_round_trip :
  Gossip.load Reference.library Sample.world
    (fun _ => Ok (Gossip.to_json (Container.obj Sample.container) true))
    (lit "sample.gossip")
  = Ok (Container.obj Sample.container).
Proof. vm_compute. reflexivity. Qed.

(* ------------------------------------------------------------------ *)
(** ** The constructor *)
(* ------------------------------------------------------------------ *)

(** C2, as the code has it.  The constructor validates nothing: for every
    topic and summary, the empty strings included, and every choice of
    the optional parameters it returns an instance that holds the topic
    and the summary it was given. *)
Theorem construct_never_fails (w : Gossip.World)
    (topic summary source_ai key_points open_questions
     continuation gossip_id created : pyval) :
  exists g,
    Gossip.new w topic summary source_ai key_points open_questions
               continuation gossip_id created = Ok g /\
    subscript (Gossip.metadata g) (lit "topic") = Ok topic /\
    subscript (Gossip.context g) (lit "summary") = Ok summary.
Proof. eexists. split; [reflexivity|]. split; reflexivity. Qed.

(** C2 as stated fails: with an empty topic, and with an empty summary,
    the constructor returns an instance. *)
Lemma empty_topic_or_summary_accepted :
  (exists g,
      Gossip.new_default Sample.world (PStr []) (PStr (lit "S")) = Ok g /\
      subscript (Gossip.metadata g) (lit "topic") = Ok (PStr [])) /\
  (exists g,
      Gossip.new_default Sample.world (PStr (lit "T")) (PStr []) = Ok g /\
      subscript (Gossip.context g) (lit "summary") = Ok (PStr [])).
Proof. split; eexists; split; reflexivity. Qed.

(** C8.  With only a topic and a summary the constructor gives the
    source ["unknown"], empty lists of key points and open questions, an
    empty continuation, and an id made of ["gossip_"] and the first
    twelve hexadecimal digits of a new UUID, which is not empty. *)
Theorem construct_defaults (w : Gossip.World) (topic summary : pyval) :
  exists g,
    Gossip.new_default w topic summary = Ok g /\
    subscript (Gossip.metadata g) (lit "source_ai")
      = Ok (PStr (lit "unknown")) /\
    subscript (Gossip.context g) (lit "key_points") = Ok (PList []) /\
    subscript (Gossip.context g) (lit "open_questions") = Ok (PList []) /\
    Gossip.continuation g = PStr [] /\
    Gossip.gossip_id g
      = PStr (lit "gossip_" ++ firstn 12 (Gossip.uuid4_hex w)) /\
    Gossip.gossip_id g <> PStr [] /\
    truthy (Gossip.gossip_id g) = true.
Proof.
  eexists. split; [reflexivity|].
  repeat (split; [reflexivity|]).
  split; [discriminate | reflexivity].
Qed.

(* ------------------------------------------------------------------ *)
(** ** Attachments *)
(* ------------------------------------------------------------------ *)

Lemma file_entry_size_ok (name mime_type : str) (data : bytes) :
  size_ok (Gossip.file_entry name mime_type data).
Proof.
  exists data. split; [reflexivity|].
  cbn. apply Base64Facts.b64decode_b64encode.
Qed.

Lemma from_dict_files (w : Gossip.World) (data : pyval) (g : Gossip.t) :
  Gossip.from_dict w data = Ok g ->
  get data (lit "files") (PList []) = Ok (Gossip.files g).
Proof.
  unfold Gossip.from_dict. intros H.
  repeat (apply bind_ok in H; destruct H as (? & ? & H)).
  injection H as <-. cbn. assumption.
Qed.

Lemma add_file_files_invariant (lib : Library) (fs : str -> option bytes)
    (filepath : str) (g g' : Gossip.t) :
  files_invariant g -> Gossip.add_file lib fs filepath g = Ok g' ->
  files_invariant g'.
Proof.
  intros (l & Hl & Hall) H.
  unfold Gossip.add_file in H.
  destruct (fs filepath) as [data|]; [|discriminate].
  rewrite Hl in H. injection H as <-.
  eexists. split; [reflexivity|].
  apply Forall_app. split; [exact Hall|].
  constructor; [apply file_entry_size_ok | constructor].
Qed.

Lemma from_dict_files_invariant (w : Gossip.World) (data : pyval)
    (g : Gossip.t) :
  Gossip.from_dict w data = Ok g ->
  (files_invariant g <-> document_sized data).
Proof.
  intros H. apply from_dict_files in H.
  unfold files_invariant, document_sized. rewrite H. split.
  - intros (l & -> & Hall). exists l. split; [reflexivity | exact Hall].
  - intros (l & E & Hall). injection E as ->. exists l.
    split; [reflexivity | exact Hall].
Qed.

(** C3, as the code has it.  In every instance that the constructor,
    [add_file] and [from_dict] build, [from_dict] of documents in which
    the size of each entry of [files] is the number of bytes that its
    data decodes to, the size of each entry of [files] is the number of
    bytes that its data decodes to.  [from_dict] itself takes [files]
    from the document as it is: what it returns has the sizes of its data
    exactly when the document has. *)
Theorem attachment_sizes (lib : Library) :
  (forall g, well_sized lib g -> files_invariant g) /\
  (forall w data g,
      Gossip.from_dict w data = Ok g ->
      get data (lit "files") (PList []) = Ok (Gossip.files g) /\
      (files_invariant g <-> document_sized data)).
Proof.
  split.
  - induction 1 as [w t s sa kp oq c gid cr g H
                   | w data g H Hd
                   | fs p g g' _ IH H].
    + injection H as <-. exists []. split; [reflexivity | constructor].
    + apply (from_dict_files_invariant w data g H), Hd.
    + exact (add_file_files_invariant lib fs p g g' IH H).
  - intros w data g H. split.
    + apply (from_dict_files w data g H).
    + apply (from_dict_files_invariant w data g H).
Qed.

Lemma attachment_sizes_witness :
  exists g,
    Sample3.decoded_then_attached = Ok g /\
    well_sized Reference.library g /\
    files_invariant g.
Proof.
  destruct (Gossip.from_dict Sample.world Sample3.sized_document)
    as [g0|e] eqn:E0; [|vm_compute in E0; discriminate].
  destruct (Gossip.add_file Reference.library Sample.fs (lit "docs/abc.TXT")
              g0) as [g|e] eqn:E1.
  2: { vm_compute in E0. injection E0 as <-. vm_compute in E1.
       discriminate. }
  exists g.
  assert (W : well_sized Reference.library g).
  { apply (well_sized_add Reference.library Sample.fs (lit "docs/abc.TXT")
             g0 g); [|exact E1].
    apply (well_sized_decode Reference.library Sample.world
             Sample3.sized_document g0 E0).
    eexists. split; [reflexivity|].
    constructor; [|constructor].
    exists [Byte.x41; Byte.x42; Byte.x43].
    split; vm_compute; reflexivity. }
  split.
  - unfold Sample3.decoded_then_attached. rewrite E0. exact E1.
  - split; [exact W|].
    exact (proj1 (attachment_sizes Reference.library) g W).
Defined.

(** C3 as stated fails: [from_dict] accepts a document whose file
    declares 99 bytes and carries three. *)
Lemma decode_breaks_attachment_sizes :
  ~ (forall g, reachable Reference.library g -> files_invariant g).
Proof.
  intros H.
  destruct (Gossip.from_dict Sample.world Sample.mismatched_document)
    as [g|] eqn:E; [|discriminate].
  specialize (H g (reachable_decode _ _ _ _ E)).
  vm_compute in E. injection E as <-.
  destruct H as (l & Hl & Hall). cbn in Hl. injection Hl as <-.
  inversion Hall as [|f fs (data & Hsz & Hdec) _]; subst.
  vm_compute in Hdec. injection Hdec as <-.
  vm_compute in Hsz. discriminate.
Qed.

Lemma extract_loop_skip (pre : list Attachment.t) (rest : list pyval)
    (n : str) (out : option str) :
  (forall x, In x pre -> Attachment.name x <> n) ->
  Gossip.extract_loop (map Attachment.to_value pre ++ rest) n out
  = Gossip.extract_loop rest n out.
Proof.
  induction pre as [|a pre IH]; intros H; [reflexivity|].
  cbn [map app Gossip.extract_loop].
  change (subscript (Attachment.to_value a) (lit "name"))
    with (@Ok pyval (PStr (Attachment.name a))).
  cbn [bind Gossip.equals_str].
  assert (E : str_eqb (Attachment.name a) n = false)
    by (apply str_eqb_neq, H; left; reflexivity).
  rewrite E. apply IH. intros x Hx. apply H. right. exact Hx.
Qed.

(** C4.  [extract_file] gives the decoded bytes of the first entry whose
    name is the one asked for, whatever the entries after it, and writes
    them to the output path, which is the name when no path is given; a
    payload that does not decode passes its error on.  When no entry has
    the name it raises [ValueError]. *)
Theorem extract_first_match (c : Container.t) (n : str)
    (output_path : option str) :
  (forall pre a post,
      Container.attachments c = pre ++ a :: post ->
      (forall x, In x pre -> Attachment.name x <> n) ->
      Attachment.name a = n ->
      Gossip.extract_file (Container.obj c) n output_path
      = (data <- Base64.b64decode (Attachment.payload a) ;;
         Ok (match output_path with Some p => p | None => n end, data)))
  /\
  ((forall x, In x (Container.attachments c) -> Attachment.name x <> n) ->
   Gossip.extract_file (Container.obj c) n output_path
   = Raise (ValueError (lit "File not found in Gossip: " ++ n))).
Proof.
  unfold Gossip.extract_file, Container.obj;
    cbn [Gossip.files py_iter bind].
  split.
  - intros pre a post E Hpre Ha. rewrite E, map_app.
    rewrite extract_loop_skip by assumption.
    cbn [map Gossip.extract_loop].
    change (subscript (Attachment.to_value a) (lit "name"))
      with (@Ok pyval (PStr (Attachment.name a))).
    change (subscript (Attachment.to_value a) (lit "data"))
      with (@Ok pyval (PStr (Attachment.payload a))).
    cbn [bind Gossip.equals_str Gossip.b64decode_value].
    rewrite Ha, str_eqb_refl. reflexivity.
  - intros H.
    rewrite <- (app_nil_r (map Attachment.to_value (Container.attachments c))).
    rewrite extract_loop_skip by assumption. reflexivity.
Qed.

Lemma extract_first_match_witness :
  Gossip.extract_file (Container.obj Sample.container) (lit "x.txt") None
  = Ok (lit "x.txt", [Byte.x41; Byte.x42; Byte.x43]) /\
  Gossip.extract_file (Container.obj Sample.container) (lit "missing.txt")
                      None
  = Raise (ValueError (lit "File not found in Gossip: missing.txt")).
Proof.
  split.
  - rewrite (proj1 (extract_first_match Sample.container (lit "x.txt") None)
               [] Sample.notes [Sample.other_notes] eq_refl).
    + reflexivity.
    + intros x [].
    + reflexivity.
  - apply (proj2 (extract_first_match Sample.container (lit "missing.txt")
                    None)).
    intros x [<-|[<-|[]]]; discriminate.
Defined.

(* ------------------------------------------------------------------ *)
(** ** Decoding a document *)
(* ------------------------------------------------------------------ *)

Lemma assoc_cons_other {A} (k k' : str) (v : A) (d : list (str * A)) :
  k <> k' -> assoc k' ((k, v) :: d) = assoc k' d.
Proof.
  intros H. cbn. apply str_eqb_neq in H. rewrite H. reflexivity.
Qed.

Lemma from_dict_present (w : Gossip.World) (data : pyval) :
  required_present data = true ->
  Gossip.from_dict w data = Ok (decoded w data).
Proof.
  unfold required_present, decoded, field_or, field.
  destruct data as [| | | | |d]; try discriminate.
  destruct (assoc (lit "metadata") d) as [md|] eqn:Emd; [|discriminate].
  destruct (assoc (lit "context") d) as [cx|] eqn:Ecx; [|discriminate].
  destruct (assoc (lit "gossip_id") d) as [gid|] eqn:Egid; [|discriminate].
  destruct (assoc (lit "created") d) as [cr|] eqn:Ecr; [|discriminate].
  destruct md as [| | | | |md]; try discriminate.
  destruct (assoc (lit "topic") md) as [topic|] eqn:Et; [|discriminate].
  destruct cx as [| | | | |cx]; try discriminate.
  destruct (assoc (lit "summary") cx) as [summary|] eqn:Es; [|discriminate].
  intros _.
  unfold Gossip.from_dict, subscript, get.
  rewrite Emd, Ecx, Egid, Ecr. cbn [bind]. rewrite Et, Es. cbn [bind].
  destruct (assoc (lit "source_ai") md); destruct (assoc (lit "key_points") cx);
    destruct (assoc (lit "open_questions") cx);
    destruct (assoc (lit "continuation") d);
    destruct (assoc (lit "files") d); reflexivity.
Qed.

Ltac missing_key :=
  intros _; split; [|intros _]; eexists; (split; [reflexivity|]);
  [reflexivity | cbn; tauto].

Lemma from_dict_absent (w : Gossip.World) (data : pyval) :
  required_present data = false ->
  (exists e, Gossip.from_dict w data = Raise e /\ schema_error e = true) /\
  (well_shaped data = true ->
   exists k, Gossip.from_dict w data = Raise (KeyError k) /\
             In k required_keys).
Proof.
  unfold required_present, field, well_shaped.
  destruct data as [| | | | |d];
    try (intros _; split; [eexists; split; reflexivity | discriminate]).
  unfold Gossip.from_dict, subscript, get.
  destruct (assoc (lit "metadata") d) as [md|] eqn:Emd; cbn [bind];
    [|missing_key].
  destruct md as [| | | | |md]; cbn [bind andb];
    try (intros _; split; [eexists; split; reflexivity | discriminate]).
  destruct (assoc (lit "topic") md) as [topic|] eqn:Et; cbn [bind];
    [|missing_key].
  destruct (assoc (lit "context") d) as [cx|] eqn:Ecx; cbn [bind];
    [|missing_key].
  destruct cx as [| | | | |cx]; cbn [bind];
    try (intros _; split; [eexists; split; reflexivity | discriminate]).
  destruct (assoc (lit "summary") cx) as [summary|] eqn:Es; cbn [bind];
    [|missing_key].
  destruct (assoc (lit "source_ai") md); destruct (assoc (lit "key_points") cx);
    destruct (assoc (lit "open_questions") cx);
    destruct (assoc (lit "continuation") d); cbn [bind];
    (destruct (assoc (lit "gossip_id") d) as [gid|] eqn:Egid; cbn [bind];
     [|missing_key]);
    (destruct (assoc (lit "created") d) as [cr|] eqn:Ecr; cbn [bind];
     [discriminate | missing_key]).
Qed.

Lemma from_dict_extra_field (w : Gossip.World) (d : list (str * pyval))
    (k : str) (v : pyval) :
  ~ In k top_keys ->
  Gossip.from_dict w (PDict ((k, v) :: d)) = Gossip.from_dict w (PDict d).
Proof.
  intros H. unfold Gossip.from_dict, subscript, get.
  rewrite !assoc_cons_other; [reflexivity|..];
    intros ->; apply H; cbn; tauto.
Qed.

Lemma assoc_cons_same {A} (k : str) (v : A) (d : list (str * A)) :
  assoc k ((k, v) :: d) = Some v.
Proof. cbn. rewrite str_eqb_refl. reflexivity. Qed.

Lemma from_dict_extra_metadata (w : Gossip.World)
    (d md : list (str * pyval)) (k : str) (v : pyval) :
  ~ In k [lit "topic"; lit "source_ai"] ->
  Gossip.from_dict w (PDict ((lit "metadata", PDict ((k, v) :: md)) :: d))
  = Gossip.from_dict w (PDict ((lit "metadata", PDict md) :: d)).
Proof.
  intros H. unfold Gossip.from_dict, subscript, get.
  rewrite !assoc_cons_same. cbn [bind].
  rewrite !(assoc_cons_other k) by (intros ->; apply H; cbn; tauto).
  reflexivity.
Qed.

Lemma from_dict_extra_context (w : Gossip.World)
    (d cx : list (str * pyval)) (k : str) (v : pyval) :
  ~ In k [lit "summary"; lit "key_points"; lit "open_questions"] ->
  Gossip.from_dict w (PDict ((lit "context", PDict ((k, v) :: cx)) :: d))
  = Gossip.from_dict w (PDict ((lit "context", PDict cx) :: d)).
Proof.
  intros H. unfold Gossip.from_dict, subscript, get.
  rewrite !assoc_cons_same.
  rewrite !(assoc_cons_other (lit "context")) by discriminate.
  destruct (assoc (lit "metadata") d) as [md|]; [|reflexivity].
  cbn [bind]. destruct md; try reflexivity.
  destruct (assoc (lit "topic") d0); [|reflexivity].
  cbn [bind].
  rewrite !(assoc_cons_other k) by (intros ->; apply H; cbn; tauto).
  reflexivity.
Qed.

Lemma decoded_defaults (w : Gossip.World) (data md cx : pyval) :
  field (lit "metadata") data = Some md ->
  field (lit "context") data = Some cx ->
  (field (lit "source_ai") md = None ->
   subscript (Gossip.metadata (decoded w data)) (lit "source_ai")
   = Ok (PStr (lit "unknown"))) /\
  (field (lit "key_points") cx = None ->
   subscript (Gossip.context (decoded w data)) (lit "key_points")
   = Ok (PList [])) /\
  (field (lit "open_questions") cx = None ->
   subscript (Gossip.context (decoded w data)) (lit "open_questions")
   = Ok (PList [])) /\
  (field (lit "continuation") data = None ->
   Gossip.continuation (decoded w data) = PStr []) /\
  (field (lit "files") data = None ->
   Gossip.files (decoded w data) = PList []).
Proof.
  intros Hmd Hcx. unfold decoded, field_or.
  cbn [Gossip.metadata Gossip.context Gossip.continuation Gossip.files].
  rewrite Hmd, Hcx.
  repeat split; intros ->; reflexivity.
Qed.

(** C5.  [load] raises the [ValueError] of an unreadable file when the
    text is not JSON.  When the text is JSON and one of [metadata.topic],
    [context.summary], [gossip_id], [created] is not there, it raises
    the [KeyError] of the missing key ([TypeError] when the document, its
    metadata or its context is not a dictionary).  Otherwise it returns
    an instance with the fields of the document, in which an absent
    [source_ai] is ["unknown"], absent [key_points] and [open_questions]
    are empty lists, an absent [continuation] is the empty string and
    absent [files] an empty list; a key that is not read, at the top of
    the document, in its metadata or in its context, makes no
    difference. *)
Theorem decode_outcomes (lib : Library) (w : Gossip.World)
    (read_text : str -> result str) (filepath content : str) :
  read_text filepath = Ok content ->
  (json_loads lib content = None ->
   Gossip.load lib w read_text filepath
   = Raise (ValueError
       (lit "Could not parse Gossip file. Ensure it's valid JSON format.")))
  /\
  (forall data, json_loads lib content = Some data ->
     (required_present data = false ->
      (exists e, Gossip.load lib w read_text filepath = Raise e /\
                 schema_error e = true) /\
      (well_shaped data = true ->
       exists k, Gossip.load lib w read_text filepath = Raise (KeyError k) /\
                 In k required_keys)) /\
     (required_present data = true ->
      Gossip.load lib w read_text filepath = Ok (decoded w data) /\
      forall md cx,
        field (lit "metadata") data = Some md ->
        field (lit "context") data = Some cx ->
        (field (lit "source_ai") md = None ->
         subscript (Gossip.metadata (decoded w data)) (lit "source_ai")
         = Ok (PStr (lit "unknown"))) /\
        (field (lit "key_points") cx = None ->
         subscript (Gossip.context (decoded w data)) (lit "key_points")
         = Ok (PList [])) /\
        (field (lit "open_questions") cx = None ->
         subscript (Gossip.context (decoded w data)) (lit "open_questions")
         = Ok (PList [])) /\
        (field (lit "continuation") data = None ->
         Gossip.continuation (decoded w data) = PStr []) /\
        (field (lit "files") data = None ->
         Gossip.files (decoded w data) = PList [])))
  /\
  (forall d k v,
     ~ In k top_keys ->
     Gossip.from_dict w (PDict ((k, v) :: d)) = Gossip.from_dict w (PDict d))
  /\
  (forall d md k v,
     ~ In k [lit "topic"; lit "source_ai"] ->
     Gossip.from_dict w (PDict ((lit "metadata", PDict ((k, v) :: md)) :: d))
     = Gossip.from_dict w (PDict ((lit "metadata", PDict md) :: d)))
  /\
  (forall d cx k v,
     ~ In k [lit "summary"; lit "key_points"; lit "open_questions"] ->
     Gossip.from_dict w (PDict ((lit "context", PDict ((k, v) :: cx)) :: d))
     = Gossip.from_dict w (PDict ((lit "context", PDict cx) :: d))).
Proof.
  intros Hread. unfold Gossip.load. rewrite Hread. cbn [bind].
  split; [intros ->; reflexivity|].
  split;
    [|split; [apply from_dict_extra_field|];
      split; [apply from_dict_extra_metadata
             |apply from_dict_extra_context]].
  intros data ->. split.
  - apply from_dict_absent.
  - intros Hp. split; [apply from_dict_present, Hp|].
    intros md cx. apply decoded_defaults.
Qed.

Lemma decode_outcomes_witness :
  Gossip.load Reference.library Sample.world Sample.read_text
              (lit "broken.gossip")
  = Raise (ValueError
      (lit "Could not parse Gossip file. Ensure it's valid JSON format."))
  /\
  Gossip.load Reference.library Sample.world Sample.read_text
              (lit "minimal.gossip")
  = Ok (decoded Sample.world Sample.minimal_document)
  /\
  (exists k,
      Gossip.load Reference.library Sample.world Sample.read_text
                  (lit "incomplete.gossip") = Raise (KeyError k) /\
      In k required_keys).
Proof.
  split; [|split].
  - apply (proj1 (decode_outcomes Reference.library Sample.world
                    Sample.read_text (lit "broken.gossip") (lit "{ not json")
                    eq_refl)).
    vm_compute. reflexivity.
  - apply (proj1 (proj2
             (proj1 (proj2
                (decode_outcomes Reference.library Sample.world
                   Sample.read_text (lit "minimal.gossip") _ eq_refl))
                Sample.minimal_document ltac:(vm_compute; reflexivity))
             eq_refl)).
  - apply (proj2 (proj1
             (proj1 (proj2
                (decode_outcomes Reference.library Sample.world
                   Sample.read_text (lit "incomplete.gossip") _ eq_refl))
                Sample.incomplete_document ltac:(vm_compute; reflexivity))
             eq_refl)).
    reflexivity.
Defined.

(* ------------------------------------------------------------------ *)
(** ** The rendering of a container *)
(* ------------------------------------------------------------------ *)

Lemma mapM_map_ok {A B C} (f : B -> result C) (g : A -> B) (h : A -> C)
    (l : list A) :
  (forall x, f (g x) = Ok (h x)) -> mapM f (map g l) = Ok (map h l).
Proof.
  intros H. induction l as [|x l IH]; [reflexivity|].
  cbn. rewrite H. cbn. rewrite IH. reflexivity.
Qed.

Lemma mapM_map {A B C} (f : B -> result C) (g : A -> B) (l : list A) :
  mapM f (map g l) = mapM (fun x => f (g x)) l.
Proof.
  induction l as [|x l IH]; [reflexivity|].
  cbn. rewrite IH. reflexivity.
Qed.

Lemma mapM_length {A B} (f : A -> result B) (l : list A) (r : list B) :
  mapM f l = Ok r -> List.length r = List.length l.
Proof.
  revert r. induction l as [|x l IH]; intros r H.
  - injection H as <-. reflexivity.
  - cbn in H. apply bind_ok in H. destruct H as (y & _ & H).
    apply bind_ok in H. destruct H as (ys & Hys & H).
    injection H as <-. cbn. f_equal. apply IH, Hys.
Qed.

Lemma file_line_typed (lib : Library) (a : Attachment.t) :
  Gossip.file_line lib (Attachment.to_value a) = file_line_of a.
Proof. reflexivity. Qed.

(** The list of lines of a container at the declared types. *)
Lemma human_lines_typed (lib : Library) (c : Container.t) :
  Gossip.human_lines lib (Container.obj c) =
    (created_s <- Gossip.created_text lib (PStr (Container.createdAt c)) ;;
     attached <-
       match Container.attachments c with
       | [] => Ok []
       | _ =>
           file_lines <- mapM file_line_of (Container.attachments c) ;;
           Ok (Gossip.files_heading ++ file_lines ++ Gossip.files_note)
       end ;;
     Ok (Gossip.header_lines lib (Container.obj c)
           (PStr (Container.topic c)) (PStr (Container.sourceSystem c))
           created_s (PStr (Container.summary c)) ++
         map bullet_of (Container.keyPoints c) ++
         Gossip.questions_heading ++
         map bullet_of (Container.openQuestions c) ++
         attached ++
         Gossip.continuation_section (PStr (Container.continuation c)) ++
         Gossip.instruction_lines lib (PStr (Container.sourceSystem c)))).
Proof.
  unfold Gossip.human_lines.
  change (subscript (Gossip.metadata (Container.obj c)) (lit "topic"))
    with (@Ok pyval (PStr (Container.topic c))).
  change (subscript (Gossip.metadata (Container.obj c)) (lit "source_ai"))
    with (@Ok pyval (PStr (Container.sourceSystem c))).
  change (subscript (Gossip.context (Container.obj c)) (lit "summary"))
    with (@Ok pyval (PStr (Container.summary c))).
  change (subscript (Gossip.context (Container.obj c)) (lit "key_points"))
    with (@Ok pyval (PList (map PStr (Container.keyPoints c)))).
  change (subscript (Gossip.context (Container.obj c)) (lit "open_questions"))
    with (@Ok pyval (PList (map PStr (Container.openQuestions c)))).
  change (Gossip.created (Container.obj c))
    with (PStr (Container.createdAt c)).
  change (Gossip.continuation (Container.obj c))
    with (PStr (Container.continuation c)).
  change (Gossip.files (Container.obj c))
    with (PList (map Attachment.to_value (Container.attachments c))).
  cbn [bind py_iter].
  destruct (Gossip.created_text lib (PStr (Container.createdAt c)))
    as [created_s|e]; [|reflexivity].
  cbn [bind].
  rewrite !(mapM_map_ok Gossip.bullet_line PStr bullet_of)
    by reflexivity.
  cbn [bind]. unfold Gossip.files_section.
  destruct (Container.attachments c) as [|a atts]; [reflexivity|].
  cbn [map truthy py_iter bind].
  change (Attachment.to_value a :: map Attachment.to_value atts)
    with (map Attachment.to_value (a :: atts)).
  rewrite mapM_map.
  change (fun x => Gossip.file_line lib (Attachment.to_value x))
    with file_line_of.
  destruct (mapM file_line_of (a :: atts)); reflexivity.
Qed.

Lemma join_lines_strs (lines : list pyval) :
  Forall (fun v => exists s, v = PStr s) lines ->
  exists text, Gossip.join_lines lines = Ok text.
Proof.
  unfold Gossip.join_lines. intros H.
  assert (E : exists ss,
             mapM (fun v => match v with
                            | PStr s => Ok s
                            | _ => Raise TypeError
                            end) lines = Ok ss).
  { induction H as [|v l (s & ->) _ (ss & IH)].
    - exists []. reflexivity.
    - exists (s :: ss). cbn. rewrite IH. reflexivity. }
  destruct E as (ss & ->). cbn. eauto.
Qed.

Lemma file_lines_strs (atts : list Attachment.t) (file_lines : list pyval) :
  mapM file_line_of atts = Ok file_lines ->
  Forall (fun v => exists s, v = PStr s) file_lines.
Proof.
  revert file_lines. induction atts as [|a atts IH]; intros fl H.
  - injection H as <-. constructor.
  - cbn in H. apply bind_ok in H. destruct H as (y & Hy & H).
    apply bind_ok in H. destruct H as (ys & Hys & H).
    injection H as <-. constructor; [|apply IH, Hys].
    unfold file_line_of in Hy. apply bind_ok in Hy.
    destruct Hy as (x & _ & Hy). injection Hy as <-. eauto.
Qed.

(* ------------------------------------------------------------------ *)
(** ** Sizes in KB *)
(* ------------------------------------------------------------------ *)

Module PyFloatFacts.
Import PyFloat.

Lemma round_half_even_exact (a b : Z) : 0 < b -> round_half_even (a * b) b = a.
Proof.
  intros Hb. unfold round_half_even.
  rewrite Z.div_mul, Z.mod_mul by lia.
  destruct (2 * 0 <? b) eqn:E; [reflexivity|].
  apply Z.ltb_ge in E. lia.
Qed.

Lemma round_half_even_scale (a b c : Z) :
  0 < b -> 0 < c -> round_half_even (a * c) (b * c) = round_half_even a b.
Proof.
  intros Hb Hc. unfold round_half_even.
  rewrite Z.div_mul_cancel_r, Z.mul_mod_distr_r by lia.
  replace (2 * (a mod b * c) <? b * c) with (2 * (a mod b) <? b).
  2: { destruct (2 * (a mod b) <? b) eqn:E1, (2 * (a mod b * c) <? b * c) eqn:E2;
       try reflexivity;
       [apply Z.ltb_lt in E1; apply Z.ltb_ge in E2
       |apply Z.ltb_ge in E1; apply Z.ltb_lt in E2]; nia. }
  replace (b * c <? 2 * (a mod b * c)) with (b <? 2 * (a mod b)).
  2: { destruct (b <? 2 * (a mod b)) eqn:E1, (b * c <? 2 * (a mod b * c)) eqn:E2;
       try reflexivity;
       [apply Z.ltb_lt in E1; apply Z.ltb_ge in E2
       |apply Z.ltb_ge in E1; apply Z.ltb_lt in E2]; nia. }
  reflexivity.
Qed.

(** The rounded quotient is within half a unit of the quotient. *)
Lemma round_half_even_near (a b : Z) :
  0 < b -> - b <= 2 * (a - b * round_half_even a b) <= b.
Proof.
  intros Hb. unfold round_half_even.
  pose proof (Z.div_mod a b ltac:(lia)) as E.
  pose proof (Z.mod_pos_bound a b Hb) as R.
  destruct (2 * (a mod b) <? b) eqn:E1.
  { apply Z.ltb_lt in E1. lia. }
  apply Z.ltb_ge in E1.
  destruct (b <? 2 * (a mod b)) eqn:E2.
  { apply Z.ltb_lt in E2. lia. }
  apply Z.ltb_ge in E2.
  destruct (Z.even (a / b)); lia.
Qed.

(** A size below [2 ^ 53] divided by 1024 is exact, and its text is the
    number of tenths of a KB nearest to the size, ties to even. *)
Lemma true_div_1024 (n : Z) :
  0 <= n < 2 ^ 53 ->
  exists x,
    true_div n 1024 = Ok x /\
    format_1f x =
      decimal (round_half_even (10 * n) 1024 / 10) ++ lit "." ++
      decimal (round_half_even (10 * n) 1024 mod 10).
Proof.
  intros Hn.
  destruct (Z.eq_dec n 0) as [->|Hz].
  { eexists. split; reflexivity. }
  assert (Hpos : 0 < n) by lia.
  pose proof (Z.log2_spec n Hpos) as Hl.
  pose proof (Z.log2_nonneg n) as Hl0.
  assert (Hl52 : Z.log2 n < 53) by (apply Z.log2_lt_pow2; lia).
  set (l := Z.log2 n) in *.
  assert (P62 : 2 ^ (62 - l) = 2 ^ (52 - l) * 1024).
  { replace (62 - l) with ((52 - l) + 10) by lia.
    rewrite Z.pow_add_r by lia. reflexivity. }
  assert (P63 : 2 ^ (63 - l) = 2 ^ (52 - l) * 2048).
  { replace (63 - l) with ((52 - l) + 11) by lia.
    rewrite Z.pow_add_r by lia. reflexivity. }
  assert (Pk : 0 < 2 ^ (52 - l)) by (apply Z.pow_pos_nonneg; lia).
  assert (Pl : 2 ^ l * 2 ^ (52 - l) = 2 ^ 52).
  { rewrite <- Z.pow_add_r by lia. f_equal. lia. }
  assert (Psl : 2 ^ Z.succ l * 2 ^ (52 - l) = 2 ^ 53).
  { rewrite <- Z.pow_add_r by lia. f_equal. lia. }
  set (k := 2 ^ (52 - l)) in *.
  assert (Hm : 2 ^ 52 <= n * k < 2 ^ 53) by nia.
  exists (mk (n * k) (l - 62)).
  assert (R : round53 n 1024 = mk (n * k) (l - 62)).
  { unfold round53. change (Z.log2 1024) with 10. fold l.
    replace (- (l - 10 - 53)) with (63 - l) by lia.
    unfold scaled at 1.
    destruct (0 <=? 63 - l) eqn:E1; [|apply Z.leb_gt in E1; lia].
    rewrite P63.
    destruct (2 ^ 53 * 1024 <=? n * (k * 2048)) eqn:E2;
      [|apply Z.leb_gt in E2; nia].
    replace (- (l - 10 - 53 + 1)) with (62 - l) by lia.
    unfold scaled.
    destruct (0 <=? 62 - l) eqn:E3; [|apply Z.leb_gt in E3; lia].
    rewrite P62. replace (n * (k * 1024)) with (n * k * 1024) by lia.
    rewrite round_half_even_exact by lia. f_equal. lia. }
  split.
  - unfold true_div. destruct (n =? 0) eqn:E0; [apply Z.eqb_eq in E0; lia|].
    rewrite Z.abs_eq by lia. rewrite R. cbn [mant expo].
    rewrite Z.sgn_pos by lia. rewrite Z.mul_1_l.
    unfold too_large. cbn [mant expo]. unfold scaled.
    destruct (0 <=? l - 62) eqn:E1; [apply Z.leb_le in E1; lia|].
    rewrite Z.abs_eq by lia.
    replace (- (l - 62)) with (62 - l) by lia. rewrite P62.
    destruct (2 ^ 1024 * (1 * (k * 1024)) <=? n * k) eqn:E2;
      [|reflexivity].
    apply Z.leb_le in E2.
    assert (2 ^ 53 < 2 ^ 1024) by (apply Z.pow_lt_mono_r; lia).
    nia.
  - unfold format_1f. cbn [mant expo]. unfold scaled.
    destruct (0 <=? l - 62) eqn:E1; [apply Z.leb_le in E1; lia|].
    rewrite Z.abs_eq by lia.
    replace (- (l - 62)) with (62 - l) by lia. rewrite P62.
    replace (n * k * 10) with (10 * n * k) by lia.
    replace (1 * (k * 1024)) with (1024 * k) by lia.
    rewrite round_half_even_scale by lia.
    destruct (n * k <? 0) eqn:E2; [apply Z.ltb_lt in E2; lia|].
    reflexivity.
Qed.

Lemma round_half_even_bounds (a b : Z) :
  0 <= a -> 0 < b -> 0 <= round_half_even a b <= a / b + 1.
Proof.
  intros Ha Hb. unfold round_half_even.
  pose proof (Z.div_pos a b Ha Hb).
  destruct (2 * (a mod b) <? b); [lia|].
  destruct (b <? 2 * (a mod b)); [lia|].
  destruct (Z.even (a / b)); lia.
Qed.

Lemma rounded_in_range (A b e : Z) :
  0 < A < 2 ^ 63 -> 0 < b -> e <= 10 ->
  0 <= round_half_even (fst (scaled A b (- e))) (snd (scaled A b (- e))) /\
  too_large
    (mk (round_half_even (fst (scaled A b (- e))) (snd (scaled A b (- e))))
        e) = false.
Proof.
  intros HA Hb He.
  assert (B1 : 2 ^ 63 * 2 ^ 10 < 2 ^ 1024) by (vm_compute; reflexivity).
  unfold scaled at 1 2 3 4.
  destruct (0 <=? - e) eqn:E1; cbn [fst snd].
  - apply Z.leb_le in E1.
    assert (Pk : 0 < 2 ^ (- e)) by (apply Z.pow_pos_nonneg; lia).
    pose proof (round_half_even_bounds (A * 2 ^ (- e)) b ltac:(nia) Hb)
      as [R0 R1].
    assert (Q : A * 2 ^ (- e) / b <= A * 2 ^ (- e)).
    { apply Z.div_le_upper_bound; nia. }
    split; [exact R0|].
    unfold too_large. cbn [mant expo]. rewrite Z.abs_eq by lia.
    unfold scaled. destruct (0 <=? e) eqn:E2.
    + apply Z.leb_le in E2. assert (e = 0) by lia. subst e.
      change (2 ^ (- 0)) with 1 in *. change (2 ^ 0) with 1.
      apply Z.leb_gt. nia.
    + apply Z.leb_gt. nia.
  - apply Z.leb_gt in E1.
    replace (- - e) with e by lia.
    assert (Pk : 0 < 2 ^ e) by (apply Z.pow_pos_nonneg; lia).
    assert (Pe : 2 ^ e <= 2 ^ 10) by (apply Z.pow_le_mono_r; lia).
    pose proof (round_half_even_bounds A (b * 2 ^ e) ltac:(lia) ltac:(nia))
      as [R0 R1].
    assert (Pb : 1 <= b * 2 ^ e) by nia.
    assert (Q : A / (b * 2 ^ e) <= A).
    { apply Z.div_le_upper_bound; [lia|].
      clear B1 R0 R1. nia. }
    split; [exact R0|].
    unfold too_large. cbn [mant expo]. rewrite Z.abs_eq by lia.
    unfold scaled. destruct (0 <=? e) eqn:E2; [|apply Z.leb_gt in E2; lia].
    apply Z.leb_gt. nia.
Qed.

Lemma round53_in_range (A b : Z) :
  0 < A < 2 ^ 63 -> 0 < b ->
  0 <= mant (round53 A b) /\
  too_large (mk (mant (round53 A b)) (expo (round53 A b))) = false.
Proof.
  intros HA Hb. unfold round53.
  assert (L : Z.log2 A < 63) by (apply Z.log2_lt_pow2; lia).
  pose proof (Z.log2_nonneg b) as Lb.
  set (e0 := Z.log2 A - Z.log2 b - 53).
  assert (He0 : e0 <= 9) by (unfold e0; lia).
  destruct (scaled A b (- e0)) as [n0 d0].
  destruct (2 ^ 53 * d0 <=? n0).
  - pose proof (rounded_in_range A b (e0 + 1) HA Hb ltac:(lia)) as H.
    destruct (scaled A b (- (e0 + 1))) as [n d]. exact H.
  - pose proof (rounded_in_range A b e0 HA Hb ltac:(lia)) as H.
    destruct (scaled A b (- e0)) as [n d]. exact H.
Qed.

(** The quotient of an integer below [2 ^ 63] in magnitude is a
    float. *)
Lemma true_div_in_range (a b : Z) :
  Z.abs a < 2 ^ 63 -> 0 < b -> exists x, true_div a b = Ok x.
Proof.
  intros Ha Hb. unfold true_div.
  destruct (a =? 0) eqn:E0; [eauto|]. apply Z.eqb_neq in E0.
  destruct (round53_in_range (Z.abs a) b ltac:(lia) Hb) as [M T].
  unfold too_large in *. cbn [mant expo] in *.
  replace (Z.abs (Z.sgn a * mant (round53 (Z.abs a) b)))
    with (Z.abs (mant (round53 (Z.abs a) b))).
  2: { rewrite Z.abs_mul. destruct a as [|p|p]; [lia| |];
         cbn [Z.sgn]; lia. }
  destruct (scaled (Z.abs (mant (round53 (Z.abs a) b))) 1
                   (expo (round53 (Z.abs a) b))) as [n d].
  rewrite T. eauto.
Qed.

End PyFloatFacts.

Lemma lstrip_split (s : str) :
  exists p,
    s = p ++ lstrip (lit "- ") s /\
    Forall (fun ch => ch = 45 \/ ch = 32) p /\
    match lstrip (lit "- ") s with
    | ch :: _ => ch <> 45 /\ ch <> 32
    | [] => True
    end.
Proof.
  induction s as [|ch s (p & Hs & Hp & Hh)].
  - exists []. cbn. auto.
  - cbn [lstrip]. change (existsb (Z.eqb ch) (lit "- "))
      with ((ch =? 45) || ((ch =? 32) || false)).
    destruct (ch =? 45) eqn:E1; [|destruct (ch =? 32) eqn:E2];
      cbv beta iota delta [orb].
    + apply Z.eqb_eq in E1. exists (ch :: p).
      split; [cbn [app]; f_equal; exact Hs|].
      split; [constructor; auto | exact Hh].
    + apply Z.eqb_eq in E2. exists (ch :: p).
      split; [cbn [app]; f_equal; exact Hs|].
      split; [constructor; auto | exact Hh].
    + apply Z.eqb_neq in E1, E2. exists [].
      split; [reflexivity|]. split; [constructor | auto].
Qed.

Lemma lstrip_unchanged (ch : Z) (s : str) :
  ch <> 45 -> ch <> 32 -> lstrip (lit "- ") (ch :: s) = ch :: s.
Proof.
  intros H1 H2. cbn [lstrip].
  change (existsb (Z.eqb ch) (lit "- "))
    with ((ch =? 45) || ((ch =? 32) || false)).
  apply Z.eqb_neq in H1, H2. rewrite H1, H2. reflexivity.
Qed.

(** A container without attachments and without a continuation has
    neither of the two optional sections. *)
Example bare_has_no_optional_sections :
  exists lines,
    Gossip.human_lines Reference.library (Container.obj Sample.bare)
    = Ok lines /\
    existsb (fun v => Gossip.equals_str v (lit "## ATTACHED FILES")) lines
    = false /\
    existsb (fun v => Gossip.equals_str v (lit "## CONTINUE FROM HERE:")) lines
    = false /\
    existsb (fun v => Gossip.equals_str v (lit "## INSTRUCTIONS FOR AI SYSTEMS:"))
            lines
    = true.
Proof.
  eexists. split; [vm_compute; reflexivity|].
  repeat split; vm_compute; reflexivity.
Qed.

Lemma join_line_feeds (x : str) (l : list str) :
  join [10] (x :: l) = x ++ flat_map (fun s => [10] ++ s) l.
Proof.
  revert x. induction l as [|y l IH]; intros x.
  - cbn [join flat_map]. rewrite app_nil_r. reflexivity.
  - change (join [10] (x :: y :: l)) with (x ++ [10] ++ join [10] (y :: l)).
    rewrite IH. cbn [flat_map]. rewrite <- !app_assoc. reflexivity.
Qed.

Lemma join_lines_map (ss : list str) :
  Gossip.join_lines (map PStr ss) = Ok (join [10] ss).
Proof.
  unfold Gossip.join_lines.
  assert (E : mapM (fun v => match v with
                             | PStr s => Ok s
                             | _ => Raise TypeError
                             end) (map PStr ss) = Ok ss).
  { induction ss as [|s ss IH]; [reflexivity|].
    cbn [map mapM bind]. rewrite IH. reflexivity. }
  rewrite E. reflexivity.
Qed.

Lemma file_lines_text (atts : list Attachment.t) :
  mapM file_line_of atts
  = (items <- mapM file_text atts ;; Ok (map PStr items)).
Proof.
  induction atts as [|a atts IH]; [reflexivity|].
  cbn [mapM]. rewrite IH. unfold file_line_of at 1. unfold file_text at 2.
  destruct (PyFloat.true_div (Attachment.sizeBytes a) 1024); [|reflexivity].
  cbn [bind]. destruct (mapM file_text atts); reflexivity.
Qed.

Lemma flat_map_map {A B C} (f : A -> B) (g : B -> list C) (l : list A) :
  flat_map g (map f l) = flat_map (fun x => g (f x)) l.
Proof.
  induction l as [|x l IH]; [reflexivity|]. cbn. rewrite IH. reflexivity.
Qed.

(** The text of the rendering of a container at the declared types. *)
Lemma render_typed (lib : Library) (c : Container.t) :
  Gossip.to_human_readable lib (Container.obj c)
  = (created_s <- Gossip.created_text lib (PStr (Container.createdAt c)) ;;
     items <- mapM file_text (Container.attachments c) ;;
     Ok (points_text c created_s ++ files_text items ++
         continuation_text (Container.continuation c) ++
         closing_text (Container.sourceSystem c))).
Proof.
  unfold Gossip.to_human_readable. rewrite human_lines_typed.
  destruct (Gossip.created_text lib (PStr (Container.createdAt c)))
    as [created_s|e]; [|reflexivity].
  cbn [bind].
  assert (E : match Container.attachments c with
              | [] => Ok []
              | _ :: _ =>
                  file_lines <- mapM file_line_of (Container.attachments c) ;;
                  Ok (Gossip.files_heading ++ file_lines ++ Gossip.files_note)
              end
              = (items <- mapM file_text (Container.attachments c) ;;
                 Ok (map PStr
                       match items with
                       | [] => []
                       | _ :: _ =>
                           [ []; Gossip.RULE; lit "## ATTACHED FILES"; [] ] ++
                           items ++
                           [ []; lit "[Files are base64-encoded in the full Gossip JSON format]" ]
                       end))).
  { destruct (Container.attachments c) as [|a atts]; [reflexivity|].
    rewrite file_lines_text.
    destruct (mapM file_text (a :: atts)) as [items|e] eqn:Ei; [|reflexivity].
    cbn [bind]. apply mapM_length in Ei.
    destruct items as [|i items]; [discriminate|].
    rewrite !map_app. reflexivity. }
  rewrite E. clear E.
  destruct (mapM file_text (Container.attachments c)) as [items|e];
    [|reflexivity].
  cbn [bind].
  assert (L :
    Gossip.header_lines lib (Container.obj c) (PStr (Container.topic c))
      (PStr (Container.sourceSystem c)) created_s
      (PStr (Container.summary c)) ++
    map bullet_of (Container.keyPoints c) ++
    Gossip.questions_heading ++
    map bullet_of (Container.openQuestions c) ++
    map PStr
      match items with
      | [] => []
      | _ :: _ =>
          [ []; Gossip.RULE; lit "## ATTACHED FILES"; [] ] ++ items ++
          [ []; lit "[Files are base64-encoded in the full Gossip JSON format]" ]
      end ++
    Gossip.continuation_section (PStr (Container.continuation c)) ++
    Gossip.instruction_lines lib (PStr (Container.sourceSystem c))
    = map PStr
        ((lit "# GOSSIP [ID: " ++ Container.id c ++ lit "]") ::
         ([ Gossip.RULE;
            lit "AI Conversation Context Transfer File";
            lit "Created by Gossip - Universal AI Integration Layer";
            Gossip.RULE;
            [];
            lit "**Topic:** " ++ Container.topic c;
            lit "**Source AI:** " ++ Container.sourceSystem c;
            lit "**Created:** " ++ created_s;
            [];
            Gossip.RULE;
            lit "## CONVERSATION CONTEXT";
            [];
            Container.summary c;
            [];
            Gossip.RULE;
            lit "## KEY POINTS & DECISIONS";
            [] ] ++
          map bullet_text (Container.keyPoints c) ++
          [ []; Gossip.RULE; lit "## OPEN QUESTIONS / NEXT STEPS"; [] ] ++
          map bullet_text (Container.openQuestions c) ++
          match items with
          | [] => []
          | _ :: _ =>
              [ []; Gossip.RULE; lit "## ATTACHED FILES"; [] ] ++ items ++
              [ []; lit "[Files are base64-encoded in the full Gossip JSON format]" ]
          end ++
          match Container.continuation c with
          | [] => []
          | _ :: _ =>
              [ []; Gossip.RULE; lit "## CONTINUE FROM HERE:"; [];
                Container.continuation c ]
          end ++
          [ [];
            Gossip.RULE;
            lit "## INSTRUCTIONS FOR AI SYSTEMS:";
            [];
            lit "This is a Gossip file - a universal context transfer format for AI systems.";
            lit "Please read this entire context carefully. This represents a conversation";
            lit "from another AI system (" ++ Container.sourceSystem c ++
            lit ") that should continue";
            lit "seamlessly in your system.";
            [];
            lit "Treat this as if you've been having this conversation yourself. Reference";
            lit "the key points and decisions made, acknowledge the open questions, and pick";
            lit "up from the 'Continue from here' section.";
            [];
            lit "If files are referenced but not accessible in your system, acknowledge them";
            lit "and proceed based on the context provided.";
            [];
            lit "Gossip enables AI interoperability. Honor the context and maintain continuity.";
            Gossip.RULE ]))).
  { cbn [map]. rewrite !map_app, !map_map.
    unfold Gossip.continuation_section. cbn [truthy].
    destruct (Container.continuation c); reflexivity. }
  rewrite L, join_lines_map, join_line_feeds. clear L.
  f_equal.
  rewrite !flat_map_app, !flat_map_map.
  unfold points_text, head_text, files_text, continuation_text, closing_text.
  destruct items as [|i items]; destruct (Container.continuation c) as [|ch cont];
    repeat (progress cbn [flat_map app] || rewrite <- app_assoc ||
            rewrite flat_map_app || rewrite app_nil_r);
    reflexivity.
Qed.

Lemma render_typed_ok (lib : Library) (c : Container.t) (text : str) :
  Gossip.to_human_readable lib (Container.obj c) = Ok text ->
  exists created_s items,
    Gossip.created_text lib (PStr (Container.createdAt c)) = Ok created_s /\
    mapM file_text (Container.attachments c) = Ok items /\
    text = points_text c created_s ++ files_text items ++
           continuation_text (Container.continuation c) ++
           closing_text (Container.sourceSystem c).
Proof.
  rewrite render_typed. intros H.
  apply bind_ok in H. destruct H as (created_s & Hc & H).
  apply bind_ok in H. destruct H as (items & Hi & H).
  injection H as <-. exists created_s, items. auto.
Qed.

Lemma render_unparseable (lib : Library) (c : Container.t) :
  fromisoformat lib
    (replace_char 90 (lit "+00:00") (Container.createdAt c)) = None ->
  Gossip.to_human_readable lib (Container.obj c)
  = Raise (ValueError (lit "Invalid isoformat string")).
Proof.
  intros Hn. rewrite render_typed. unfold Gossip.created_text.
  rewrite Hn. reflexivity.
Qed.

Lemma lstrip_in (chars s : str) (ch : Z) :
  In ch (lstrip chars s) -> In ch s.
Proof.
  induction s as [|c s IH]; [auto|].
  cbn [lstrip]. destruct (existsb (Z.eqb c) chars); [|auto].
  intros H. right. apply IH, H.
Qed.

(** The text that follows the open questions begins with an empty line
    and a rule. *)
Lemma blocks_begin (items : list str) (continuation source : str) :
  exists rest,
    files_text items ++ continuation_text continuation ++ closing_text source
    = [10; 10] ++ Gossip.RULE ++ [10] ++ rest.
Proof.
  unfold files_text, continuation_text, closing_text.
  destruct items as [|i items]; [destruct continuation as [|ch cont]|];
    eexists;
    repeat (progress cbn [app] || rewrite <- app_assoc);
    reflexivity.
Qed.

(** C6, as the code has it.  In the text of the rendering every key point
    and every open question is written once, in order, after a line
    feed: the bullet followed by the entry without its leading dashes
    and spaces, all of them and in any order.  The key points follow the
    heading [## KEY POINTS & DECISIONS], the open questions theirs.  An
    entry without a line feed makes one line.  ["- Decided X"] gives
    ["Decided X"], and an entry that begins with neither a dash nor a
    space is kept as it is. *)
Theorem bullets_strip_dashes_and_spaces (lib : Library) (c : Container.t)
    (text : str) :
  Gossip.to_human_readable lib (Container.obj c) = Ok text ->
  (exists created_s rest,
      Gossip.created_text lib (PStr (Container.createdAt c)) = Ok created_s /\
      text =
        head_text (Container.id c) (Container.topic c)
                  (Container.sourceSystem c) created_s (Container.summary c) ++
        flat_map (fun s => [10] ++ Gossip.BULLET ++ lstrip (lit "- ") s)
                 (Container.keyPoints c) ++
        [10; 10] ++ Gossip.RULE ++ [10] ++
        lit "## OPEN QUESTIONS / NEXT STEPS" ++ [10] ++
        flat_map (fun s => [10] ++ Gossip.BULLET ++ lstrip (lit "- ") s)
                 (Container.openQuestions c) ++
        [10; 10] ++ Gossip.RULE ++ [10] ++ rest) /\
  (forall s,
      exists p,
        s = p ++ lstrip (lit "- ") s /\
        Forall (fun ch => ch = 45 \/ ch = 32) p /\
        match lstrip (lit "- ") s with
        | ch :: _ => ch <> 45 /\ ch <> 32
        | [] => True
        end) /\
  (forall s, ~ In 10 s -> ~ In 10 (Gossip.BULLET ++ lstrip (lit "- ") s)) /\
  lstrip (lit "- ") (lit "- Decided X") = lit "Decided X" /\
  (forall ch s, ch <> 45 -> ch <> 32 ->
                lstrip (lit "- ") (ch :: s) = ch :: s).
Proof.
  intros H. apply render_typed_ok in H.
  destruct H as (created_s & items & Hc & _ & ->).
  split; [|split; [|split; [|split]]].
  - destruct (blocks_begin items (Container.continuation c)
                (Container.sourceSystem c)) as (rest & ->).
    exists created_s, rest. split; [exact Hc|].
    unfold points_text, bullet_text.
    repeat (progress cbn [app] || rewrite <- app_assoc). reflexivity.
  - apply lstrip_split.
  - intros s Hs Hin. apply in_app_or in Hin. destruct Hin as [Hin|Hin].
    + vm_compute in Hin. intuition discriminate.
    + apply Hs. exact (lstrip_in _ _ _ Hin).
  - reflexivity.
  - apply lstrip_unchanged.
Qed.

Lemma bullets_strip_dashes_and_spaces_witness :
  exists text created_s rest,
    Gossip.to_human_readable Reference.library (Container.obj Sample.container)
    = Ok text /\
    text =
      head_text (lit "gossip_0123456789ab") (lit "T") (lit "claude")
                created_s (lit "S") ++
      ([10] ++ Gossip.BULLET ++ lit "Decided X") ++
      ([10] ++ Gossip.BULLET ++ lit "plain") ++
      [10; 10] ++ Gossip.RULE ++ [10] ++
      lit "## OPEN QUESTIONS / NEXT STEPS" ++ [10] ++
      ([10] ++ Gossip.BULLET ++ lit "what next") ++
      [10; 10] ++ Gossip.RULE ++ [10] ++ rest.
Proof.
  destruct (Gossip.to_human_readable Reference.library
              (Container.obj Sample.container)) as [text|e] eqn:E;
    [|vm_compute in E; discriminate].
  destruct (proj1 (bullets_strip_dashes_and_spaces Reference.library
                     Sample.container text E))
    as (created_s & rest & _ & Ht).
  exists text, created_s, rest.
  split; [reflexivity|]. exact Ht.
Defined.

(** C6 as stated fails: a key point that begins with a space loses the
    space, and one that begins with two dashes loses both, where the
    wording keeps the first as it is and takes one dash off the
    second. *)
Lemma bullet_takes_more_than_a_prefix :
  exists lines text created_s rest,
    Gossip.human_lines Reference.library (Container.obj Sample.indented)
    = Ok lines /\
    nth_error lines 18 = Some (PStr (Gossip.BULLET ++ lit "x")) /\
    strip_dash_prefix (lit " x") = lit " x" /\
    nth_error lines 19 = Some (PStr (Gossip.BULLET ++ lit "y")) /\
    strip_dash_prefix (lit "--y") = lit "-y" /\
    Gossip.to_human_readable Reference.library (Container.obj Sample.indented)
    = Ok text /\
    text =
      (head_text (lit "gossip_0123456789ab") (lit "T") (lit "claude")
                 created_s (lit "S") ++
       ([10] ++ Gossip.BULLET ++ lit "x") ++
       ([10] ++ Gossip.BULLET ++ lit "y") ++
       [10; 10] ++ Gossip.RULE ++ [10] ++
       lit "## OPEN QUESTIONS / NEXT STEPS" ++ [10]) ++ rest.
Proof.
  destruct (Gossip.to_human_readable Reference.library
              (Container.obj Sample.indented)) as [text|e] eqn:E;
    [|vm_compute in E; discriminate].
  destruct (render_typed_ok _ _ _ E) as (created_s & items & _ & _ & Ht).
  eexists. exists text, created_s. eexists.
  split; [vm_compute; reflexivity|].
  repeat (split; [reflexivity|]).
  exact Ht.
Qed.

Lemma mapM_ok {A B} (f : A -> result B) (l : list A) :
  (forall x, In x l -> exists y, f x = Ok y) -> exists ys, mapM f l = Ok ys.
Proof.
  induction l as [|x l IH]; intros H; [exists []; reflexivity|].
  destruct (H x (or_introl eq_refl)) as (y & Hy).
  destruct IH as (ys & Hys); [intros z Hz; apply H; right; exact Hz|].
  exists (y :: ys). cbn. rewrite Hy. cbn. rewrite Hys. reflexivity.
Qed.

Lemma mapM_ok_inv {A B} (f : A -> result B) (l : list A) (ys : list B) :
  mapM f l = Ok ys -> forall x, In x l -> exists y, f x = Ok y.
Proof.
  revert ys. induction l as [|x l IH]; intros ys H z Hz; [destruct Hz|].
  cbn in H. apply bind_ok in H. destruct H as (y & Hy & H).
  apply bind_ok in H. destruct H as (ys' & Hys & _).
  destruct Hz as [<-|Hz]; [eauto | eapply IH; eauto].
Qed.

Lemma file_line_of_ok (a : Attachment.t) :
  (exists x, PyFloat.true_div (Attachment.sizeBytes a) 1024 = Ok x) <->
  (exists line, file_line_of a = Ok line).
Proof.
  unfold file_line_of. split.
  - intros (x & ->). cbn. eauto.
  - intros (line & H). apply bind_ok in H. destruct H as (x & Hx & _). eauto.
Qed.

Lemma mapM_Forall2 {A B} (f : A -> result B) (l : list A) (r : list B) :
  mapM f l = Ok r -> Forall2 (fun x y => f x = Ok y) l r.
Proof.
  revert r. induction l as [|x l IH]; intros r H.
  - injection H as <-. constructor.
  - cbn [mapM] in H. apply bind_ok in H. destruct H as (y & Hy & H).
    apply bind_ok in H. destruct H as (ys & Hys & H).
    injection H as <-. constructor; [exact Hy | apply IH, Hys].
Qed.

Lemma points_text_without_optional (c : Container.t) (created_s : str) :
  points_text (without_optional c) created_s = points_text c created_s.
Proof. destruct c; reflexivity. Qed.

(** The text of the size of a file of less than [2 ^ 53] bytes. *)
Lemma file_text_kb (a : Attachment.t) :
  0 <= Attachment.sizeBytes a < 2 ^ 53 ->
  file_text a =
    Ok (Gossip.BULLET ++ Attachment.name a ++ lit " (" ++
        Attachment.mimeType a ++ lit ", " ++
        (decimal (PyFloat.round_half_even
                    (10 * Attachment.sizeBytes a) 1024 / 10) ++
         lit "." ++
         decimal (PyFloat.round_half_even
                    (10 * Attachment.sizeBytes a) 1024 mod 10)) ++
        lit " KB)").
Proof.
  intros H. unfold file_text.
  destruct (PyFloatFacts.true_div_1024 _ H) as (x & Hx & Hf).
  rewrite Hx. cbn [bind]. rewrite Hf. reflexivity.
Qed.

(** C7, as the code has it.  The text of the rendering is, in this order,
    the text down to the last open question, the block of the attached
    files, the block of the continuation and the closing instructions.
    The block of the files is empty when there are no attachments, and
    otherwise the heading [## ATTACHED FILES], one entry for each
    attachment, written after a line feed with its name, its type and
    its size in KB with one decimal (1536 bytes are ["1.5 KB"]), and the
    note.  The block of the continuation is empty when the continuation
    is, and otherwise its heading and the continuation.  The closing
    instructions are always the end of the text and name the source.
    Without attachments and continuation the text is the first part
    followed by the closing instructions. *)
Theorem conditional_sections (lib : Library) (c : Container.t) (text : str) :
  Gossip.to_human_readable lib (Container.obj c) = Ok text ->
  (exists front files_block continuation_block,
      Gossip.to_human_readable lib (Container.obj (without_optional c))
      = Ok (front ++ closing_text (Container.sourceSystem c)) /\
      text = front ++ files_block ++ continuation_block ++
             closing_text (Container.sourceSystem c) /\
      (Container.attachments c = [] -> files_block = []) /\
      (Container.attachments c <> [] ->
       exists items,
         Forall2 (fun a item => file_text a = Ok item)
                 (Container.attachments c) items /\
         files_block =
           [10; 10] ++ Gossip.RULE ++ [10] ++
           lit "## ATTACHED FILES" ++ [10] ++
           flat_map (fun item => [10] ++ item) items ++
           [10; 10] ++
           lit "[Files are base64-encoded in the full Gossip JSON format]") /\
      (Container.continuation c = [] -> continuation_block = []) /\
      (Container.continuation c <> [] ->
       continuation_block =
         [10; 10] ++ Gossip.RULE ++ [10] ++
         lit "## CONTINUE FROM HERE:" ++ [10; 10] ++
         Container.continuation c)) /\
  (exists before after,
      closing_text (Container.sourceSystem c) =
        [10; 10] ++ Gossip.RULE ++ [10] ++
        lit "## INSTRUCTIONS FOR AI SYSTEMS:" ++ before ++
        lit "from another AI system (" ++ Container.sourceSystem c ++
        lit ") that should continue" ++ after) /\
  (forall a,
      0 <= Attachment.sizeBytes a < 2 ^ 53 ->
      file_text a =
        Ok (Gossip.BULLET ++ Attachment.name a ++ lit " (" ++
            Attachment.mimeType a ++ lit ", " ++
            (decimal (PyFloat.round_half_even
                        (10 * Attachment.sizeBytes a) 1024 / 10) ++
             lit "." ++
             decimal (PyFloat.round_half_even
                        (10 * Attachment.sizeBytes a) 1024 mod 10)) ++
            lit " KB)") /\
      - 1024 <= 2 * (10 * Attachment.sizeBytes a
                     - 1024 * PyFloat.round_half_even
                                (10 * Attachment.sizeBytes a) 1024)
             <= 1024) /\
  file_text (Attachment.mk (lit "a.bin") (lit "application/zip") 1536
                           (lit "base64") [])
  = Ok (Gossip.BULLET ++ lit "a.bin (application/zip, 1.5 KB)").
Proof.
  intros H. apply render_typed_ok in H.
  destruct H as (created_s & items & Hc & Hi & ->).
  split; [|split; [|split]].
  - exists (points_text c created_s), (files_text items),
           (continuation_text (Container.continuation c)).
    split.
    { rewrite render_typed.
      change (Container.createdAt (without_optional c))
        with (Container.createdAt c).
      rewrite Hc. cbn [bind].
      change (Container.attachments (without_optional c))
        with (@nil Attachment.t).
      cbn [mapM bind files_text].
      change (Container.continuation (without_optional c)) with (@nil Z).
      cbn [continuation_text app].
      rewrite points_text_without_optional. reflexivity. }
    split; [reflexivity|].
    pose proof (mapM_length _ _ _ Hi) as Hlen.
    split.
    { intros E. rewrite E in Hlen. destruct items; [reflexivity|].
      discriminate. }
    split.
    { intros E. exists items. split; [apply mapM_Forall2, Hi|].
      destruct items as [|i items]; [|reflexivity].
      destruct (Container.attachments c); [congruence | discriminate]. }
    split.
    { intros ->. reflexivity. }
    intros E. destruct (Container.continuation c); [congruence|].
    reflexivity.
  - unfold closing_text.
    exists ([10; 10] ++
            lit "This is a Gossip file - a universal context transfer format for AI systems." ++
            [10] ++
            lit "Please read this entire context carefully. This represents a conversation" ++
            [10]).
    eexists.
    repeat (progress cbn [app] || rewrite <- app_assoc). reflexivity.
  - intros a Hsz. split; [apply file_text_kb, Hsz|].
    pose proof (PyFloatFacts.round_half_even_near
                  (10 * Attachment.sizeBytes a) 1024 ltac:(lia)).
    lia.
  - vm_compute. reflexivity.
Qed.

Lemma conditional_sections_witness :
  exists text front files_block continuation_block,
    Gossip.to_human_readable Reference.library (Container.obj Sample.container)
    = Ok text /\
    text = front ++ files_block ++ continuation_block ++
           closing_text (lit "claude") /\
    continuation_block =
      [10; 10] ++ Gossip.RULE ++ [10] ++
      lit "## CONTINUE FROM HERE:" ++ [10; 10] ++ lit "go on".
Proof.
  destruct (Gossip.to_human_readable Reference.library
              (Container.obj Sample.container)) as [text|e] eqn:E;
    [|vm_compute in E; discriminate].
  destruct (proj1 (conditional_sections Reference.library
                     Sample.container text E))
    as (front & fb & cb & _ & Ht & _ & _ & _ & Hcb).
  exists text, front, fb, cb.
  split; [reflexivity|]. split; [exact Ht|].
  apply Hcb. discriminate.
Defined.

(** C7 as stated fails: the text does not tell whether there are
    attachments.  A container without attachments whose open question
    goes on with the text of the section is rendered to the same text as
    a container with an attachment. *)
Lemma rendering_hides_attachments :
  exists text,
    Gossip.to_human_readable Reference.library (Container.obj Sample3.listed)
    = Ok text /\
    Gossip.to_human_readable Reference.library (Container.obj Sample3.quoting)
    = Ok text /\
    Container.attachments Sample3.listed <> [] /\
    Container.attachments Sample3.quoting = [].
Proof.
  eexists. split; [vm_compute; reflexivity|].
  split; [vm_compute; reflexivity|].
  split; [discriminate | reflexivity].
Qed.

Lemma typed_lines_join (lib : Library) (c : Container.t) (created_s : str)
    (attached : list pyval) :
  Forall (fun v => exists s, v = PStr s) attached ->
  exists text,
    Gossip.join_lines
      (Gossip.header_lines lib (Container.obj c)
         (PStr (Container.topic c)) (PStr (Container.sourceSystem c))
         created_s (PStr (Container.summary c)) ++
       map bullet_of (Container.keyPoints c) ++
       Gossip.questions_heading ++
       map bullet_of (Container.openQuestions c) ++
       attached ++
       Gossip.continuation_section (PStr (Container.continuation c)) ++
       Gossip.instruction_lines lib (PStr (Container.sourceSystem c)))
    = Ok text.
Proof.
  intros Ha. apply join_lines_strs.
  assert (Hb : forall l, Forall (fun v => exists s, v = PStr s)
                                (map bullet_of l)).
  { intros l. apply Forall_forall. intros v Hv.
    apply in_map_iff in Hv. destruct Hv as (s & <- & _).
    unfold bullet_of. eauto. }
  repeat rewrite Forall_app. repeat split; auto.
  - unfold Gossip.header_lines. repeat constructor; eauto.
  - unfold Gossip.questions_heading. repeat constructor; eauto.
  - unfold Gossip.continuation_section, Gossip.continuation_lines.
    destruct (truthy (PStr (Container.continuation c)));
      repeat constructor; eauto.
  - unfold Gossip.instruction_lines. repeat constructor; eauto.
Qed.

Lemma render_ok_iff (lib : Library) (c : Container.t) (d : datetime lib) :
  fromisoformat lib (replace_char 90 (lit "+00:00") (Container.createdAt c))
  = Some d ->
  ((forall a, In a (Container.attachments c) ->
              exists x, PyFloat.true_div (Attachment.sizeBytes a) 1024 = Ok x)
   <-> exists text, Gossip.to_human_readable lib (Container.obj c) = Ok text).
Proof.
  intros Hd. unfold Gossip.to_human_readable.
  rewrite human_lines_typed. unfold Gossip.created_text. rewrite Hd.
  cbn [bind]. split.
  - intros Hsz.
    destruct (Container.attachments c) as [|a atts] eqn:Eatts.
    + cbn [bind]. apply typed_lines_join. constructor.
    + destruct (mapM_ok file_line_of (a :: atts)) as (fl & Hfl).
      { intros x Hx. apply file_line_of_ok, Hsz, Hx. }
      rewrite Hfl. cbn [bind]. apply typed_lines_join.
      repeat rewrite Forall_app. repeat split.
      * unfold Gossip.files_heading. repeat constructor; eauto.
      * apply (file_lines_strs _ _ Hfl).
      * unfold Gossip.files_note. repeat constructor; eauto.
  - intros (text & H) a Ha.
    destruct (Container.attachments c) as [|a0 atts] eqn:Eatts;
      [destruct Ha|].
    apply bind_ok in H. destruct H as (lines & H & _).
    apply bind_ok in H. destruct H as (attached & H & _).
    apply bind_ok in H. destruct H as (fl & Hfl & _).
    apply file_line_of_ok. apply (mapM_ok_inv _ _ _ Hfl a Ha).
Qed.

Lemma mapM_error {A B} (f : A -> result B) (l : list A) (e : exn) :
  mapM f l = Raise e -> exists x, In x l /\ f x = Raise e.
Proof.
  induction l as [|x l IH]; [discriminate|].
  cbn [mapM]. destruct (f x) as [y|e'] eqn:Ex.
  - cbn [bind]. destruct (mapM f l) as [ys|e'']; [discriminate|].
    cbn [bind]. intros H. injection H as ->.
    destruct (IH eq_refl) as (z & Hz & Ez). exists z. split; [right|]; auto.
  - cbn [bind]. intros H. injection H as ->. exists x. split; [left|]; auto.
Qed.

Lemma file_text_error (a : Attachment.t) (e : exn) :
  file_text a = Raise e -> e = OverflowError.
Proof.
  unfold file_text, PyFloat.true_div.
  destruct (Attachment.sizeBytes a =? 0); [discriminate|].
  match goal with
  | |- context [if ?b then _ else _] => destruct b
  end; cbn [bind]; [|discriminate].
  intros H. injection H as <-. reflexivity.
Qed.

Lemma valid_with_created (c : Container.t) (v : pyval) :
  Container.id c <> [] -> truthy v = true ->
  valid (with_created (Container.obj c) v).
Proof.
  intros Hid Hv. unfold valid, with_created, Container.obj; cbn.
  split; [destruct (Container.id c); congruence|].
  split; [exact Hv|].
  split; [eauto|].
  split.
  - do 3 eexists. split; [reflexivity|].
    split; [destruct (Container.keyPoints c) | destruct (Container.openQuestions c)];
      reflexivity.
  - destruct (Container.continuation c); reflexivity.
Qed.

(** C10, as the code has it.  The rendering of a container at the
    declared types raises [ValueError] when its timestamp, every [Z] in
    it replaced by [+00:00], is not accepted by [datetime.fromisoformat].
    When it is accepted, the rendering returns a text exactly when the
    size of each attachment divided by 1024 is a float, which sizes below
    [2 ^ 63] in magnitude are, and it raises nothing but [OverflowError].
    [from_dict] passes every timestamp that is not empty on as it is, so
    a container with any such timestamp is what some document decodes
    to.  [from_dict] checks no types either: it passes a number for the
    timestamp on as well, and the rendering of what it returns raises
    [AttributeError]. *)
Theorem render_needs_parseable_timestamp (lib : Library) (c : Container.t) :
  (fromisoformat lib
     (replace_char 90 (lit "+00:00") (Container.createdAt c)) = None ->
   Gossip.to_human_readable lib (Container.obj c)
   = Raise (ValueError (lit "Invalid isoformat string"))) /\
  (forall d,
      fromisoformat lib
        (replace_char 90 (lit "+00:00") (Container.createdAt c)) = Some d ->
      ((forall a, In a (Container.attachments c) ->
                  exists x,
                    PyFloat.true_div (Attachment.sizeBytes a) 1024 = Ok x)
       <-> exists text,
             Gossip.to_human_readable lib (Container.obj c) = Ok text) /\
      ((forall a, In a (Container.attachments c) ->
                  Z.abs (Attachment.sizeBytes a) < 2 ^ 63) ->
       exists text,
         Gossip.to_human_readable lib (Container.obj c) = Ok text) /\
      (forall e,
          Gossip.to_human_readable lib (Container.obj c) = Raise e ->
          e = OverflowError)) /\
  (forall w,
      Container.id c <> [] -> Container.createdAt c <> [] ->
      Gossip.from_dict w (Gossip.to_dict (Container.obj c))
      = Ok (Container.obj c)) /\
  (forall w n,
      Container.id c <> [] -> n <> 0 ->
      Gossip.from_dict w
        (Gossip.to_dict (with_created (Container.obj c) (PInt n)))
      = Ok (with_created (Container.obj c) (PInt n)) /\
      Gossip.to_human_readable lib
        (with_created (Container.obj c) (PInt n))
      = Raise AttributeError).
Proof.
  split; [|split; [|split]].
  - apply render_unparseable.
  - intros d Hd. split; [apply (render_ok_iff lib c d Hd)|]. split.
    + intros Hsz. apply (render_ok_iff lib c d Hd).
      intros a Ha. apply PyFloatFacts.true_div_in_range; [auto | lia].
    + intros e. rewrite render_typed. unfold Gossip.created_text.
      rewrite Hd. cbn [bind].
      destruct (mapM file_text (Container.attachments c)) as [items|e']
        eqn:Ei; [discriminate|].
      cbn [bind]. intros H. injection H as ->.
      destruct (mapM_error _ _ _ Ei) as (a & _ & Ha).
      exact (file_text_error a e Ha).
  - intros w Hid Hcr. apply from_dict_to_dict, obj_valid; assumption.
  - intros w n Hid Hn. split.
    + apply from_dict_to_dict, valid_with_created; [exact Hid|].
      cbn [truthy]. apply negb_true_iff, Z.eqb_neq, Hn.
    + reflexivity.
Qed.

Lemma render_needs_parseable_timestamp_witness :
  (exists text,
      Gossip.to_human_readable Reference.library
        (Container.obj Sample.container) = Ok text) /\
  Gossip.to_human_readable Reference.library (Container.obj Sample.undated)
  = Raise (ValueError (lit "Invalid isoformat string")) /\
  Gossip.from_dict Sample.world (Gossip.to_dict (Container.obj Sample.undated))
  = Ok (Container.obj Sample.undated) /\
  Gossip.to_human_readable Reference.library
    (with_created (Container.obj Sample.container) (PInt 5))
  = Raise AttributeError.
Proof.
  split; [|split; [|split]].
  - destruct (Reference.fromisoformat
                (replace_char 90 (lit "+00:00")
                   (Container.createdAt Sample.container)))
      as [d|] eqn:E; [|vm_compute in E; discriminate].
    apply (proj1 (proj2 (proj1 (proj2 (render_needs_parseable_timestamp
                                         Reference.library Sample.container))
                           d E))).
    intros a [<-|[<-|[]]]; vm_compute; reflexivity.
  - apply (proj1 (render_needs_parseable_timestamp Reference.library
                    Sample.undated)).
    vm_compute. reflexivity.
  - apply (proj1 (proj2 (proj2 (render_needs_parseable_timestamp
                                  Reference.library Sample.undated))));
      discriminate.
  - destruct (proj2 (proj2 (proj2 (render_needs_parseable_timestamp
                                     Reference.library Sample.container)))
                Sample.world 5 ltac:(discriminate) ltac:(lia)) as [_ H].
    exact H.
Defined.

(** C10 as stated fails: a container whose timestamp is accepted, and
    which a document decodes to, is not rendered when an attachment
    declares a size whose quotient by 1024 is no float. *)
Lemma render_fails_on_oversized_attachment :
  Reference.fromisoformat
    (replace_char 90 (lit "+00:00") (Container.createdAt Sample.oversized))
  = Some (Reference.mkdt 2024 1 15 10 30 0) /\
  Gossip.to_human_readable Reference.library (Container.obj Sample.oversized)
  = Raise OverflowError /\
  Gossip.from_dict Sample.world
    (Gossip.to_dict (Container.obj Sample.oversized))
  = Ok (Container.obj Sample.oversized).
Proof.
  split; [vm_compute; reflexivity|].
  split; [vm_compute; reflexivity|].
  apply from_dict_to_dict, obj_valid; discriminate.
Qed.

(* ------------------------------------------------------------------ *)
(** ** The JSON text is ASCII *)
(* ------------------------------------------------------------------ *)

Module JsonFacts.
Import Json.

Lemma lit_app (a b : string) : lit (a ++ b) = lit a ++ lit b.
Proof.
  unfold lit. induction a as [|ch a IH]; [reflexivity|].
  cbn. f_equal. exact IH.
Qed.

Lemma uint_ascii (d : Decimal.uint) :
  Forall is_ascii (lit (NilEmpty.string_of_uint d)).
Proof.
  induction d; cbn; constructor; try assumption; unfold is_ascii; lia.
Qed.

Lemma decimal_ascii (n : Z) : Forall is_ascii (decimal n).
Proof.
  unfold decimal, NilZero.string_of_int, NilZero.string_of_uint.
  destruct (Z.to_int n) as [d|d].
  - destruct d; try apply uint_ascii.
    repeat constructor; unfold is_ascii; lia.
  - change (lit (String "-" ?s)) with (45 :: lit s).
    constructor; [unfold is_ascii; lia|].
    destruct d; try apply uint_ascii.
    repeat constructor; unfold is_ascii; lia.
Qed.

Lemma hex_digit_ascii (d : Z) : is_ascii (hex_digit (Z.land d 15)).
Proof.
  assert (H : 0 <= Z.land d 15 < 16).
  { change 15 with (Z.ones 4). rewrite Z.land_ones by lia.
    apply Z.mod_pos_bound. lia. }
  unfold hex_digit, is_ascii.
  set (k := Z.land d 15) in *.
  assert (E : forallb (fun i => nth i (lit "0123456789abcdef") 0 <? 128)
                      (seq 0 16) = true) by reflexivity.
  rewrite forallb_forall in E.
  apply Z.ltb_lt, E, in_seq. lia.
Qed.

Lemma u_escape_ascii (n : Z) : Forall is_ascii (u_escape n).
Proof.
  unfold u_escape.
  repeat constructor; try apply hex_digit_ascii; unfold is_ascii; lia.
Qed.

Lemma escape_char_ascii (c : Z) : Forall is_ascii (escape_char c).
Proof.
  unfold escape_char.
  repeat match goal with
         | |- context [if ?b then _ else _] => destruct b eqn:?
         end;
    repeat (apply Forall_app; split);
    try apply u_escape_ascii;
    repeat constructor; unfold is_ascii;
    repeat match goal with
           | H : (_ && _) = true |- _ =>
               apply andb_true_iff in H; destruct H
           | H : (_ <=? _) = true |- _ => apply Z.leb_le in H
           end;
    lia.
Qed.

Lemma encode_basestring_ascii_ascii (s : str) :
  Forall is_ascii (encode_basestring_ascii s).
Proof.
  unfold encode_basestring_ascii.
  apply Forall_app. split; [repeat constructor; unfold is_ascii; lia|].
  apply Forall_app. split; [|repeat constructor; unfold is_ascii; lia].
  induction s as [|c s IH]; [constructor|].
  cbn. apply Forall_app. split; [apply escape_char_ascii | exact IH].
Qed.

Lemma join_ascii (sep : str) (parts : list str) :
  Forall is_ascii sep -> Forall (Forall is_ascii) parts ->
  Forall is_ascii (join sep parts).
Proof.
  intros Hs Hp. induction Hp as [|p rest Hp _ IH]; [constructor|].
  destruct rest as [|q rest]; [exact Hp|].
  change (join sep (p :: q :: rest)) with (p ++ sep ++ join sep (q :: rest)).
  repeat (apply Forall_app; split); assumption.
Qed.

Lemma newline_indent_ascii (indent : option nat) (level : nat) :
  Forall is_ascii (newline_indent indent level).
Proof.
  destruct indent as [n|]; [|constructor]. cbn.
  constructor; [unfold is_ascii; lia|].
  apply Forall_forall. intros x Hx. apply repeat_spec in Hx. subst x.
  unfold is_ascii. lia.
Qed.

Lemma item_separator_ascii (indent : option nat) :
  Forall is_ascii (item_separator indent).
Proof.
  destruct indent; repeat constructor; unfold is_ascii; lia.
Qed.

Lemma dumps_at_ascii (indent : option nat) :
  forall (v : pyval) (level : nat), Forall is_ascii (dumps_at indent level v).
Proof.
  fix IH 1. intros v level. destruct v as [|b|n|s|l|d].
  - repeat constructor; unfold is_ascii; lia.
  - destruct b; repeat constructor; unfold is_ascii; lia.
  - apply decimal_ascii.
  - apply encode_basestring_ascii_ascii.
  - destruct l as [|x l]; [repeat constructor; unfold is_ascii; lia|].
    cbn [dumps_at].
    repeat (apply Forall_app; split);
      try apply newline_indent_ascii;
      try (repeat constructor; unfold is_ascii; lia).
    apply join_ascii.
    + apply Forall_app. split;
        [apply item_separator_ascii | apply newline_indent_ascii].
    + generalize (x :: l). intros l'.
      induction l' as [|y l' IHl]; [constructor|].
      cbn [map]. constructor; [apply IH | exact IHl].
  - destruct d as [|x d]; [repeat constructor; unfold is_ascii; lia|].
    cbn [dumps_at].
    repeat (apply Forall_app; split);
      try apply newline_indent_ascii;
      try (repeat constructor; unfold is_ascii; lia).
    apply join_ascii.
    + apply Forall_app. split;
        [apply item_separator_ascii | apply newline_indent_ascii].
    + generalize (x :: d). intros d'.
      induction d' as [|[k y] d' IHd]; [constructor|].
      cbn [map fst snd]. constructor; [|exact IHd].
      apply Forall_app. split; [apply encode_basestring_ascii_ascii|].
      apply Forall_app. split; [|apply IH].
      repeat constructor; unfold is_ascii; lia.
Qed.

Lemma utf8_len_ascii (s : str) : Forall is_ascii s -> utf8_len s = len s.
Proof.
  unfold len. induction 1 as [|c s Hc _ IH]; [reflexivity|].
  cbn [utf8_len fold_right List.length]. fold (utf8_len s). rewrite IH.
  unfold is_ascii in Hc. apply Z.ltb_lt in Hc. rewrite Hc. lia.
Qed.



End JsonFacts.

(* ------------------------------------------------------------------ *)
(** ** Statistics *)
(* ------------------------------------------------------------------ *)







(** The size of the rendering that [get_stats] reports counts its
    characters: for the sample it is 2862 characters, which make 5150
    bytes in UTF-8, the measure that [save] prints. *)
Lemma stats_count_characters :
  exists text st,
    Gossip.to_human_readable Reference.library (Container.obj Sample.container)
    = Ok text /\
    Gossip.get_stats Reference.library (Container.obj Sample.container)
    = Ok st /\
    PyFloat.true_div (len text) 1024 = Ok (Stats.human_readable_size_kb st) /\
    len text < utf8_len text.
Proof.
  do 2 eexists.
  split; [vm_compute; reflexivity|].
  split; [vm_compute; reflexivity|].
  split; vm_compute; reflexivity.
Qed.

(* ================================================================== *)
(** * Further properties of the class and of the commands *)
(* ================================================================== *)

(* ------------------------------------------------------------------ *)
(** ** Attaching and extracting *)
(* ------------------------------------------------------------------ *)

Lemma extract_loop_found_app (l l' : list pyval) (n : str)
    (out : option str) (r : str * bytes) :
  Gossip.extract_loop l n out = Ok r ->
  Gossip.extract_loop (l ++ l') n out = Ok r.
Proof.
  induction l as [|file l IH]; [discriminate|].
  cbn [app Gossip.extract_loop]. intros H.
  destruct (subscript file (lit "name")) as [nm|e]; [|discriminate].
  cbn [bind] in *.
  destruct (Gossip.equals_str nm n); [exact H | apply IH, H].
Qed.

Lemma not_found_message (n : str) :
  lit "string argument should contain only ASCII characters"
  <> lit "File not found in Gossip: " ++ n.
Proof. discriminate. Qed.

(** The decoding loop raises nothing but the error of [binascii]. *)
Lemma a2b_loop_error (s : str) :
  forall (q L p : Z) (acc : bytes) (e : exn),
    Base64.a2b_loop s q L p acc = Raise e -> e = BinasciiError.
Proof.
  induction s as [|ch s IH]; intros q L p acc e.
  - cbn. destruct (q =? 0); [discriminate | congruence].
  - cbn [Base64.a2b_loop].
    destruct (ch =? Base64.BASE64_PAD).
    + destruct (2 <=? q); [|apply IH].
      destruct (4 <=? q + (p + 1)); [discriminate | apply IH].
    + destruct (Base64.a2b ch) as [v|]; [|apply IH].
      destruct (q =? 0); [apply IH|].
      destruct (q =? 1); [apply IH|].
      destruct (q =? 2); apply IH.
Qed.

Lemma b64decode_value_not_missing (v : pyval) (n : str) :
  Gossip.b64decode_value v
  <> Raise (ValueError (lit "File not found in Gossip: " ++ n)).
Proof.
  destruct v; try discriminate. cbn [Gossip.b64decode_value].
  unfold Base64.b64decode.
  destruct (forallb (fun ch => ch <? 128) s).
  - unfold Base64.a2b_base64. intros E.
    apply a2b_loop_error in E. discriminate.
  - intros E. apply (not_found_message n). congruence.
Qed.

Lemma subscript_error (v : pyval) (k : str) (e : exn) :
  subscript v k = Raise e -> e = TypeError \/ e = KeyError k.
Proof.
  unfold subscript. destruct v; try (intros H; injection H as <-; auto).
  destruct (assoc k d); [discriminate|].
  intros H; injection H as <-; auto.
Qed.

Lemma extract_loop_missing_app (l l' : list pyval) (n : str)
    (out : option str) :
  Gossip.extract_loop l n out
  = Raise (ValueError (lit "File not found in Gossip: " ++ n)) ->
  Gossip.extract_loop (l ++ l') n out = Gossip.extract_loop l' n out.
Proof.
  induction l as [|file l IH]; [reflexivity|].
  cbn [app Gossip.extract_loop]. intros H.
  destruct (subscript file (lit "name")) as [nm|e] eqn:En.
  2: { cbn [bind] in H. injection H as ->.
       destruct (subscript_error _ _ _ En); discriminate. }
  cbn [bind] in *.
  destruct (Gossip.equals_str nm n); [|apply IH, H].
  exfalso.
  destruct (subscript file (lit "data")) as [enc|e] eqn:Ed.
  2: { cbn [bind] in H. injection H as ->.
       destruct (subscript_error _ _ _ Ed); discriminate. }
  cbn [bind] in H.
  destruct (Gossip.b64decode_value enc) as [data|e] eqn:E; [discriminate|].
  cbn [bind] in H. injection H as ->.
  exact (b64decode_value_not_missing _ _ E).
Qed.

Lemma add_file_ok_inv (lib : Library) (fs : str -> option bytes)
    (filepath : str) (g g' : Gossip.t) :
  Gossip.add_file lib fs filepath g = Ok g' ->
  exists data l,
    fs filepath = Some data /\
    Gossip.files g = PList l /\
    Gossip.files g' =
      PList (l ++ [Gossip.file_entry (path_name lib filepath)
                     (Gossip._get_mime_type (path_suffix lib filepath))
                     data]).
Proof.
  unfold Gossip.add_file. intros H.
  destruct (fs filepath) as [data|]; [|discriminate].
  destruct (Gossip.files g) as [| | | |l|] eqn:El; try discriminate.
  injection H as <-. exists data, l. repeat split; reflexivity.
Qed.

(** X2.  A file that has just been attached is extracted again under
    its name, byte for byte, when no file of that name was in the
    instance before. *)
Theorem attach_then_extract (lib : Library) (fs : str -> option bytes)
    (filepath : str) (g g' : Gossip.t) (data : bytes)
    (output_path : option str) :
  Gossip.add_file lib fs filepath g = Ok g' ->
  fs filepath = Some data ->
  Gossip.extract_file g (path_name lib filepath) output_path
  = Raise (ValueError
             (lit "File not found in Gossip: " ++ path_name lib filepath)) ->
  Gossip.extract_file g' (path_name lib filepath) output_path
  = Ok (match output_path with
        | Some p => p
        | None => path_name lib filepath
        end, data).
Proof.
  intros Ha Hfs Hmiss.
  destruct (add_file_ok_inv _ _ _ _ _ Ha) as (data' & l & Hd & Hl & Hl').
  rewrite Hfs in Hd. injection Hd as <-.
  unfold Gossip.extract_file in *. rewrite Hl in Hmiss. rewrite Hl'.
  cbn [py_iter bind] in *.
  rewrite (extract_loop_missing_app _ _ _ _ Hmiss).
  cbn [Gossip.extract_loop].
  change (subscript (Gossip.file_entry ?a ?b ?c) (lit "name"))
    with (@Ok pyval (PStr a)).
  cbn [bind Gossip.equals_str]. rewrite str_eqb_refl.
  change (subscript (Gossip.file_entry ?a ?b ?c) (lit "data"))
    with (@Ok pyval (PStr (Base64.b64encode c))).
  cbn [bind Gossip.b64decode_value].
  rewrite Base64Facts.b64decode_b64encode. reflexivity.
Qed.

Lemma attach_then_extract_witness :
  exists g g',
    Gossip.new_default Sample.world (PStr (lit "T")) (PStr (lit "S")) = Ok g /\
    Gossip.add_file Reference.library Sample.fs (lit "docs/abc.TXT") g
    = Ok g' /\
    Gossip.extract_file g' (lit "abc.TXT") None
    = Ok (lit "abc.TXT", [Byte.x41; Byte.x42; Byte.x43]).
Proof.
  set (g := Gossip.__init__ Sample.world (PStr (lit "T")) (PStr (lit "S"))
              (PStr (lit "unknown")) PNone PNone PNone PNone PNone).
  exists g.
  destruct (Gossip.add_file Reference.library Sample.fs (lit "docs/abc.TXT") g)
    as [g'|e] eqn:E; [|discriminate E].
  exists g'. split; [reflexivity|]. split; [reflexivity|].
  exact (attach_then_extract Reference.library Sample.fs (lit "docs/abc.TXT")
           g g' [Byte.x41; Byte.x42; Byte.x43] None E eq_refl eq_refl).
Defined.

(** X3.  Attaching a file never changes what is extracted under a name
    that could be extracted before: the earlier entry stays the first. *)
Theorem attach_keeps_extraction (lib : Library) (fs : str -> option bytes)
    (filepath : str) (g g' : Gossip.t) (n : str) (output_path : option str)
    (r : str * bytes) :
  Gossip.add_file lib fs filepath g = Ok g' ->
  Gossip.extract_file g n output_path = Ok r ->
  Gossip.extract_file g' n output_path = Ok r.
Proof.
  intros Ha Hr.
  destruct (add_file_ok_inv _ _ _ _ _ Ha) as (data & l & _ & Hl & Hl').
  unfold Gossip.extract_file in *. rewrite Hl in Hr. rewrite Hl'.
  cbn [py_iter bind] in *. apply extract_loop_found_app, Hr.
Qed.

Lemma attach_keeps_extraction_witness :
  exists g',
    Gossip.add_file Reference.library Sample2.fs (lit "data/x.bin")
                    (Container.obj Sample.container) = Ok g' /\
    Gossip.extract_file g' (lit "x.txt") None
    = Ok (lit "x.txt", [Byte.x41; Byte.x42; Byte.x43]).
Proof.
  destruct (Gossip.add_file Reference.library Sample2.fs (lit "data/x.bin")
              (Container.obj Sample.container)) as [g'|e] eqn:E;
    [|discriminate E].
  exists g'. split; [reflexivity|].
  exact (attach_keeps_extraction Reference.library Sample2.fs
           (lit "data/x.bin") (Container.obj Sample.container) g'
           (lit "x.txt") None _ E eq_refl).
Defined.

Lemma b2a_in_table (s : Z) :
  Base64Checks.six s = true -> In (Base64.b2a s) Base64.table_b2a_base64.
Proof.
  intros H. apply Base64Facts.six_range in H.
  unfold Base64.b2a. apply nth_In.
  change (List.length Base64.table_b2a_base64) with 64%nat. lia.
Qed.

(** X4.  The data that [add_file] stores for a file of [n] bytes are
    [4 * ceil (n / 3)] characters, each of them a character of the
    base64 alphabet or the pad. *)
Theorem attached_payload_shape (name mime_type : str) (data : bytes) :
  exists payload,
    subscript (Gossip.file_entry name mime_type data) (lit "data")
    = Ok (PStr payload) /\
    subscript (Gossip.file_entry name mime_type data) (lit "size")
    = Ok (PInt (Z.of_nat (List.length data))) /\
    len payload = 4 * ((Z.of_nat (List.length data) + 2) / 3) /\
    Forall (fun ch => In ch Base64.table_b2a_base64 \/
                      ch = Base64.BASE64_PAD) payload.
Proof.
  exists (Base64.b64encode data).
  split; [reflexivity|]. split; [reflexivity|].
  unfold len.
  induction data as [|a|a b|a b c rest [IH1 IH2]]
    using Base64Facts.bytes_ind3.
  - split; [reflexivity | constructor].
  - pose proof (Base64Facts.check_ab_all _ _ (byte_val_range a)
                  (byte_val_range a)) as Hab.
    unfold Base64Checks.check_ab in Hab. cbv zeta in Hab.
    Base64Facts.split_checks Hab.
    split; [reflexivity|]. cbn [Base64.b64encode].
    repeat (apply Forall_cons || apply Forall_nil);
      first [right; reflexivity | left; apply b2a_in_table; assumption].
  - pose proof (Base64Facts.check_ab_all _ _ (byte_val_range a)
                  (byte_val_range b)) as Hab.
    pose proof (Base64Facts.check_bc_all _ _ (byte_val_range b)
                  (byte_val_range b)) as Hbc.
    unfold Base64Checks.check_ab in Hab. unfold Base64Checks.check_bc in Hbc. cbv zeta in Hab, Hbc.
    Base64Facts.split_checks Hab. Base64Facts.split_checks Hbc.
    split; [reflexivity|]. cbn [Base64.b64encode].
    repeat (apply Forall_cons || apply Forall_nil);
      first [right; reflexivity | left; apply b2a_in_table; assumption].
  - pose proof (Base64Facts.check_ab_all _ _ (byte_val_range a)
                  (byte_val_range b)) as Hab.
    pose proof (Base64Facts.check_bc_all _ _ (byte_val_range b)
                  (byte_val_range c)) as Hbc.
    unfold Base64Checks.check_ab in Hab. unfold Base64Checks.check_bc in Hbc. cbv zeta in Hab, Hbc.
    Base64Facts.split_checks Hab. Base64Facts.split_checks Hbc.
    cbn [Base64.b64encode]. split.
    + rewrite length_app. unfold Base64.encode3.
      cbn [List.length]. rewrite Nat2Z.inj_add, IH1.
      replace (Z.of_nat (S (S (S (List.length rest))))
               + 2) with ((Z.of_nat (List.length rest) + 2) + 1 * 3) by lia.
      rewrite Z.div_add by lia. lia.
    + apply Forall_app. split; [|exact IH2].
      unfold Base64.encode3. repeat (apply Forall_cons || apply Forall_nil);
      first [right; reflexivity | left; apply b2a_in_table; assumption].
Qed.

(* ------------------------------------------------------------------ *)
(** ** MIME types *)
(* ------------------------------------------------------------------ *)

Lemma assoc_not_in {A} (k : str) (d : list (str * A)) :
  (forall v, ~ In (k, v) d) -> assoc k d = None.
Proof.
  induction d as [|[k' v'] d IH]; intros H; [reflexivity|].
  cbn. destruct (str_eqb k' k) eqn:E.
  - apply str_eqb_eq in E. subst k'. exfalso. apply (H v'). left. reflexivity.
  - apply IH. intros v Hv. apply (H v). right. exact Hv.
Qed.

Lemma lower_lower (s : str) : lower (lower s) = lower s.
Proof.
  unfold lower. rewrite map_map. apply map_ext. intros c.
  destruct ((65 <=? c) && (c <=? 90)) eqn:E; [|rewrite E; reflexivity].
  apply andb_true_iff in E. destruct E as [E1 E2].
  apply Z.leb_le in E1, E2.
  destruct ((65 <=? c + 32) && (c + 32 <=? 90)) eqn:E'; [|reflexivity].
  apply andb_true_iff in E'. destruct E' as [_ E']. apply Z.leb_le in E'. lia.
Qed.

(** X5.  [_get_mime_type] finds every entry of its table, whatever the
    case of the ASCII letters of the extension, and gives
    [application/octet-stream] for every extension that, in lower case,
    is not a key of the table. *)
Theorem mime_type_lookup (extension : str) :
  (forall k m,
      In (k, m) Gossip.mime_map -> lower extension = k ->
      Gossip._get_mime_type extension = m) /\
  ((forall k m, In (k, m) Gossip.mime_map -> lower extension <> k) ->
   Gossip._get_mime_type extension = lit "application/octet-stream") /\
  Gossip._get_mime_type (lower extension) = Gossip._get_mime_type extension.
Proof.
  split; [|split].
  - intros k m Hin Hk. unfold Gossip._get_mime_type. rewrite Hk.
    unfold Gossip.mime_map in Hin.
    repeat (destruct Hin as [Hin|Hin];
            [injection Hin as <- <-; reflexivity|]).
    destruct Hin.
  - intros H. unfold Gossip._get_mime_type.
    rewrite assoc_not_in; [reflexivity|].
    intros v Hv. exact (H _ _ Hv eq_refl).
  - unfold Gossip._get_mime_type. rewrite lower_lower. reflexivity.
Qed.

Lemma mime_type_lookup_witness :
  Gossip._get_mime_type (lit ".TXT") = lit "text/plain" /\
  Gossip._get_mime_type (lit ".Jpeg") = lit "image/jpeg".
Proof.
  split.
  - apply (proj1 (mime_type_lookup (lit ".TXT")) (lit ".txt")).
    + cbn. tauto.
    + reflexivity.
  - apply (proj1 (mime_type_lookup (lit ".Jpeg")) (lit ".jpeg")).
    + cbn. tauto.
    + reflexivity.
Defined.

(* ------------------------------------------------------------------ *)
(** ** The characters of the JSON text *)
(* ------------------------------------------------------------------ *)

Module JsonChars.
Import Json.

Section Chars.

Variable P : Z -> Prop.
Hypothesis P_printable : forall ch, is_printable ch -> P ch.

Ltac printable :=
  repeat (apply Forall_cons || apply Forall_nil);
  apply P_printable; unfold is_printable; cbn; lia.

Lemma printable_lit (s : string) :
  forallb (fun ch => (32 <=? ch) && (ch <=? 126)) (lit s) = true ->
  Forall P (lit s).
Proof.
  intros H. rewrite forallb_forall in H. apply Forall_forall.
  intros ch Hch. apply P_printable. specialize (H ch Hch).
  apply andb_true_iff in H. unfold is_printable. lia.
Qed.

Lemma uint_chars (d : Decimal.uint) :
  Forall P (lit (NilEmpty.string_of_uint d)).
Proof.
  induction d; cbn; constructor; try assumption;
    apply P_printable; unfold is_printable; lia.
Qed.

Lemma decimal_chars (n : Z) : Forall P (decimal n).
Proof.
  unfold decimal, NilZero.string_of_int, NilZero.string_of_uint.
  destruct (Z.to_int n) as [d|d].
  - destruct d; try apply uint_chars.
    printable.
  - change (lit (String "-" ?s)) with (45 :: lit s).
    constructor; [apply P_printable; unfold is_printable; lia|].
    destruct d; try apply uint_chars.
    printable.
Qed.

Lemma hex_digit_chars (d : Z) : P (hex_digit (Z.land d 15)).
Proof.
  assert (H : 0 <= Z.land d 15 < 16).
  { change 15 with (Z.ones 4). rewrite Z.land_ones by lia.
    apply Z.mod_pos_bound. lia. }
  apply P_printable. unfold hex_digit, is_printable.
  set (k := Z.land d 15) in *.
  assert (E : forallb (fun i =>
                         (32 <=? nth i (lit "0123456789abcdef") 0) &&
                         (nth i (lit "0123456789abcdef") 0 <=? 126))
                      (seq 0 16) = true) by reflexivity.
  rewrite forallb_forall in E.
  specialize (E (Z.to_nat k)). rewrite in_seq in E.
  specialize (E ltac:(lia)). apply andb_true_iff in E. lia.
Qed.

Lemma u_escape_chars (n : Z) : Forall P (u_escape n).
Proof.
  unfold u_escape.
  repeat constructor; try apply hex_digit_chars;
    apply P_printable; unfold is_printable; lia.
Qed.

Lemma escape_char_chars (c : Z) : Forall P (escape_char c).
Proof.
  unfold escape_char.
  repeat match goal with
         | |- context [if ?b then _ else _] => destruct b eqn:?
         end;
    repeat (apply Forall_app; split);
    try apply u_escape_chars;
    repeat constructor; apply P_printable; unfold is_printable;
    repeat match goal with
           | H : (_ && _) = true |- _ =>
               apply andb_true_iff in H; destruct H
           | H : (_ <=? _) = true |- _ => apply Z.leb_le in H
           end;
    lia.
Qed.

Lemma encode_basestring_chars (s : str) :
  Forall P (encode_basestring_ascii s).
Proof.
  unfold encode_basestring_ascii.
  apply Forall_app. split;
    [printable|].
  apply Forall_app. split;
    [|printable].
  induction s as [|c s IH]; [constructor|].
  cbn. apply Forall_app. split; [apply escape_char_chars | exact IH].
Qed.

Lemma join_chars (sep : str) (parts : list str) :
  Forall P sep -> Forall (Forall P) parts -> Forall P (join sep parts).
Proof.
  intros Hs Hp. induction Hp as [|p rest Hp _ IH]; [constructor|].
  destruct rest as [|q rest]; [exact Hp|].
  change (join sep (p :: q :: rest)) with (p ++ sep ++ join sep (q :: rest)).
  repeat (apply Forall_app; split); assumption.
Qed.

Variable indent : option nat.
Hypothesis P_newline : indent <> None -> P 10.

Lemma newline_indent_chars (level : nat) :
  Forall P (newline_indent indent level).
Proof.
  unfold newline_indent. destruct indent as [n|]; [|constructor].
  cbn. constructor; [apply P_newline; discriminate|].
  apply Forall_forall. intros x Hx. apply repeat_spec in Hx. subst x.
  apply P_printable. unfold is_printable. lia.
Qed.

Lemma item_separator_chars : Forall P (item_separator indent).
Proof.
  unfold item_separator.
  destruct indent; printable.
Qed.

Lemma dumps_at_chars :
  forall (v : pyval) (level : nat), Forall P (dumps_at indent level v).
Proof.
  fix IH 1. intros v level. destruct v as [|b|n|s|l|d].
  - printable.
  - destruct b; printable.
  - apply decimal_chars.
  - apply encode_basestring_chars.
  - destruct l as [|x l];
      [printable|].
    cbn [dumps_at].
    apply Forall_app. split;
      [printable|].
    apply Forall_app. split; [apply newline_indent_chars|].
    apply Forall_app. split.
    2: { apply Forall_app. split; [apply newline_indent_chars|].
         printable. }
    apply join_chars.
    + apply Forall_app. split;
        [apply item_separator_chars | apply newline_indent_chars].
    + generalize (x :: l). intros l'.
      induction l' as [|y l' IHl]; [constructor|].
      cbn [map]. constructor; [apply IH | exact IHl].
  - destruct d as [|x d];
      [printable|].
    cbn [dumps_at].
    apply Forall_app. split;
      [printable|].
    apply Forall_app. split; [apply newline_indent_chars|].
    apply Forall_app. split.
    2: { apply Forall_app. split; [apply newline_indent_chars|].
         printable. }
    apply join_chars.
    + apply Forall_app. split;
        [apply item_separator_chars | apply newline_indent_chars].
    + generalize (x :: d). intros d'.
      induction d' as [|[k y] d' IHd]; [constructor|].
      cbn [map fst snd]. constructor; [|exact IHd].
      apply Forall_app. split; [apply encode_basestring_chars|].
      apply Forall_app. split; [|apply IH].
      printable.
Qed.

End Chars.

End JsonChars.

(** X6.  The compact JSON text of an instance is one line of printable
    ASCII characters, whatever the strings of the instance contain; the
    indented text has line breaks besides.  In both, the number of bytes
    is the number of characters. *)
Theorem to_json_characters (g : Gossip.t) :
  Forall is_printable (Gossip.to_json g false) /\
  ~ In 10 (Gossip.to_json g false) /\
  Forall (fun ch => is_printable ch \/ ch = 10) (Gossip.to_json g true) /\
  (forall pretty,
      utf8_len (Gossip.to_json g pretty) = len (Gossip.to_json g pretty)).
Proof.
  assert (H1 : Forall is_printable (Gossip.to_json g false)).
  { unfold Gossip.to_json, Json.dumps.
    apply JsonChars.dumps_at_chars; [auto | congruence]. }
  split; [exact H1|]. split.
  { intros Hin. rewrite Forall_forall in H1. specialize (H1 10 Hin).
    unfold is_printable in H1. lia. }
  split.
  { unfold Gossip.to_json, Json.dumps.
    apply JsonChars.dumps_at_chars; [auto | auto]. }
  intros pretty. apply JsonFacts.utf8_len_ascii.
  unfold Gossip.to_json, Json.dumps. apply JsonFacts.dumps_at_ascii.
Qed.

(* ------------------------------------------------------------------ *)
(** ** The resume prompt *)
(* ------------------------------------------------------------------ *)

(** X7.  [generate_resume_prompt] fails exactly as the rendering fails;
    otherwise its result is the rendering followed by a note.  The note
    is empty for every target other than the four names of the table,
    which are compared as they are written, and for these four it starts
    with a blank line and [[Gossip Integration Note for]. *)
Theorem resume_prompt_extends_rendering (lib : Library) (g : Gossip.t)
    (target_ai : str) :
  (forall e,
      Gossip.to_human_readable lib g = Raise e ->
      GossipOutput.generate_resume_prompt lib g target_ai = Raise e) /\
  (forall text,
      Gossip.to_human_readable lib g = Ok text ->
      exists note,
        GossipOutput.generate_resume_prompt lib g target_ai
        = Ok (text ++ note) /\
        (~ In target_ai
             [lit "claude"; lit "chatgpt"; lit "gemini"; lit "grok"] ->
         note = []) /\
        (In target_ai
            [lit "claude"; lit "chatgpt"; lit "gemini"; lit "grok"] ->
         exists rest,
           note = [10; 10] ++ lit "[Gossip Integration Note for " ++ rest)).
Proof.
  split.
  - intros e H. unfold GossipOutput.generate_resume_prompt.
    rewrite H. reflexivity.
  - intros text H. unfold GossipOutput.generate_resume_prompt.
    rewrite H. cbn [bind].
    change (assoc (lit "universal") GossipOutput.optimizations)
      with (Some (@nil Z)).
    cbn [bind]. unfold GossipOutput.optimizations.
    cbn [assoc].
    destruct (str_eqb (lit "claude") target_ai) eqn:E1.
    { apply str_eqb_eq in E1. subst target_ai.
      eexists. split; [reflexivity|]. split.
      - intros N. exfalso. apply N. cbn. tauto.
      - intros _. eexists. reflexivity. }
    destruct (str_eqb (lit "chatgpt") target_ai) eqn:E2.
    { apply str_eqb_eq in E2. subst target_ai.
      eexists. split; [reflexivity|]. split.
      - intros N. exfalso. apply N. cbn. tauto.
      - intros _. eexists. reflexivity. }
    destruct (str_eqb (lit "gemini") target_ai) eqn:E3.
    { apply str_eqb_eq in E3. subst target_ai.
      eexists. split; [reflexivity|]. split.
      - intros N. exfalso. apply N. cbn. tauto.
      - intros _. eexists. reflexivity. }
    destruct (str_eqb (lit "grok") target_ai) eqn:E4.
    { apply str_eqb_eq in E4. subst target_ai.
      eexists. split; [reflexivity|]. split.
      - intros N. exfalso. apply N. cbn. tauto.
      - intros _. eexists. reflexivity. }
    exists []. split.
    { destruct (str_eqb (lit "universal") target_ai); reflexivity. }
    split; [reflexivity|].
    intros [<-|[<-|[<-|[<-|[]]]]];
      rewrite str_eqb_refl in *; discriminate.
Qed.

Lemma resume_prompt_extends_rendering_witness :
  exists text note,
    Gossip.to_human_readable Reference.library
      (Container.obj Sample.container) = Ok text /\
    GossipOutput.generate_resume_prompt Reference.library
      (Container.obj Sample.container) (lit "Claude")
    = Ok (text ++ note) /\ note = [].
Proof.
  destruct (Gossip.to_human_readable Reference.library
              (Container.obj Sample.container)) as [text|e] eqn:E;
    [|vm_compute in E; discriminate].
  destruct (proj2 (resume_prompt_extends_rendering Reference.library
                     (Container.obj Sample.container) (lit "Claude"))
                  text E) as (note & H & Hn & _).
  exists text, note. split; [reflexivity|]. split; [exact H|]. apply Hn.
  cbn. intros [H1|[H1|[H1|[H1|[]]]]]; discriminate.
Defined.

(* ------------------------------------------------------------------ *)
(** ** Saving *)
(* ------------------------------------------------------------------ *)

Lemma endswith_app (a s : str) : endswith (a ++ s) s = true.
Proof.
  unfold endswith. rewrite List.length_app.
  replace (List.length a + List.length s - List.length s)%nat
    with (List.length a) by lia.
  rewrite skipn_app, skipn_all, Nat.sub_diag. cbn [skipn app].
  apply str_eqb_refl.
Qed.

Lemma reference_with_suffix (p s r : str) :
  with_suffix ReferencePaths.library p s = Ok r -> endswith r s = true.
Proof.
  cbn [with_suffix ReferencePaths.library]. unfold ReferencePaths.with_suffix.
  destruct (Reference.path_name p); [discriminate|].
  intros H. injection H as <-. apply endswith_app.
Qed.

Lemma target_path_suffix (paths : PathLibrary) (filepath suffix path : str)
    (kept : list str) :
  (forall p s r, with_suffix paths p s = Ok r -> endswith r s = true) ->
  In suffix kept ->
  GossipOutput.target_path paths filepath kept suffix = Ok path ->
  exists s, In s kept /\ endswith path s = true.
Proof.
  intros Hw Hin. unfold GossipOutput.target_path.
  destruct (existsb (endswith (path_str paths filepath)) kept) eqn:E.
  - intros H. injection H as <-. apply existsb_exists in E. exact E.
  - intros H. exists suffix. split; [exact Hin | exact (Hw _ _ _ H)].
Qed.

(** X8.  [save] knows two formats and raises [ValueError] for every other
    one.  When it succeeds it has written what it returns: for [json]
    the indented JSON text, to a path that ends in [.gossip] or [.json];
    for [txt] the rendering, to a path that ends in [.txt].  With [txt] a
    failure of the rendering is the failure of [save].  [with_suffix] is
    taken to give a path that ends with the suffix. *)
Theorem save_outcomes (lib : Library) (paths : PathLibrary)
    (write_text : str -> str -> result unit) (g : Gossip.t)
    (filepath format : str) :
  (forall p s r, with_suffix paths p s = Ok r -> endswith r s = true) ->
  (format <> lit "json" -> format <> lit "txt" ->
   GossipOutput.save lib paths write_text g filepath format
   = Raise (ValueError (lit "Unsupported format: " ++ format))) /\
  (forall path content,
      GossipOutput.save lib paths write_text g filepath format
      = Ok (path, content) ->
      write_text path content = Ok tt /\
      ((format = lit "json" /\
        content = Gossip.to_json g true /\
        (endswith path (lit ".gossip") = true \/
         endswith path (lit ".json") = true)) \/
       (format = lit "txt" /\
        Gossip.to_human_readable lib g = Ok content /\
        endswith path (lit ".txt") = true))) /\
  (format = lit "txt" ->
   forall e,
     Gossip.to_human_readable lib g = Raise e ->
     GossipOutput.save lib paths write_text g filepath format = Raise e).
Proof.
  intros Hw. unfold GossipOutput.save. split; [|split].
  - intros H1 H2.
    apply str_eqb_neq in H1, H2. rewrite H1, H2. reflexivity.
  - intros path content H.
    destruct (str_eqb format (lit "json")) eqn:Ej.
    + apply str_eqb_eq in Ej.
      apply bind_ok in H. destruct H as (path' & Hp & H).
      apply bind_ok in H. destruct H as ([] & Hwr & H).
      injection H as <- <-. split; [exact Hwr|]. left.
      split; [exact Ej|]. split; [reflexivity|].
      destruct (target_path_suffix paths filepath (lit ".gossip") path'
                  [lit ".gossip"; lit ".json"] Hw
                  (or_introl eq_refl) Hp) as (s & [<-|[<-|[]]] & Hs);
        [left | right]; exact Hs.
    + destruct (str_eqb format (lit "txt")) eqn:Et; [|discriminate].
      apply str_eqb_eq in Et.
      apply bind_ok in H. destruct H as (content' & Hc & H).
      apply bind_ok in H. destruct H as (path' & Hp & H).
      apply bind_ok in H. destruct H as ([] & Hwr & H).
      injection H as <- <-. split; [exact Hwr|]. right.
      split; [exact Et|]. split; [exact Hc|].
      destruct (target_path_suffix paths filepath (lit ".txt") path'
                  [lit ".txt"] Hw (or_introl eq_refl) Hp)
        as (s & [<-|[]] & Hs).
      exact Hs.
  - intros -> e He. change (str_eqb (lit "txt") (lit "json")) with false.
    rewrite str_eqb_refl, He. reflexivity.
Qed.

Lemma save_outcomes_witness :
  GossipOutput.save Reference.library ReferencePaths.library
    (fun _ _ => Ok tt) (Container.obj Sample.container)
    (lit "out/talk") (lit "yaml")
  = Raise (ValueError (lit "Unsupported format: yaml")).
Proof.
  apply (proj1 (save_outcomes Reference.library ReferencePaths.library
                  (fun _ _ => Ok tt) (Container.obj Sample.container)
                  (lit "out/talk") (lit "yaml") reference_with_suffix));
    vm_compute; discriminate.
Defined.

Lemma save_then_load_gen (lib : Library) (paths : PathLibrary)
    (write_text : str -> str -> result unit)
    (read_text : str -> result str) (w : Gossip.World) (g : Gossip.t)
    (filepath path content : str) :
  valid g ->
  json_loads lib (Gossip.to_json g true) = Some (Gossip.to_dict g) ->
  GossipOutput.save lib paths write_text g filepath (lit "json")
  = Ok (path, content) ->
  read_text path = Ok content ->
  Gossip.load lib w read_text path = Ok g.
Proof.
  intros Hv Hj Hs Hr. unfold GossipOutput.save in Hs.
  rewrite str_eqb_refl in Hs.
  apply bind_ok in Hs. destruct Hs as (path' & _ & Hs).
  apply bind_ok in Hs. destruct Hs as ([] & _ & Hs).
  injection Hs as -> <-.
  unfold Gossip.load. rewrite Hr. cbn [bind]. rewrite Hj.
  apply from_dict_to_dict, Hv.
Qed.

(** X9.  What [save] writes as JSON, [load] reads back as the same
    instance: for an instance with the attributes of the constructor,
    and a [json.loads] that reads the text of [to_json] as the dictionary
    it was made from. *)
Theorem save_then_load (lib : Library) (paths : PathLibrary)
    (write_text : str -> str -> result unit)
    (read_text : str -> result str) (w : Gossip.World) (g : Gossip.t)
    (filepath path content : str) :
  valid g ->
  json_loads lib (Gossip.to_json g true) = Some (Gossip.to_dict g) ->
  GossipOutput.save lib paths write_text g filepath (lit "json")
  = Ok (path, content) ->
  read_text path = Ok content ->
  Gossip.load lib w read_text path = Ok g.
Proof. apply save_then_load_gen. Qed.

Lemma save_then_load_witness :
  Gossip.load Reference.library Sample.world
    (fun _ => Ok (Gossip.to_json (Container.obj Sample.container) true))
    (lit "out/talk.gossip")
  = Ok (Container.obj Sample.container).
Proof.
  apply (save_then_load Reference.library ReferencePaths.library
           (fun _ _ => Ok tt)
           (fun _ => Ok (Gossip.to_json (Container.obj Sample.container)
                                        true))
           Sample.world (Container.obj Sample.container)
           (lit "out/talk") (lit "out/talk.gossip")
           (Gossip.to_json (Container.obj Sample.container) true)).
  - apply obj_valid; vm_compute; discriminate.
  - vm_compute. reflexivity.
  - vm_compute. reflexivity.
  - reflexivity.
Defined.

(** X10.  An instance that [from_dict] has built is kept by the way
    through [to_dict] and [from_dict]: the defaults that the first
    reading filled in are read back as they are. *)
Theorem decoded_is_stable (w w' : Gossip.World) (data : pyval)
    (g : Gossip.t) :
  Gossip.from_dict w data = Ok g ->
  Gossip.from_dict w' (Gossip.to_dict g) = Ok g.
Proof.
  intros H. apply from_dict_to_dict. exact (from_dict_valid w data g H).
Qed.

Lemma decoded_is_stable_witness :
  exists g,
    Gossip.from_dict Sample.world Sample.mismatched_document = Ok g /\
    Gossip.from_dict Sample.world (Gossip.to_dict g) = Ok g.
Proof.
  destruct (Gossip.from_dict Sample.world Sample.mismatched_document)
    as [g|e] eqn:E; [|vm_compute in E; discriminate].
  exists g. split; [reflexivity|].
  exact (decoded_is_stable Sample.world Sample.world
           Sample.mismatched_document g E).
Defined.

(* ------------------------------------------------------------------ *)
(** ** The command [create] *)
(* ------------------------------------------------------------------ *)

Lemma join_cons (sep p : str) (rest : list str) :
  rest <> [] -> join sep (p :: rest) = p ++ sep ++ join sep rest.
Proof. destruct rest; [congruence | reflexivity]. Qed.

Lemma split_from_nonempty (sep : Z) (s piece : str) :
  split_from sep s piece <> [].
Proof.
  revert piece. induction s as [|c s IH]; intros piece; cbn [split_from];
    [discriminate|].
  destruct (c =? sep); [discriminate | apply IH].
Qed.

Lemma join_split_from (sep : Z) (s piece : str) :
  join [sep] (split_from sep s piece) = piece ++ s.
Proof.
  revert piece. induction s as [|c s IH]; intros piece; cbn [split_from].
  - cbn [join]. rewrite app_nil_r. reflexivity.
  - destruct (c =? sep) eqn:E.
    + apply Z.eqb_eq in E. subst c.
      rewrite join_cons by apply split_from_nonempty.
      rewrite IH. reflexivity.
    + rewrite IH, <- app_assoc. reflexivity.
Qed.

Lemma split_from_length (sep : Z) (s piece : str) :
  List.length (split_from sep s piece) = S (count_occ Z.eq_dec s sep).
Proof.
  revert piece.
  induction s as [|c s IH]; intros piece; cbn [split_from count_occ];
    [reflexivity|].
  destruct (c =? sep) eqn:E.
  - apply Z.eqb_eq in E. destruct (Z.eq_dec c sep); [|contradiction].
    cbn [List.length]. rewrite IH. reflexivity.
  - apply Z.eqb_neq in E. destruct (Z.eq_dec c sep); [contradiction|].
    apply IH.
Qed.

Lemma split_from_no_sep (sep : Z) (s piece : str) :
  ~ In sep piece ->
  Forall (fun p => ~ In sep p) (split_from sep s piece).
Proof.
  revert piece. induction s as [|c s IH]; intros piece H; cbn [split_from].
  - constructor; [exact H | constructor].
  - destruct (c =? sep) eqn:E.
    + constructor; [exact H|]. apply IH. intros [].
    + apply IH. intros Hin. apply in_app_or in Hin.
      destruct Hin as [Hin|[Hc|[]]]; [exact (H Hin)|].
      apply Z.eqb_neq in E. exact (E Hc).
Qed.

Lemma lstrip_space_split (s : str) :
  exists a,
    s = a ++ lstrip_space s /\ forallb isspace a = true /\
    match lstrip_space s with
    | [] => True
    | c :: _ => isspace c = false
    end.
Proof.
  induction s as [|c s (a & Hs & Ha & Hh)].
  - exists []. cbn. auto.
  - cbn [lstrip_space]. destruct (isspace c) eqn:E.
    + exists (c :: a). cbn [app forallb]. rewrite E, Ha.
      split; [f_equal; exact Hs|]. split; [reflexivity | exact Hh].
    + exists []. cbn [app forallb].
      split; [reflexivity|]. split; [reflexivity | exact E].
Qed.

Lemma strip_spec (s : str) :
  trimmed (strip s) /\
  exists a b,
    s = a ++ strip s ++ b /\
    forallb isspace a = true /\ forallb isspace b = true.
Proof.
  unfold strip.
  destruct (lstrip_space_split s) as (a & Hs & Ha & Hh).
  remember (lstrip_space s) as t eqn:Heqt. clear Heqt.
  destruct (lstrip_space_split (rev t)) as (b & Ht & Hb & Hu).
  remember (lstrip_space (rev t)) as u eqn:Hequ. clear Hequ.
  assert (Et : t = rev u ++ rev b).
  { rewrite <- rev_app_distr, <- Ht, rev_involutive. reflexivity. }
  split.
  - destruct u as [|c u']; [exact I|].
    cbn [rev] in *. unfold trimmed.
    destruct (rev u' ++ [c]) as [|d r] eqn:Er; [exact I|].
    split.
    + rewrite Et in Hh. exact Hh.
    + rewrite <- Er, last_last. exact Hu.
  - exists a, (rev b). split; [rewrite <- Et; exact Hs|].
    split; [exact Ha|].
    rewrite forallb_forall in *. intros x Hx. apply Hb, in_rev, Hx.
Qed.

(** X11.  The command [create] reads a list of key points or questions
    off one argument by cutting it at every comma: an argument that is
    not empty gives one entry more than it has commas, so at least one.
    Every entry is its piece of the argument without the whitespace
    around it; an entry neither begins nor ends with whitespace, and it
    is empty when its piece is blank. *)
Theorem parse_list_entries (arg : str) :
  arg <> [] ->
  exists pieces,
    join [44] pieces = arg /\
    List.length pieces = S (count_occ Z.eq_dec arg 44) /\
    Forall (fun piece => ~ In 44 piece) pieces /\
    Forall2 (fun piece entry =>
               trimmed entry /\
               exists a b,
                 piece = a ++ entry ++ b /\
                 forallb isspace a = true /\ forallb isspace b = true)
            pieces (Main.parse_list (Some arg)).
Proof.
  intros H. exists (split 44 arg).
  destruct arg as [|c s]; [congruence|].
  split; [apply (join_split_from 44 (c :: s) [])|].
  split; [apply split_from_length|].
  split; [apply split_from_no_sep; intros []|].
  cbn [Main.parse_list]. generalize (split 44 (c :: s)). intros l.
  induction l as [|p l IH]; cbn [map]; constructor; [|exact IH].
  apply strip_spec.
Qed.

Lemma parse_list_entries_witness :
  exists pieces,
    join [44] pieces = lit " a, b ,,c " /\
    List.length pieces = S (count_occ Z.eq_dec (lit " a, b ,,c ") 44) /\
    Forall (fun piece => ~ In 44 piece) pieces /\
    Forall2 (fun piece entry =>
               trimmed entry /\
               exists a b,
                 piece = a ++ entry ++ b /\
                 forallb isspace a = true /\ forallb isspace b = true)
            pieces (Main.parse_list (Some (lit " a, b ,,c "))).
Proof.
  apply (parse_list_entries (lit " a, b ,,c ")). vm_compute. discriminate.
Defined.

Lemma attach_obj (lib : Library) (fs : str -> option bytes)
    (c : Container.t) (p : str) :
  Main.attach lib fs (Container.obj c) p
  = Container.obj
      (with_attachments c
         (Container.attachments c ++ Main.entries_of lib fs [p])).
Proof.
  unfold Main.attach, Gossip.add_file, Main.entries_of. cbn [flat_map].
  destruct (fs p) as [data|].
  - destruct c. unfold Container.obj, with_attachments.
    cbn [Gossip.files Gossip.set_files Container.id Container.createdAt
         Container.topic Container.sourceSystem Container.summary
         Container.keyPoints Container.openQuestions
         Container.continuation Container.attachments].
    rewrite !app_nil_r, map_app. reflexivity.
  - rewrite !app_nil_r. destruct c; reflexivity.
Qed.

Lemma entries_of_app (lib : Library) (fs : str -> option bytes)
    (l l' : list str) :
  Main.entries_of lib fs (l ++ l')
  = Main.entries_of lib fs l ++ Main.entries_of lib fs l'.
Proof. apply flat_map_app. Qed.

Lemma fold_attach_obj (lib : Library) (fs : str -> option bytes)
    (filepaths : list str) (c : Container.t) :
  fold_left (Main.attach lib fs) filepaths (Container.obj c)
  = Container.obj
      (with_attachments c
         (Container.attachments c ++ Main.entries_of lib fs filepaths)).
Proof.
  revert c. induction filepaths as [|p ps IH]; intros c.
  - cbn [fold_left Main.entries_of flat_map]. rewrite app_nil_r.
    destruct c; reflexivity.
  - cbn [fold_left]. rewrite attach_obj, IH.
    change (p :: ps) with ([p] ++ ps). rewrite entries_of_app.
    cbn [with_attachments Container.attachments]. rewrite <- app_assoc.
    destruct c; reflexivity.
Qed.

Lemma create_instance (lib : Library) (paths : PathLibrary)
    (write_text : str -> str -> result unit) (w : Gossip.World)
    (fs : str -> option bytes) (args : Main.CreateArgs) :
  Main.create lib paths write_text w fs args
  = (written <-
       GossipOutput.save lib paths write_text
         (Container.obj (Main.created lib w fs args))
         (Main.output args) (Main.format args) ;;
     Ok (Container.obj (Main.created lib w fs args), written)).
Proof.
  unfold Main.create, Gossip.new. cbn [bind].
  assert (E : Gossip.__init__ w (PStr (Main.topic args))
                (PStr (Main.summary args)) (PStr (Main.source_ai args))
                (PList (map PStr (Main.parse_list (Main.keypoints args))))
                (PList (map PStr (Main.parse_list (Main.questions args))))
                match Main.continuation args with
                | Some c => PStr c
                | None => PNone
                end PNone PNone
              = Container.obj
                  (with_attachments (Main.created lib w fs args) [])).
  { unfold Gossip.__init__, Container.obj, with_attachments, Main.created.
    cbn [Container.id Container.createdAt Container.topic
         Container.sourceSystem Container.summary Container.keyPoints
         Container.openQuestions Container.continuation
         Container.attachments map].
    destruct (Main.parse_list (Main.keypoints args));
      destruct (Main.parse_list (Main.questions args));
      destruct (Main.continuation args) as [[|? ?]|]; reflexivity. }
  rewrite E.
  assert (F : match Main.files args with
              | Some (p :: ps) =>
                  fold_left (Main.attach lib fs) (p :: ps)
                    (Container.obj
                       (with_attachments (Main.created lib w fs args) []))
              | _ => Container.obj
                       (with_attachments (Main.created lib w fs args) [])
              end
              = Container.obj (Main.created lib w fs args)).
  { destruct (Main.files args) as [[|p ps]|] eqn:Ef.
    - unfold with_attachments, Main.created. rewrite Ef. reflexivity.
    - rewrite fold_attach_obj. unfold with_attachments, Main.created.
      rewrite Ef. reflexivity.
    - unfold with_attachments, Main.created. rewrite Ef. reflexivity. }
  rewrite F. reflexivity.
Qed.

(** X12.  The instance that [create] hands to [save] has the arguments
    at the declared types: topic, summary and source as given, the key
    points and questions read off their arguments, the continuation or
    the empty string, a new id and time, and one entry for every given
    file that exists, in the order of the command line; a file that does
    not exist is passed over and stops nothing.  [create] fails only as
    [save] fails. *)
Theorem create_result (lib : Library) (paths : PathLibrary)
    (write_text : str -> str -> result unit) (w : Gossip.World)
    (fs : str -> option bytes) (args : Main.CreateArgs) :
  Main.create lib paths write_text w fs args
  = (written <-
       GossipOutput.save lib paths write_text
         (Container.obj (Main.created lib w fs args))
         (Main.output args) (Main.format args) ;;
     Ok (Container.obj (Main.created lib w fs args), written)) /\
  (forall filepaths missing rest,
      Main.files args = Some (filepaths ++ missing :: rest) ->
      fs missing = None ->
      Container.attachments (Main.created lib w fs args)
      = Main.entries_of lib fs filepaths ++ Main.entries_of lib fs rest).
Proof.
  split; [apply create_instance|].
  intros filepaths missing rest Hf Hm.
  unfold Main.created. rewrite Hf. cbn [Container.attachments].
  rewrite entries_of_app.
  change (missing :: rest) with ([missing] ++ rest).
  rewrite entries_of_app. unfold Main.entries_of at 2. cbn [flat_map].
  rewrite Hm. reflexivity.
Qed.

Lemma create_result_witness :
  Container.attachments
    (Main.created Reference.library Sample.world Sample2.fs
                  Sample2.create_args)
  = Main.entries_of Reference.library Sample2.fs []
    ++ Main.entries_of Reference.library Sample2.fs
         [lit "docs/abc.TXT"; lit "data/x.bin"].
Proof.
  apply (proj2 (create_result Reference.library ReferencePaths.library
                  (fun _ _ => Ok tt) Sample.world Sample2.fs
                  Sample2.create_args)
           [] (lit "missing.txt") [lit "docs/abc.TXT"; lit "data/x.bin"]);
    reflexivity.
Defined.

Lemma app_not_nil_r {A} (l l' : list A) : l' <> [] -> l ++ l' <> [].
Proof. destruct l, l'; cbn; congruence. Qed.

Lemma created_valid (lib : Library) (w : Gossip.World)
    (fs : str -> option bytes) (args : Main.CreateArgs) :
  valid (Container.obj (Main.created lib w fs args)).
Proof.
  apply obj_valid; unfold Main.created;
    cbn [Container.id Container.createdAt].
  - discriminate.
  - apply app_not_nil_r. discriminate.
Qed.

(** X13.  The file that [create] has attached comes back from [extract]
    byte for byte: [create] saves as JSON, [extract] loads what was
    written and gives the content of the file under its name, when no
    existing file given before it has the same name.  [json.loads] is
    taken to read the text of [to_json] as the dictionary it was made
    from. *)
Theorem create_then_extract (lib : Library) (paths : PathLibrary)
    (write_text : str -> str -> result unit)
    (read_text : str -> result str) (w w' : Gossip.World)
    (fs : str -> option bytes) (args : Main.CreateArgs)
    (g : Gossip.t) (path content filepath : str) (data : bytes)
    (before after : list str) (output_path : option str) :
  Main.format args = lit "json" ->
  Main.create lib paths write_text w fs args = Ok (g, (path, content)) ->
  json_loads lib (Gossip.to_json g true) = Some (Gossip.to_dict g) ->
  read_text path = Ok content ->
  Main.files args = Some (before ++ filepath :: after) ->
  fs filepath = Some data ->
  (forall p, In p before -> fs p <> None ->
             path_name lib p <> path_name lib filepath) ->
  Main.extract lib w' read_text
    (Main.mkExtract path (path_name lib filepath) output_path)
  = Ok (match output_path with
        | Some p => p
        | None => path_name lib filepath
        end, data).
Proof.
  intros Hfmt Hc Hj Hr Hf Hd Hn.
  rewrite create_instance in Hc.
  apply bind_ok in Hc. destruct Hc as ([path' content'] & Hs & Hc).
  injection Hc as <- -> ->. rewrite Hfmt in Hs.
  assert (Hl : Gossip.load lib w' read_text path
               = Ok (Container.obj (Main.created lib w fs args))).
  { exact (save_then_load_gen lib paths write_text read_text w' _ _ _ _
             (created_valid lib w fs args) Hj Hs Hr). }
  unfold Main.extract.
  cbn [Main.gossip Main.filename Main.extract_output].
  rewrite Hl. cbn [bind].
  unfold Gossip.extract_file, Container.obj; cbn [Gossip.files py_iter bind].
  unfold Main.created at 1. cbn [Container.attachments]. rewrite Hf.
  change (filepath :: after) with ([filepath] ++ after).
  rewrite !entries_of_app, !map_app.
  rewrite extract_loop_skip.
  2: { intros x Hx. unfold Main.entries_of in Hx.
       apply in_flat_map in Hx. destruct Hx as (p & Hp & Hx).
       destruct (fs p) as [d|] eqn:Ep; [|destruct Hx].
       destruct Hx as [<-|[]]. cbn [Attachment.name Main.entry_of].
       apply Hn; [exact Hp | congruence]. }
  unfold Main.entries_of at 1. cbn [flat_map]. rewrite Hd.
  cbn [app map Gossip.extract_loop].
  change (subscript (Attachment.to_value ?a) (lit "name"))
    with (@Ok pyval (PStr (Attachment.name a))).
  change (subscript (Attachment.to_value ?a) (lit "data"))
    with (@Ok pyval (PStr (Attachment.payload a))).
  cbn [bind Gossip.equals_str Gossip.b64decode_value Attachment.name
       Attachment.payload Main.entry_of].
  rewrite str_eqb_refl, Base64Facts.b64decode_b64encode. reflexivity.
Qed.

Lemma create_then_extract_witness :
  Main.extract Reference.library Sample.world
    (fun _ =>
       Ok (Gossip.to_json
             (Container.obj
                (Main.created Reference.library Sample.world Sample2.fs
                              Sample2.create_args)) true))
    (Main.mkExtract (lit "out/talk.gossip") (lit "x.bin") None)
  = Ok (lit "x.bin", [Byte.x00; Byte.xff]).
Proof.
  apply (create_then_extract Reference.library ReferencePaths.library
           (fun _ _ => Ok tt)
           (fun _ =>
              Ok (Gossip.to_json
                    (Container.obj
                       (Main.created Reference.library Sample.world
                                     Sample2.fs Sample2.create_args)) true))
           Sample.world Sample.world Sample2.fs Sample2.create_args
           (Container.obj
              (Main.created Reference.library Sample.world Sample2.fs
                            Sample2.create_args))
           (lit "out/talk.gossip")
           (Gossip.to_json
              (Container.obj
                 (Main.created Reference.library Sample.world Sample2.fs
                               Sample2.create_args)) true)
           (lit "data/x.bin") [Byte.x00; Byte.xff]
           [lit "missing.txt"; lit "docs/abc.TXT"] [] None).
  - reflexivity.
  - vm_compute. reflexivity.
  - vm_compute. reflexivity.
  - reflexivity.
  - reflexivity.
  - reflexivity.
  - intros p [<-|[<-|[]]] Hfs.
    + exfalso. apply Hfs. reflexivity.
    + vm_compute. discriminate.
Defined.
